(** * The Odoo client of raycast-odoo: model and properties

    The development follows the TypeScript sources under [utils/odoo]:
    - [format.ts]     : [getElapsedSeconds], [formatDuration], [truncate],
                        [formatMenuBarTitle]
    - [types.ts]      : the records and the two error classes
    - [client.ts]     : [OdooClient] ([request], [callKw], [setSession],
                        [normalizeUrl], [isValidUrl])
    - [auth.ts]       : session storage, [extractDatabaseName], [login],
                        [logout]
    - [attendance.ts] : [getAttendanceStatus], [toggleCheckInOut]
    - [timesheet.ts]  : the timer operations

    Conventions of the model.
    - Asynchronous functions are computations in a state-and-exception
      monad [M] over a [World]: the key-value store, the wall clock, the
      server's answers and the requests sent so far.  Every [await] of the
      sources is sequenced, so one operation is a deterministic function of
      the world.
    - The server is any function from the position of a request to an
      [Exchange]: a latency and either a network failure or an HTTP
      response.  Time only advances with the latency of an exchange and
      between operations.
    - Values from the network and from the store are JSON.  Where the
      sources cast them ([as T]), the model views them at the declared type
      [T]; a value outside [T] ends the run as [Stuck], about which nothing
      is claimed.  One field is read as it comes: [timer_start], which the
      sources copy into the timer state without a look at it
      ([viewTimerStart]), so a row without a start time gives a state
      without one.
    - Numbers are integers ([Z]); strings are byte strings.
    - The host's time zone ([LocalTZA]) and URL parser ([URL_hostname],
      [URL_protocol]) are parameters. *)

From Stdlib Require Import ZArith Lia Bool List Ascii String DecimalString DecimalPos DecimalZ.
From stdpp Require Import base option gmap strings list.

Local Open Scope string_scope.
Local Open Scope Z_scope.

(** ** JavaScript string primitives used by the sources *)

Module JsString.

Definition chars (s : string) : list ascii := list_ascii_of_string s.
Definition ofChars (l : list ascii) : string := string_of_list_ascii l.

(** [s.startsWith(p)] *)
Fixpoint startsWithL (p s : list ascii) : bool :=
  match p, s with
  | [], _ => true
  | _ :: _, [] => false
  | a :: p', b :: s' => Ascii.eqb a b && startsWithL p' s'
  end.

Definition startsWith (s p : string) : bool := startsWithL (chars p) (chars s).

(** [s.endsWith(p)] *)
Definition endsWith (s p : string) : bool :=
  startsWithL (rev (chars p)) (rev (chars s)).

(** [s.includes(p)] *)
Fixpoint includesL (p s : list ascii) : bool :=
  startsWithL p s ||
  match s with
  | [] => false
  | _ :: s' => includesL p s'
  end.

Definition includes (s p : string) : bool := includesL (chars p) (chars s).

(** [s.replace(c, d)] for one-character strings [c] and [d]: only the
    first occurrence is replaced. *)
Fixpoint replaceFirstL (c d : ascii) (s : list ascii) : list ascii :=
  match s with
  | [] => []
  | a :: s' => if Ascii.eqb a c then d :: s' else a :: replaceFirstL c d s'
  end.

Definition replaceFirst (c d : ascii) (s : string) : string :=
  ofChars (replaceFirstL c d (chars s)).

(** Drop the last [n] characters. *)
Definition dropEnd (n : nat) (s : string) : string :=
  ofChars (rev (drop n (rev (chars s)))).

(** A string is falsy exactly when it is empty. *)
Definition truthy (s : string) : bool :=
  match s with EmptyString => false | _ => true end.

End JsString.

(** ** The ECMAScript time model behind [Date]

    Time values are milliseconds since the epoch; [None] stands for the
    invalid date ([NaN]). *)

Module JsDate.

Definition msPerDay : Z := 86400000.

Definition isLeap (y : Z) : bool :=
  ((y mod 4 =? 0) && negb (y mod 100 =? 0)) || (y mod 400 =? 0).

(** [DayFromYear(y)]: day number of 1 January of year [y]. *)
Definition DayFromYear (y : Z) : Z :=
  365 * (y - 1970) + (y - 1969) / 4 - (y - 1901) / 100 + (y - 1601) / 400.

Definition daysInMonth (y m : Z) : Z :=
  if m =? 2 then (if isLeap y then 29 else 28)
  else if (m =? 4) || (m =? 6) || (m =? 9) || (m =? 11) then 30
  else 31.

(** Days of the year before the first of month [m] (1-based). *)
Definition daysBeforeMonth (y m : Z) : Z :=
  let leap := if isLeap y then 1 else 0 in
  if m =? 1 then 0
  else if m =? 2 then 31
  else if m =? 3 then 59 + leap
  else if m =? 4 then 90 + leap
  else if m =? 5 then 120 + leap
  else if m =? 6 then 151 + leap
  else if m =? 7 then 181 + leap
  else if m =? 8 then 212 + leap
  else if m =? 9 then 243 + leap
  else if m =? 10 then 273 + leap
  else if m =? 11 then 304 + leap
  else 334 + leap.

(** [MakeDay], for a month in 1..12 and a day of the month. *)
Definition MakeDay (y m d : Z) : Z :=
  DayFromYear y + daysBeforeMonth y m + (d - 1).

Definition MakeTime (h mi s ms : Z) : Z :=
  h * 3600000 + mi * 60000 + s * 1000 + ms.

Definition MakeDate (day time : Z) : Z := day * msPerDay + time.

(** [TimeClip]: time values beyond 8.64e15 ms are invalid. *)
Definition TimeClip (t : Z) : option Z :=
  if Z.abs t <=? 8640000000000000 then Some t else None.

(** *** Parsing *)

Definition digitVal (c : ascii) : option Z :=
  let n := Z.of_N (N_of_ascii c) in
  if (48 <=? n) && (n <=? 57) then Some (n - 48) else None.

Definition num2 (a b : ascii) : option Z :=
  x ← digitVal a; y ← digitVal b; Some (10 * x + y).

Definition num3 (a b c : ascii) : option Z :=
  x ← digitVal a; y ← num2 b c; Some (100 * x + y).

Definition num4 (a b c d : ascii) : option Z :=
  x ← num2 a b; y ← num2 c d; Some (100 * x + y).

Definition isChar (c : ascii) (x : string) : bool := String.eqb (String c EmptyString) x.

(** The fields of ["YYYY-MM-DDTHH:mm:ss"], range-checked as the host's
    parser does: a month from 1 to 12, a day from 1 to 31 in any month
    (the days past the end of a month count on into the next, through
    [MakeDay]), hour 24 only as 24:00:00. *)
Definition parseFields (y1 y2 y3 y4 s1 m1 m2 s2 d1 d2 s3 h1 h2 s4 i1 i2 s5 c1 c2 : ascii)
  : option (Z * Z) :=
  y ← num4 y1 y2 y3 y4;
  m ← num2 m1 m2;
  d ← num2 d1 d2;
  h ← num2 h1 h2;
  mi ← num2 i1 i2;
  s ← num2 c1 c2;
  if isChar s1 "-" && isChar s2 "-" && isChar s3 "T" && isChar s4 ":" && isChar s5 ":"
     && (1 <=? m) && (m <=? 12) && (1 <=? d) && (d <=? 31)
     && ((h <=? 23) || ((h =? 24) && (mi =? 0) && (s =? 0)))
     && (mi <=? 59) && (s <=? 59)
  then Some (MakeDay y m d, MakeTime h mi s 0)
  else None.

Section LocalTime.

(** [LocalTZA t]: the offset of local time from UTC, in milliseconds, at
    the local time value [t].  It belongs to the host, not to the
    program. *)
Variable LocalTZA : Z -> Z.

Definition UTC (t : Z) : Z := t - LocalTZA t.

(** [new Date(s).getTime()] for the two shapes of date-time string that
    this program handles: ["YYYY-MM-DDTHH:mm:ss"], read as local time,
    and ["YYYY-MM-DDTHH:mm:ss.sssZ"], read as UTC.  For any other string
    the standard leaves the result to the implementation; the model
    reports the invalid date. *)
Definition parse (s : string) : option Z :=
  match JsString.chars s with
  | [y1; y2; y3; y4; s1; m1; m2; s2; d1; d2; s3; h1; h2; s4; i1; i2; s5; c1; c2] =>
      '(day, time) ← parseFields y1 y2 y3 y4 s1 m1 m2 s2 d1 d2 s3 h1 h2 s4 i1 i2 s5 c1 c2;
      TimeClip (UTC (MakeDate day time))
  | [y1; y2; y3; y4; s1; m1; m2; s2; d1; d2; s3; h1; h2; s4; i1; i2; s5; c1; c2;
     dot; f1; f2; f3; z] =>
      '(day, time) ← parseFields y1 y2 y3 y4 s1 m1 m2 s2 d1 d2 s3 h1 h2 s4 i1 i2 s5 c1 c2;
      ms ← num3 f1 f2 f3;
      if isChar dot "." && isChar z "Z"
      then TimeClip (MakeDate day time + ms)
      else None
  | _ => None
  end.

End LocalTime.

(** *** Formatting *)

(** Year, month and day of the month of a day number. *)
Definition civilFromDay (day : Z) : Z * Z * Z :=
  let z := day + 719468 in
  let era := z / 146097 in
  let doe := z - era * 146097 in
  let yoe := (doe - doe / 1460 + doe / 36524 - doe / 146096) / 365 in
  let doy := doe - (365 * yoe + yoe / 4 - yoe / 100) in
  let mp := (5 * doy + 2) / 153 in
  let d := doy - (153 * mp + 2) / 5 + 1 in
  let m := if mp <? 10 then mp + 3 else mp - 9 in
  let y := yoe + era * 400 in
  (if m <=? 2 then y + 1 else y, m, d).

Definition digitChar (k : Z) : ascii := ascii_of_N (Z.to_N (48 + k)).

(** The last [n] decimal digits of [k], most significant first. *)
Fixpoint pad (n : nat) (k : Z) : list ascii :=
  match n with
  | O => []
  | S n' => pad n' (k / 10) ++ [digitChar (k mod 10)]
  end.

Definition yearChars (y : Z) : list ascii :=
  if (0 <=? y) && (y <=? 9999) then pad 4 y
  else (if y <? 0 then "-"%char else "+"%char) :: pad 6 (Z.abs y).

(** [new Date(t).toISOString()]; [None] is the [RangeError] raised for an
    invalid date. *)
Definition toISOString (t : Z) : option string :=
  t ← TimeClip t;
  let day := t / msPerDay in
  let tm := t mod msPerDay in
  let '(y, m, d) := civilFromDay day in
  Some (JsString.ofChars
    (yearChars y ++ "-"%char :: pad 2 m ++ "-"%char :: pad 2 d ++ "T"%char ::
     pad 2 (tm / 3600000) ++ ":"%char :: pad 2 (tm / 60000 mod 60) ++ ":"%char ::
     pad 2 (tm / 1000 mod 60) ++ "."%char :: pad 3 (tm mod 1000) ++ ["Z"%char])).

End JsDate.

(** ** [getElapsedSeconds] (format.ts) *)

Module Format.

Section LocalTime.

Variable LocalTZA : Z -> Z.

(** [new Date(s.replace(" ", "T")).getTime()] *)
Definition dateOf (s : string) : option Z :=
  JsDate.parse LocalTZA (JsString.replaceFirst " "%char "T"%char s).

(** [Math.floor((now.getTime() - start.getTime()) / 1000)]; [None] is
    [NaN], the result when either date is invalid. *)
Definition getElapsedSeconds (startTime serverTime : string) : option Z :=
  start ← dateOf startTime;
  now ← dateOf serverTime;
  Some ((now - start) / 1000).

End LocalTime.

End Format.

(** ** JSON values

    Numbers are integers: the ids, minute counts and millisecond timestamps
    the program computes with.  [JNum] does not cover fractional values. *)

#[warnings="-register-all"]
Inductive JSON : Type :=
| JNull
| JBool (b : bool)
| JNum (n : Z)
| JStr (s : string)
| JArr (items : list JSON)
| JObj (fields : list (string * JSON)).

Module Json.

Fixpoint assoc {A : Type} (k : string) (l : list (string * A)) : option A :=
  match l with
  | [] => None
  | (k', v) :: l' => if String.eqb k k' then Some v else assoc k l'
  end.

(** [j.k]; [None] is [undefined]. *)
Definition field (k : string) (j : JSON) : option JSON :=
  match j with
  | JObj fs => assoc k fs
  | _ => None
  end.

(** [obj.k = v]: an existing key keeps its place, a new key goes last. *)
Fixpoint setField (k : string) (v : JSON) (fs : list (string * JSON))
  : list (string * JSON) :=
  match fs with
  | [] => [(k, v)]
  | (k', v') :: fs' =>
      if String.eqb k k' then (k, v) :: fs' else (k', v') :: setField k v fs'
  end.

(** JavaScript truthiness of a value. *)
Definition truthy (j : JSON) : bool :=
  match j with
  | JNull => false
  | JBool b => b
  | JNum n => negb (n =? 0)
  | JStr s => JsString.truthy s
  | JArr _ | JObj _ => true
  end.

(** Truthiness of a possibly [undefined] value. *)
Definition truthyOpt (j : option JSON) : bool :=
  match j with
  | None => false
  | Some j => truthy j
  end.

Definition ofOptNum (n : option Z) : JSON :=
  match n with Some n => JNum n | None => JNull end.

Definition ofOptStr (s : option string) : JSON :=
  match s with Some s => JStr s | None => JNull end.

(** *** Typed views

    A cast [x as T] is modelled by a partial view of the JSON value at the
    declared type [T]; [None] means that the value does not inhabit [T]. *)

Definition asNum (j : JSON) : option Z :=
  match j with JNum n => Some n | _ => None end.

Definition asStr (j : JSON) : option string :=
  match j with JStr s => Some s | _ => None end.

(** [T | null] *)
Definition asNullable {T : Type} (view : JSON -> option T) (j : JSON)
  : option (option T) :=
  match j with
  | JNull => Some None
  | _ => Some <$> view j
  end.

(** [T[]] *)
Definition asArray {T : Type} (view : JSON -> option T) (j : JSON)
  : option (list T) :=
  match j with
  | JArr items => mapM view items
  | _ => None
  end.

(** A required property [k: T]. *)
Definition req {T : Type} (view : JSON -> option T) (k : string) (j : JSON)
  : option T :=
  field k j ≫= view.

(** An optional property [k?: T]. *)
Definition opt {T : Type} (view : JSON -> option T) (k : string) (j : JSON)
  : option (option T) :=
  match field k j with
  | None => Some None
  | Some v => Some <$> view v
  end.

(** An optional property that the server may also send as [null] or
    [false] (Odoo's encoding of an empty field).  Every use of such a
    property in the sources is guarded by [!x] or [x || d], which do not
    tell these values from [undefined]. *)
Definition optFalsy {T : Type} (view : JSON -> option T) (k : string) (j : JSON)
  : option (option T) :=
  match field k j with
  | None | Some JNull | Some (JBool false) => Some None
  | Some v => Some <$> view v
  end.

End Json.

(** ** types.ts *)

Record SessionInfo := {
  sessionId : string;
  baseUrl : string;
  userId : Z;
  companyId : Z;
  employeeId : Z;
  employeeName : string;
  username : string;
  cookies : option (list string)
}.

Inductive AttendanceStatus := checked_in | checked_out.

Record AttendanceState := {
  attendance_state : AttendanceStatus;
  last_check_in : option string;
  last_check_out : option string;
  hours_today : Z;
  employee_name : string
}.

Module Project.
Record t := { id : Z; name : string }.
End Project.

Module Task.
Record t := { id : Z; name : string }.
End Task.

Record TimerState := {
  timerId : option Z;
  projectId : option Z;
  projectName : option string;
  taskId : option Z;
  taskName : option string;
  description : option string;
  startTime : option string
}.

Record RpcErrorData := { data_message : string; data_debug : string }.

Record RpcError := {
  error_code : Z;
  error_message : string;
  error_data : option RpcErrorData
}.

(** [JsonRpcResponse<T>]; the result is kept as JSON and viewed at [T] by
    the caller. *)
Record JsonRpcResponse := {
  rpc_result : option JSON;
  rpc_error : option RpcError
}.

Record CachedData (T : Type) := { data : T; timestamp : Z }.
Arguments data {T} _.
Arguments timestamp {T} _.
Arguments Build_CachedData {T} _ _.

(** Everything the program throws.  [OdooApiError] and [SessionExpiredError]
    are the classes of types.ts; [Error] is the plain JavaScript error and
    [RangeError] the one [toISOString] raises on an invalid date.  All of
    them are instances of [Error]. *)
Inductive Exn :=
| OdooApiError (message : string) (code : option Z) (debug : option string)
| SessionExpiredError (message : string)
| Error (message : string)
| RangeError (message : string).

Definition exnMessage (e : Exn) : string :=
  match e with
  | OdooApiError m _ _ | SessionExpiredError m | Error m | RangeError m => m
  end.

Definition defaultSessionExpired : Exn :=
  SessionExpiredError "Session expired, please login again".

(** ** The world an operation runs in *)

(** What [JSON.parse] makes of a stored string.  The program only ever
    stores [JSON.stringify] of a value and reads it back with [JSON.parse],
    so a stored string is identified with its parse: [Parsed j] is the text
    of [j], [Unparseable raw] a string on which [JSON.parse] throws. *)
Inductive Stored :=
| Unparseable (raw : string)
| Parsed (j : JSON).

(** One HTTP POST as [request] issues it. *)
Record Request := {
  req_url : string;
  req_cookie : option string;
  req_body : JSON
}.

Inductive Body :=
| NotJson (message : string)
| JsonBody (r : JsonRpcResponse).

Record Response := {
  status : Z;
  statusText : string;
  setCookie : option string;
  body : Body
}.

(** [response.ok] *)
Definition ok (r : Response) : bool := (200 <=? status r) && (status r <=? 299).

Inductive FetchResult :=
| FetchFailed (message : string)
| Responded (r : Response).

(** What the network does with one request: how long it takes and what
    comes back. *)
Record Exchange := {
  latency : N;
  answer : FetchResult
}.

Module OdooClient.

(** The fields of an [OdooClient] object. *)
Record t := {
  baseUrl : string;
  sessionId : option string;
  cookies : list string;
  requestId : Z
}.

End OdooClient.

(** - [storage]: the storage provider, a total key-value store;
    - [clock]: what [Date.now()] reads;
    - [server]: the exchange that answers the n-th request sent;
    - [sent]: the requests sent so far, oldest first;
    - [clients]: the [OdooClient] objects allocated so far, addressed by
      position. *)
Record World := {
  storage : gmap string Stored;
  clock : Z;
  server : nat -> Exchange;
  sent : list Request;
  clients : list OdooClient.t
}.

(** How a run ends.  [Stuck] marks a run that left the typed model: a value
    cast with [as T] did not inhabit [T]. *)
Inductive Outcome (A : Type) :=
| Returned (a : A)
| Thrown (e : Exn)
| Stuck.
Arguments Returned {A} _.
Arguments Thrown {A} _.
Arguments Stuck {A}.

Definition M (A : Type) : Type := World -> Outcome A * World.

Definition ret {A : Type} (a : A) : M A := fun w => (Returned a, w).

Definition bind {A B : Type} (m : M A) (k : A -> M B) : M B :=
  fun w =>
    match m w with
    | (Returned a, w') => k a w'
    | (Thrown e, w') => (Thrown e, w')
    | (Stuck, w') => (Stuck, w')
    end.

Definition throw {A : Type} (e : Exn) : M A := fun w => (Thrown e, w).

Definition stuck {A : Type} : M A := fun w => (Stuck, w).

(** A computation that does not touch the world. *)
Definition lift {A : Type} (o : Outcome A) : M A := fun w => (o, w).

(** [try { m } catch (e) { h e }] *)
Definition tryCatch {A : Type} (m : M A) (h : Exn -> M A) : M A :=
  fun w =>
    match m w with
    | (Thrown e, w') => h e w'
    | r => r
    end.

(** The cast [x as T] through a typed view. *)
Definition cast {A : Type} (v : option A) : M A :=
  match v with
  | Some a => ret a
  | None => stuck
  end.

Notation "'let*' x ':=' m 'in' k" := (bind m (fun x => k))
  (at level 10, x pattern, m at level 100, k at level 200).
Notation "m ';;' k" := (bind m (fun _ => k))
  (at level 100, k at level 200, right associativity).

(** [Date.now()] *)
Definition now : M Z := fun w => (Returned (clock w), w).

(** The three operations of [StorageProvider]. *)
Definition getItem (key : string) : M (option Stored) :=
  fun w => (Returned (storage w !! key), w).

Definition setItem (key : string) (value : Stored) : M unit :=
  fun w => (Returned tt,
            {| storage := <[key := value]> (storage w); clock := clock w;
               server := server w; sent := sent w; clients := clients w |}).

Definition removeItem (key : string) : M unit :=
  fun w => (Returned tt,
            {| storage := delete key (storage w); clock := clock w;
               server := server w; sent := sent w; clients := clients w |}).

(** [!raw] for a stored string: [null] and the empty string are falsy. *)
Definition storedFalsy (raw : option Stored) : bool :=
  match raw with
  | None | Some (Unparseable EmptyString) => true
  | _ => false
  end.

(** [fetch(url, ...)]: the request is recorded, the clock advances by the
    exchange's latency, and the exchange's answer comes back. *)
Definition fetch (r : Request) : M FetchResult :=
  fun w =>
    let x := server w (length (sent w)) in
    (Returned (answer x),
     {| storage := storage w; clock := clock w + Z.of_N (latency x);
        server := server w; sent := sent w ++ [r]; clients := clients w |}).

(** Allocation, reading and update of client objects. *)
Definition newRef (c : OdooClient.t) : M nat :=
  fun w => (Returned (length (clients w)),
            {| storage := storage w; clock := clock w; server := server w;
               sent := sent w; clients := clients w ++ [c] |}).

Definition readRef (this : nat) : M OdooClient.t :=
  fun w =>
    match clients w !! this with
    | Some c => (Returned c, w)
    | None => (Stuck, w)
    end.

Definition writeRef (this : nat) (c : OdooClient.t) : M unit :=
  fun w => (Returned tt,
            {| storage := storage w; clock := clock w; server := server w;
               sent := sent w; clients := <[this := c]> (clients w) |}).

(** ** client.ts: [OdooClient] *)

Module Client.

Import OdooClient.

(** [baseUrl.replace(/\/$/, ...)] with the empty replacement: one
    trailing slash is dropped. *)
Definition stripTrailingSlash (s : string) : string :=
  if JsString.endsWith s "/" then JsString.dropEnd 1 s else s.

Definition sessionCookie (sessionId : string) : string :=
  "session_id=" +:+ sessionId.

(** [new OdooClient(baseUrl, sessionId, cookies)] *)
Definition constructor (baseUrl : string) (sessionId : option string)
    (cookies : list string) : M nat :=
  newRef {| baseUrl := stripTrailingSlash baseUrl;
            sessionId := sessionId;
            cookies :=
              if (0 <? length cookies)%nat then cookies
              else match sessionId with
                   | Some sid => if JsString.truthy sid then [sessionCookie sid] else []
                   | None => []
                   end;
            requestId := 1 |}.

(** [getCookies()] *)
Definition getCookies (this : nat) : M (list string) :=
  let* c := readRef this in ret (cookies c).

(** [getCookieHeader()]: [this.cookies.join("; ")] *)
Fixpoint join (sep : string) (l : list string) : string :=
  match l with
  | [] => EmptyString
  | [x] => x
  | x :: l' => x +:+ sep +:+ join sep l'
  end.

Definition getCookieHeader (c : t) : string := join "; " (cookies c).

(** *** [updateCookiesFromResponse] *)

Definition isC (c : ascii) (x : ascii) : bool := Ascii.eqb c x.

(** The lookahead [(?=[^;]+?=)]: at least one character other than [;],
    then [=], with no [;] in between. *)
Fixpoint eqBeforeSemi (s : list ascii) : bool :=
  match s with
  | [] => false
  | c :: s' =>
      if isC c "=" then true
      else if isC c ";" then false
      else eqBeforeSemi s'
  end.

Definition lookahead (s : list ascii) : bool :=
  match s with
  | [] => false
  | c :: s' => negb (isC c ";") && eqBeforeSemi s'
  end.

(** [s.split(/,(?=[^;]+?=)/)]; [cur] is the piece being read, reversed. *)
Fixpoint splitSetCookie (cur s : list ascii) : list (list ascii) :=
  match s with
  | [] => [rev cur]
  | c :: s' =>
      if isC c "," && lookahead s'
      then rev cur :: splitSetCookie [] s'
      else splitSetCookie (c :: cur) s'
  end.

(** [s.split(";")[0]] and [s.split("=")[0]] *)
Fixpoint upTo (d : ascii) (s : list ascii) : list ascii :=
  match s with
  | [] => []
  | c :: s' => if isC c d then [] else c :: upTo d s'
  end.

Definition isSpace (c : ascii) : bool :=
  let n := N_of_ascii c in
  ((9 <=? n) && (n <=? 13))%N || (n =? 32)%N.

Fixpoint trimStart (s : list ascii) : list ascii :=
  match s with
  | c :: s' => if isSpace c then trimStart s' else s
  | [] => []
  end.

(** [s.trim()] *)
Definition trim (s : list ascii) : list ascii :=
  rev (trimStart (rev (trimStart s))).

(** One turn of the loop over the cookie headers. *)
Definition updateCookie (cookies : list string) (cookieHeader : list ascii)
  : list string :=
  let cookiePair := trim (upTo ";" cookieHeader) in
  let name := upTo "=" cookiePair in
  match name with
  | [] => cookies
  | _ =>
      filter (fun c => negb (JsString.startsWithL (name ++ ["="%char]) (JsString.chars c)))
             cookies
      ++ [JsString.ofChars cookiePair]
  end.

Definition updateCookiesFromResponse (cookies : list string) (response : Response)
  : list string :=
  match setCookie response with
  | None => cookies
  | Some h =>
      if JsString.truthy h
      then fold_left updateCookie (splitSetCookie [] (JsString.chars h)) cookies
      else cookies
  end.

(** *** [request] *)

Definition requestBody (params : JSON) (id : Z) : JSON :=
  JObj [("jsonrpc", JStr "2.0"); ("method", JStr "call");
        ("params", params); ("id", JNum id)].

Definition decimal (n : Z) : string :=
  NilZero.string_of_int (Z.to_int n).

(** What follows [fetch] inside the [try] block; it does not touch the
    world, so it is a function of the response. *)
Definition handleResponse (endpoint : string) (response : Response)
  : Outcome (option JSON) :=
  if negb (ok response) then
    if (status response =? 401) || (status response =? 403)
    then Thrown defaultSessionExpired
    else Thrown (OdooApiError
                   ("HTTP " +:+ decimal (status response) +:+ ": " +:+ statusText response)
                   (Some (status response)) None)
  else
    match body response with
    | NotJson m => Thrown (Error m)
    | JsonBody jsonResponse =>
        match rpc_error jsonResponse with
        | Some e =>
            let errorMessage :=
              match error_data e with
              | Some d =>
                  if JsString.truthy (data_message d) then data_message d
                  else error_message e
              | None => error_message e
              end in
            Thrown (OdooApiError errorMessage (Some (error_code e))
                                 (data_debug <$> error_data e))
        | None =>
            match rpc_result jsonResponse with
            | Some (JBool false) =>
                if JsString.includes endpoint "/web/session"
                then Thrown defaultSessionExpired
                else Returned (Some (JBool false))
            | r => Returned r
            end
        end
    end.

(** The [catch] block of [request]: what is thrown for a caught [error]. *)
Definition rethrow (error : Exn) : Exn :=
  match error with
  | OdooApiError _ _ _ | SessionExpiredError _ => error
  | _ => OdooApiError ("Network error: " +:+ exnMessage error) None None
  end.

(** [this.request(endpoint, params)]; the result [None] is [undefined]. *)
Definition request (this : nat) (endpoint : string) (params : JSON)
  : M (option JSON) :=
  let* c := readRef this in
  let url := baseUrl c +:+ endpoint in
  let requestBody := requestBody params (requestId c) in
  writeRef this {| baseUrl := baseUrl c; sessionId := sessionId c;
                   cookies := cookies c; requestId := requestId c + 1 |} ;;
  let cookie :=
    if match sessionId c with Some sid => JsString.truthy sid | None => false end
       || (0 <? length (cookies c))%nat
    then Some (getCookieHeader c) else None in
  tryCatch
    (let* fetched := fetch {| req_url := url; req_cookie := cookie;
                              req_body := requestBody |} in
     match fetched with
     | FetchFailed m => throw (Error m)
     | Responded response =>
         let* c := readRef this in
         writeRef this {| baseUrl := baseUrl c; sessionId := sessionId c;
                          cookies := updateCookiesFromResponse (cookies c) response;
                          requestId := requestId c |} ;;
         lift (handleResponse endpoint response)
     end)
    (fun error => throw (rethrow error)).

(** [this.callKw(model, method, args, kwargs)] *)
Definition callKw (this : nat) (model method : string) (args : list JSON)
    (kwargs : list (string * JSON)) : M (option JSON) :=
  let context :=
    match Json.assoc "context" kwargs with
    | Some c => if Json.truthy c then c else JObj []
    | None => JObj []
    end in
  let finalKwargs := Json.setField "context" context kwargs in
  request this "/web/dataset/call_kw"
    (JObj [("model", JStr model); ("method", JStr method);
           ("args", JArr args); ("kwargs", JObj finalKwargs)]).

(** [this.setSession(sessionId, cookies)] *)
Definition setSession (this : nat) (sessionId' : string) (cookies' : list string)
  : M unit :=
  let* c := readRef this in
  writeRef this {| baseUrl := baseUrl c; sessionId := Some sessionId';
                   cookies := if (0 <? length cookies')%nat then cookies'
                              else [sessionCookie sessionId'];
                   requestId := requestId c |}.

(** [OdooClient.normalizeUrl(url)] *)
Definition normalizeUrl (url : string) : string :=
  if negb (JsString.startsWith url "http://") && negb (JsString.startsWith url "https://")
  then "https://" +:+ url
  else url.

Section Url.

(** [new URL(url).protocol], the host's URL parser; [None] when the
    constructor throws. *)
Variable URL_protocol : string -> option string.

(** [OdooClient.isValidUrl(url)] *)
Definition isValidUrl (url : string) : bool :=
  match URL_protocol url with
  | Some protocol => String.eqb protocol "http:" || String.eqb protocol "https:"
  | None => false
  end.

End Url.

End Client.

(** ** auth.ts *)

Module Auth.

Module STORAGE_KEYS.
Definition SESSION : string := "odoo_session".
Definition USER_INFO : string := "odoo_user_info".
Definition ATTENDANCE_CACHE : string := "odoo_attendance_cache".
Definition TIMER_CACHE : string := "odoo_timer_cache".
End STORAGE_KEYS.

Definition encodeSession (s : SessionInfo) : JSON :=
  JObj ([("sessionId", JStr (sessionId s)); ("baseUrl", JStr (baseUrl s));
         ("userId", JNum (userId s)); ("companyId", JNum (companyId s));
         ("employeeId", JNum (employeeId s));
         ("employeeName", JStr (employeeName s)); ("username", JStr (username s))]
        ++ match cookies s with
           | Some cs => [("cookies", JArr (JStr <$> cs))]
           | None => []
           end).

(** The view [... as SessionInfo]. *)
Definition viewSessionInfo (j : JSON) : option SessionInfo :=
  sessionId ← Json.req Json.asStr "sessionId" j;
  baseUrl ← Json.req Json.asStr "baseUrl" j;
  userId ← Json.req Json.asNum "userId" j;
  companyId ← Json.req Json.asNum "companyId" j;
  employeeId ← Json.req Json.asNum "employeeId" j;
  employeeName ← Json.req Json.asStr "employeeName" j;
  username ← Json.req Json.asStr "username" j;
  cookies ← Json.opt (Json.asArray Json.asStr) "cookies" j;
  Some {| sessionId := sessionId; baseUrl := baseUrl; userId := userId;
          companyId := companyId; employeeId := employeeId;
          employeeName := employeeName; username := username;
          cookies := cookies |}.

Definition saveSession (session : SessionInfo) : M unit :=
  setItem STORAGE_KEYS.SESSION (Parsed (encodeSession session)).

Definition getSession : M (option SessionInfo) :=
  let* sessionStr := getItem STORAGE_KEYS.SESSION in
  if storedFalsy sessionStr then ret None
  else match sessionStr with
       | Some (Parsed JNull) => ret None
       | Some (Parsed j) => let* session := cast (viewSessionInfo j) in ret (Some session)
       | _ => ret None
       end.

Definition clearSession : M unit :=
  removeItem STORAGE_KEYS.SESSION ;;
  removeItem STORAGE_KEYS.USER_INFO ;;
  removeItem STORAGE_KEYS.ATTENDANCE_CACHE ;;
  removeItem STORAGE_KEYS.TIMER_CACHE.

(** The view [... as string[]] of the database list, with [result || []]. *)
Definition viewDatabases (r : option JSON) : option (list string) :=
  match r with
  | Some j => if Json.truthy j then Json.asArray Json.asStr j else Some []
  | None => Some []
  end.

Definition fetchDatabaseList (baseUrl : string) : M (list string) :=
  let* client := Client.constructor baseUrl None [] in
  tryCatch
    (let* result := Client.request client "/web/database/list" (JObj []) in
     cast (viewDatabases result))
    (fun _ => ret []).

(** [hostname.replace(/\.(dev\.)?odoo\.com$/, ...)] with the empty
    replacement: the leftmost match that ends the string is removed. *)
Definition stripOdooSuffix (hostname : string) : string :=
  if JsString.endsWith hostname ".dev.odoo.com" then JsString.dropEnd 13 hostname
  else if JsString.endsWith hostname ".odoo.com" then JsString.dropEnd 9 hostname
  else hostname.

Section Url.

(** [new URL(url).hostname], the host's URL parser; [None] when the
    constructor throws. *)
Variable URL_hostname : string -> option string.

Definition extractDatabaseName (url : string) : M string :=
  tryCatch
    (let* hostname :=
       match URL_hostname url with
       | Some h => ret h
       | None => throw (Error "Invalid URL")
       end in
     if JsString.endsWith hostname ".odoo.com" then
       let subdomain := stripOdooSuffix hostname in
       let* databases := fetchDatabaseList url in
       match databases with
       | [db] => ret db
       | db0 :: _ :: _ =>
           match find (fun db => JsString.startsWith db subdomain) databases with
           | Some match_ => if JsString.truthy match_ then ret match_ else ret db0
           | None => ret db0
           end
       | [] => ret subdomain
       end
     else
       let* databases := fetchDatabaseList url in
       match databases with
       | [db] => ret db
       | _ => ret EmptyString
       end)
    (fun _ => ret EmptyString).

End Url.

Definition getAuthenticatedClient : M nat :=
  let* session := getSession in
  match session with
  | None => throw (SessionExpiredError "No active session found")
  | Some session =>
      Client.constructor (baseUrl session) (Some (sessionId session))
        (default [] (cookies session))
  end.

Definition hasActiveSession : M bool :=
  let* session := getSession in
  ret (match session with Some _ => true | None => false end).

(** *** [login] and [logout] *)

(** [LoginResponse["result"]].  The sources test [uid], [session_id],
    [name] and [username] for falsiness before use. *)
Module LoginResult.
Record t := {
  uid : option Z;
  username : option string;
  name : option string;
  company_id : option Z;
  session_id : option string
}.
End LoginResult.

(** [None] is a falsy answer ([!response]). *)
Definition viewLoginResult (r : option JSON) : option (option LoginResult.t) :=
  match r with
  | None | Some JNull | Some (JBool false) => Some None
  | Some (JObj fs) =>
      let j := JObj fs in
      uid ← Json.optFalsy Json.asNum "uid" j;
      username ← Json.optFalsy Json.asStr "username" j;
      name ← Json.optFalsy Json.asStr "name" j;
      company_id ← Json.optFalsy Json.asNum "company_id" j;
      session_id ← Json.optFalsy Json.asStr "session_id" j;
      Some (Some {| LoginResult.uid := uid; LoginResult.username := username;
                    LoginResult.name := name; LoginResult.company_id := company_id;
                    LoginResult.session_id := session_id |})
  | Some _ => None
  end.

(** [{ id: number; name: string }[]]; [None] is a falsy answer. *)
Definition viewEmployee (j : JSON) : option (Z * string) :=
  id ← Json.req Json.asNum "id" j;
  name ← Json.req Json.asStr "name" j;
  Some (id, name).

Definition viewEmployees (r : option JSON) : option (option (list (Z * string))) :=
  match r with
  | None | Some JNull | Some (JBool false) => Some None
  | Some j => Some <$> Json.asArray viewEmployee j
  end.

(** What follows the first [d] in [s]; [None] when [s] has no [d]. *)
Fixpoint dropThrough (d : ascii) (s : list ascii) : option (list ascii) :=
  match s with
  | [] => None
  | c :: s' => if Client.isC c d then Some s' else dropThrough d s'
  end.

(** [s.split("=")[1]]; [None] is [undefined]. *)
Definition splitSecond (s : string) : option string :=
  (fun rest => JsString.ofChars (Client.upTo "=" rest))
    <$> dropThrough "=" (JsString.chars s).

(** Truthiness of an optional string. *)
Definition strTruthy (x : option string) : bool :=
  match x with
  | Some s => JsString.truthy s
  | None => false
  end.

(** [x || d] on an optional string. *)
Definition strOr (x : option string) (d : string) : string :=
  match x with
  | Some s => if JsString.truthy s then s else d
  | None => d
  end.

(** The two assignments [sessionInfo.employeeId = id] and
    [sessionInfo.employeeName = name]. *)
Definition setEmployee (s : SessionInfo) (id : Z) (name : string) : SessionInfo :=
  {| sessionId := sessionId s; baseUrl := baseUrl s; userId := userId s;
     companyId := companyId s; employeeId := id; employeeName := name;
     username := username s; cookies := cookies s |}.

(** The inner [try] block of [login]: the session with the employee of
    the user filled in, when the server tells it. *)
Definition withEmployee (client : nat) (sessionInfo : SessionInfo)
    (sessionId' : string) (capturedCookies : list string) (uid : Z)
  : M SessionInfo :=
  tryCatch
    (Client.setSession client sessionId' capturedCookies ;;
     let* r := Client.callKw client "hr.employee" "search_read"
                 [JArr [JArr [JStr "user_id"; JStr "="; JNum uid]]]
                 [("fields", JArr [JStr "id"; JStr "name"]); ("limit", JNum 1)] in
     let* employeeData := cast (viewEmployees r) in
     match employeeData with
     | Some ((id, name) :: _) => ret (setEmployee sessionInfo id name)
     | _ => ret sessionInfo
     end)
    (fun _ => ret sessionInfo).

Section Login.

Variable URL_protocol : string -> option string.
Variable URL_hostname : string -> option string.

Definition login (baseUrl' username' password : string) : M SessionInfo :=
  let normalizedUrl := Client.normalizeUrl baseUrl' in
  if negb (Client.isValidUrl URL_protocol normalizedUrl)
  then throw (Error "Invalid Odoo URL format")
  else
    let* dbName := extractDatabaseName URL_hostname normalizedUrl in
    let* client := Client.constructor normalizedUrl None [] in
    tryCatch
      (let* r := Client.request client "/web/session/authenticate"
                   (JObj [("db", JStr dbName); ("login", JStr username');
                          ("password", JStr password)]) in
       let* response := cast (viewLoginResult r) in
       match response with
       | None => throw (Error "Invalid username or password")
       | Some response =>
           match LoginResult.uid response with
           | None | Some 0 => throw (Error "Invalid username or password")
           | Some uid =>
               let* capturedCookies := Client.getCookies client in
               let sessionId' :=
                 if negb (strTruthy (LoginResult.session_id response))
                    && (0 <? length capturedCookies)%nat
                 then
                   match find (fun c => JsString.startsWith c "session_id=")
                              capturedCookies with
                   | Some sessionCookie =>
                       if JsString.truthy sessionCookie
                       then splitSecond sessionCookie
                       else LoginResult.session_id response
                   | None => LoginResult.session_id response
                   end
                 else LoginResult.session_id response in
               let* companyId' := cast (LoginResult.company_id response) in
               let sessionInfo :=
                 {| sessionId := strOr sessionId' EmptyString;
                    baseUrl := normalizedUrl;
                    userId := uid;
                    companyId := companyId';
                    employeeId := 0;
                    employeeName := strOr (LoginResult.name response) username';
                    username := strOr (LoginResult.username response) username';
                    cookies := Some capturedCookies |} in
               let* sessionInfo :=
                 withEmployee client sessionInfo (strOr sessionId' EmptyString)
                   capturedCookies uid in
               saveSession sessionInfo ;;
               ret sessionInfo
           end
       end)
      (fun error => throw (Error ("Login failed: " +:+ exnMessage error))).

End Login.

Definition getStoredSession : M (option SessionInfo) := getSession.

Definition logout : M unit :=
  let* session := getSession in
  match session with
  | Some session =>
      tryCatch
        (let* client := Client.constructor (baseUrl session) (Some (sessionId session))
                          (default [] (cookies session)) in
         Client.request client "/web/session/destroy" (JObj []) ;;
         ret tt)
        (fun _ => ret tt)
  | None => ret tt
  end ;;
  clearSession.

End Auth.

(** ** timesheet.ts *)

Module Timesheet.

Definition TIMER_CACHE_KEY : string := "odoo_timer_cache".
Definition TIMER_CACHE_TTL : Z := 30 * 1000.

(** *** Typed views of the server's answers *)

(** [number | { id: number } | false | null], and [undefined] for an
    answer without result. *)
Inductive StartResult :=
| StartFalse
| StartNull
| StartUndefined
| StartId (n : Z)
| StartRecord (id : Z).

Definition viewStartResult (r : option JSON) : option StartResult :=
  match r with
  | None => Some StartUndefined
  | Some (JBool false) => Some StartFalse
  | Some JNull => Some StartNull
  | Some (JNum n) => Some (StartId n)
  | Some (JObj fs) => StartRecord <$> Json.req Json.asNum "id" (JObj fs)
  | Some _ => None
  end.

(** The answer of [get_running_timer]. *)
Module RunningTimer.
Record t := {
  id : option Z;
  start : option Z;
  project_id : option Z;
  task_id : option Z;
  description : option string
}.
End RunningTimer.

(** [None] is a falsy answer ([!result]). *)
Definition viewRunningTimer (r : option JSON) : option (option RunningTimer.t) :=
  match r with
  | None | Some JNull | Some (JBool false) => Some None
  | Some (JObj fs) =>
      let j := JObj fs in
      id ← Json.optFalsy Json.asNum "id" j;
      start ← Json.optFalsy Json.asNum "start" j;
      project_id ← Json.optFalsy Json.asNum "project_id" j;
      task_id ← Json.optFalsy Json.asNum "task_id" j;
      description ← Json.optFalsy Json.asStr "description" j;
      Some (Some {| RunningTimer.id := id; RunningTimer.start := start;
                    RunningTimer.project_id := project_id;
                    RunningTimer.task_id := task_id;
                    RunningTimer.description := description |})
  | Some _ => None
  end.

(** One row of the answer to the read of [timer_start].  The declared
    type of the field is [string], but the sources copy the field
    without looking at it, and Odoo writes a field that is not set as
    [false]: a row without a start time ([null], [false] or no such
    property) is a row all the same, with the start time [None]. *)
Definition viewTimerStart (row : JSON) : option (option string) :=
  match row with
  | JObj _ => Json.optFalsy Json.asStr "timer_start" row
  | _ => None
  end.

(** [Array<{ timer_start: string }>]; [None] is a falsy answer. *)
Definition viewTimerDetails (r : option JSON)
  : option (option (list (option string))) :=
  match r with
  | None | Some JNull | Some (JBool false) => Some None
  | Some j => Some <$> Json.asArray viewTimerStart j
  end.

(** [{ unit_amount: number }[]]; [None] is a falsy answer. *)
Definition viewLines (r : option JSON) : option (option (list Z)) :=
  match r with
  | None | Some JNull | Some (JBool false) => Some None
  | Some j => Some <$> Json.asArray (Json.req Json.asNum "unit_amount") j
  end.

(** [[number, string][]] *)
Definition viewPair (j : JSON) : option (Z * string) :=
  match j with
  | JArr [JNum id; JStr name] => Some (id, name)
  | _ => None
  end.

Definition viewNames (r : option JSON) : option (list (Z * string)) :=
  r ≫= Json.asArray viewPair.

(** *** The cache *)

Definition encodeTimerState (s : TimerState) : JSON :=
  JObj [("timerId", Json.ofOptNum (timerId s));
        ("projectId", Json.ofOptNum (projectId s));
        ("projectName", Json.ofOptStr (projectName s));
        ("taskId", Json.ofOptNum (taskId s));
        ("taskName", Json.ofOptStr (taskName s));
        ("description", Json.ofOptStr (description s));
        ("startTime", Json.ofOptStr (startTime s))].

Definition viewTimerState (j : JSON) : option TimerState :=
  timerId ← Json.req (Json.asNullable Json.asNum) "timerId" j;
  projectId ← Json.req (Json.asNullable Json.asNum) "projectId" j;
  projectName ← Json.req (Json.asNullable Json.asStr) "projectName" j;
  taskId ← Json.req (Json.asNullable Json.asNum) "taskId" j;
  taskName ← Json.req (Json.asNullable Json.asStr) "taskName" j;
  description ← Json.req (Json.asNullable Json.asStr) "description" j;
  startTime ← Json.req (Json.asNullable Json.asStr) "startTime" j;
  Some {| timerId := timerId; projectId := projectId; projectName := projectName;
          taskId := taskId; taskName := taskName; description := description;
          startTime := startTime |}.

Definition encodeCached (c : CachedData TimerState) : JSON :=
  JObj [("data", encodeTimerState (data c)); ("timestamp", JNum (timestamp c))].

Definition viewCached (j : JSON) : option (CachedData TimerState) :=
  d ← Json.req viewTimerState "data" j;
  t ← Json.req Json.asNum "timestamp" j;
  Some {| data := d; timestamp := t |}.

Definition cacheTimerState (state : TimerState) : M unit :=
  let* t := now in
  setItem TIMER_CACHE_KEY (Parsed (encodeCached {| data := state; timestamp := t |})).

Definition getCachedTimerState : M (option TimerState) :=
  let* raw := getItem TIMER_CACHE_KEY in
  if storedFalsy raw then ret None
  else match raw with
       | Some (Parsed j) =>
           let* cached := cast (viewCached j) in
           let* t := now in
           if t - timestamp cached <? TIMER_CACHE_TTL
           then ret (Some (data cached))
           else ret None
       | _ => ret None
       end.

Definition clearTimerCache : M unit := removeItem TIMER_CACHE_KEY.

(** *** Small JavaScript idioms *)

(** [x || null] on an optional number and an optional string. *)
Definition numOrNull (x : option Z) : option Z :=
  match x with
  | Some n => if n =? 0 then None else Some n
  | None => None
  end.

Definition strOrNull (x : option string) : option string :=
  match x with
  | Some s => if JsString.truthy s then Some s else None
  | None => None
  end.

(** [new Date(t).toISOString()] *)
Definition toISOString (t : Z) : M string :=
  match JsDate.toISOString t with
  | Some s => ret s
  | None => throw (RangeError "Invalid time value")
  end.

(** [xs.find((x) => x.id === id)?.name || null] *)
Definition nameOf (xs : list (Z * string)) (id : Z) : option string :=
  strOrNull (snd <$> find (fun x => fst x =? id) xs).

Definition optEq (a : option Z) (b : Z) : bool :=
  match a with Some a => a =? b | None => false end.

(** *** The operations *)

Definition getProjects (search : string) : M (list (Z * string)) :=
  let* client := Auth.getAuthenticatedClient in
  let* result := Client.callKw client "project.project" "name_search"
                   [JStr search] [("limit", JNum 50)] in
  cast (viewNames result).

Definition getTasks (projectId : Z) (search : string) : M (list (Z * string)) :=
  let* client := Auth.getAuthenticatedClient in
  let* result := Client.callKw client "project.task" "name_search"
                   [JStr search]
                   [("args", JArr [JArr [JStr "project_id"; JStr "="; JNum projectId]]);
                    ("limit", JNum 50)] in
  cast (viewNames result).

Record Started := { started_timerId : Z; started_startTime : string }.

Definition noRunningTimer : Exn :=
  Error "Timer action succeeded but no running timer found. Please try again.".

Definition startTimer : M Started :=
  let* client := Auth.getAuthenticatedClient in
  tryCatch
    (let* r := Client.callKw client "account.analytic.line"
                 "action_start_new_timesheet_timer" [JObj []] [] in
     let* result := cast (viewStartResult r) in
     match result with
     | StartFalse | StartNull =>
         let* r := Client.callKw client "account.analytic.line" "get_running_timer" [] [] in
         let* timerResult := cast (viewRunningTimer r) in
         match timerResult with
         | None => throw noRunningTimer
         | Some timerResult =>
             match numOrNull (RunningTimer.id timerResult) with
             | None => throw noRunningTimer
             | Some id =>
                 let* t := now in
                 let* startTime :=
                   toISOString (t - default 0 (RunningTimer.start timerResult) * 60000) in
                 let timerState :=
                   {| timerId := Some id;
                      projectId := numOrNull (RunningTimer.project_id timerResult);
                      projectName := None;
                      taskId := numOrNull (RunningTimer.task_id timerResult);
                      taskName := None;
                      description := strOrNull (RunningTimer.description timerResult);
                      startTime := Some startTime |} in
                 cacheTimerState timerState ;;
                 ret {| started_timerId := id; started_startTime := startTime |}
             end
         end
     | StartUndefined | StartId 0 =>
         throw (Error "Failed to start timer: action returned invalid result")
     | StartId timerId | StartRecord timerId =>
         let* t := now in
         let* startTime := toISOString t in
         let timerState :=
           {| timerId := Some timerId; projectId := None; projectName := None;
              taskId := None; taskName := None; description := None;
              startTime := Some startTime |} in
         cacheTimerState timerState ;;
         ret {| started_timerId := timerId; started_startTime := startTime |}
     end)
    (fun error => throw error).

(** Field updates of the cached state ([cachedState.f = v]). *)
Definition setProject (s : TimerState) (id : Z) (name : option string) : TimerState :=
  {| timerId := timerId s; projectId := Some id; projectName := name;
     taskId := taskId s; taskName := taskName s; description := description s;
     startTime := startTime s |}.

Definition setTaskId (s : TimerState) (id : Z) : TimerState :=
  {| timerId := timerId s; projectId := projectId s; projectName := projectName s;
     taskId := Some id; taskName := taskName s; description := description s;
     startTime := startTime s |}.

Definition setTaskName (s : TimerState) (name : option string) : TimerState :=
  {| timerId := timerId s; projectId := projectId s; projectName := projectName s;
     taskId := taskId s; taskName := name; description := description s;
     startTime := startTime s |}.

Definition setDescription (s : TimerState) (d : option string) : TimerState :=
  {| timerId := timerId s; projectId := projectId s; projectName := projectName s;
     taskId := taskId s; taskName := taskName s; description := d;
     startTime := startTime s |}.

Definition optField (k : string) (v : option JSON) : list (string * JSON) :=
  match v with Some v => [(k, v)] | None => [] end.

Definition updateTimer (timerId' : Z) (projectId' taskId' : option Z)
    (description' : option string) : M unit :=
  let* client := Auth.getAuthenticatedClient in
  let values :=
    (optField "project_id" (JNum <$> projectId') ++
     optField "task_id" (JNum <$> taskId') ++
     optField "name" (JStr <$> description'))%list in
  Client.callKw client "account.analytic.line" "write"
    [JArr [JNum timerId']; JObj values] [] ;;
  let* cachedState := getCachedTimerState in
  match cachedState with
  | Some cachedState =>
      if optEq (timerId cachedState) timerId' then
        let* cachedState :=
          match projectId' with
          | Some p =>
              let* projects := getProjects EmptyString in
              ret (setProject cachedState p (nameOf projects p))
          | None => ret cachedState
          end in
        let* cachedState :=
          match taskId' with
          | Some t =>
              let cachedState := setTaskId cachedState t in
              match numOrNull (projectId cachedState) with
              | Some p =>
                  let* tasks := getTasks p EmptyString in
                  ret (setTaskName cachedState (nameOf tasks t))
              | None => ret cachedState
              end
          | None => ret cachedState
          end in
        let cachedState :=
          match description' with
          | Some d => setDescription cachedState (Some d)
          | None => cachedState
          end in
        cacheTimerState cachedState
      else ret tt
  | None => ret tt
  end.

Definition startTimerWithDetails (projectId' taskId' : Z)
    (description' : option string) : M Started :=
  let* client := Auth.getAuthenticatedClient in
  let values :=
    ([("project_id", JNum projectId'); ("task_id", JNum taskId')] ++
     optField "name" (JStr <$> strOrNull description'))%list in
  let* r := Client.callKw client "account.analytic.line" "create" [JObj values] [] in
  let* timerId' := cast (r ≫= Json.asNum) in
  Client.callKw client "account.analytic.line" "action_timer_start"
    [JArr [JNum timerId']] [] ;;
  let* r := Client.callKw client "account.analytic.line" "read"
              [JArr [JNum timerId']; JArr [JStr "timer_start"]] [] in
  let* timerDetails := cast (viewTimerDetails r) in
  match timerDetails with
  | None | Some [] => throw (Error "Failed to read timer details")
  | Some (startTime' :: _) =>
      let* projects := getProjects EmptyString in
      let* tasks := getTasks projectId' EmptyString in
      let timerState :=
        {| timerId := Some timerId'; projectId := Some projectId';
           projectName := nameOf projects projectId';
           taskId := Some taskId'; taskName := nameOf tasks taskId';
           description := strOrNull description';
           startTime := startTime' |} in
      cacheTimerState timerState ;;
      (* [{ timerId: number; startTime: string }] is the declared result:
         a run that read a row without start time has cached its state
         when it comes to a result outside that type *)
      let* startTime' := cast startTime' in
      ret {| started_timerId := timerId'; started_startTime := startTime' |}
  end.

Definition displayName : JSON := JObj [("fields", JObj [("display_name", JObj [])])].

Definition onchangeSpec : JSON :=
  JObj [("name", JObj []); ("project_id", displayName); ("task_id", displayName);
        ("timer_start", JObj []); ("unit_amount", JObj [])].

Definition assignTimerDetails (timerId' projectId' taskId' : Z)
    (description' : option string) : M unit :=
  let* client := Auth.getAuthenticatedClient in
  Client.callKw client "account.analytic.line" "onchange"
    [JArr [];
     JObj [("name", JBool false); ("project_id", JNum projectId');
           ("task_id", JBool false); ("timer_start", JBool false);
           ("unit_amount", JNum 0)];
     JArr [JStr "project_id"];
     onchangeSpec] [] ;;
  Client.callKw client "account.analytic.line" "onchange"
    [JArr [JNum timerId'];
     JObj [("task_id", JNum taskId')];
     JArr [JStr "task_id"];
     onchangeSpec] [] ;;
  let saveData :=
    ([("task_id", JNum taskId')] ++
     optField "name" (JStr <$> strOrNull description'))%list in
  Client.callKw client "account.analytic.line" "web_save"
    [JArr [JNum timerId']; JObj saveData] [("specification", JObj [])] ;;
  let* cachedState := getCachedTimerState in
  match cachedState with
  | Some cachedState =>
      if optEq (timerId cachedState) timerId' then
        let* projects := getProjects EmptyString in
        let* tasks := getTasks projectId' EmptyString in
        cacheTimerState
          {| timerId := timerId cachedState; projectId := Some projectId';
             projectName := nameOf projects projectId';
             taskId := Some taskId'; taskName := nameOf tasks taskId';
             description := strOrNull description';
             startTime := startTime cachedState |}
      else ret tt
  | None => ret tt
  end.

(** The reported duration is in seconds. *)
Definition stopTimer (timerId' : Z) : M Z :=
  let* client := Auth.getAuthenticatedClient in
  Client.callKw client "account.analytic.line" "action_timer_stop"
    [JNum timerId'; JBool true] [] ;;
  clearTimerCache ;;
  let* r := Client.callKw client "account.analytic.line" "read"
              [JArr [JNum timerId']; JArr [JStr "unit_amount"]] [] in
  let* lines := cast (viewLines r) in
  ret match lines with
      | Some (unit_amount :: _) => unit_amount * 3600
      | _ => 0
      end.

Definition cancelTimer (timerId' : Z) : M unit :=
  let* client := Auth.getAuthenticatedClient in
  Client.callKw client "account.analytic.line" "action_timer_unlink"
    [JNum timerId'] [] ;;
  clearTimerCache.

(** The rest of the [try] block of [getRunningTimer], once the lookup
    has answered [r]. *)
Definition readRunningTimer (client : nat) (r : option JSON)
  : M (option TimerState) :=
  let* result := cast (viewRunningTimer r) in
  match result ≫= (fun result => numOrNull (RunningTimer.id result)), result with
  | Some timerId', Some result =>
      let* r := Client.callKw client "account.analytic.line" "read"
                  [JArr [JNum timerId']; JArr [JStr "timer_start"]] [] in
      let* timerDetails := cast (viewTimerDetails r) in
      match timerDetails with
      | None | Some [] => clearTimerCache ;; ret None
      | Some (startTime' :: _) =>
          let projectId' := numOrNull (RunningTimer.project_id result) in
          let taskId' := numOrNull (RunningTimer.task_id result) in
          let* projectName' :=
            match projectId' with
            | Some p =>
                let* projects := getProjects EmptyString in
                ret (nameOf projects p)
            | None => ret None
            end in
          let* taskName' :=
            match taskId', projectId' with
            | Some t, Some p =>
                let* tasks := getTasks p EmptyString in
                ret (nameOf tasks t)
            | _, _ => ret None
            end in
          let timerState :=
            {| timerId := Some timerId'; projectId := projectId';
               projectName := projectName';
               taskId := taskId'; taskName := taskName';
               description := strOrNull (RunningTimer.description result);
               startTime := startTime' |} in
          cacheTimerState timerState ;;
          ret (Some timerState)
      end
  | _, _ => clearTimerCache ;; ret None
  end.

Definition getRunningTimer (useCache : bool) : M (option TimerState) :=
  let* cached := if useCache then getCachedTimerState else ret None in
  match cached with
  | Some cached => ret (Some cached)
  | None =>
      let* client := Auth.getAuthenticatedClient in
      tryCatch
        (let* r := Client.callKw client "account.analytic.line"
                     "get_running_timer" [] [] in
         readRunningTimer client r)
        (fun _ => ret None)
  end.

Definition createTask (projectId' : Z) (name : string) : M Task.t :=
  let* client := Auth.getAuthenticatedClient in
  let* r := Client.callKw client "project.task" "name_create" [JStr name]
              [("context", JObj [("default_project_id", JNum projectId')])] in
  let* result := cast (r ≫= viewPair) in
  ret {| Task.id := fst result; Task.name := snd result |}.

Definition getServerTime : M string :=
  let* client := Auth.getAuthenticatedClient in
  tryCatch
    (let* r := Client.callKw client "timer.timer" "get_server_time" [] [] in
     cast (r ≫= Json.asStr))
    (fun _ => let* t := now in toISOString t).

Definition getTimerState (useCache : bool) : M (option TimerState) :=
  getRunningTimer useCache.

Definition hasActiveTimer : M bool :=
  let* state := getTimerState true in
  ret (match state with Some _ => true | None => false end).

End Timesheet.

(** ** attendance.ts *)

Module Attendance.

Definition ATTENDANCE_CACHE_KEY : string := "odoo_attendance_cache".
Definition ATTENDANCE_CACHE_TTL : Z := 60 * 1000.

Definition encodeStatus (s : AttendanceStatus) : JSON :=
  match s with
  | checked_in => JStr "checked_in"
  | checked_out => JStr "checked_out"
  end.

Definition viewStatus (j : JSON) : option AttendanceStatus :=
  match j with
  | JStr s =>
      if String.eqb s "checked_in" then Some checked_in
      else if String.eqb s "checked_out" then Some checked_out
      else None
  | _ => None
  end.

Definition encodeAttendanceState (s : AttendanceState) : JSON :=
  JObj [("attendance_state", encodeStatus (attendance_state s));
        ("last_check_in", Json.ofOptStr (last_check_in s));
        ("last_check_out", Json.ofOptStr (last_check_out s));
        ("hours_today", JNum (hours_today s));
        ("employee_name", JStr (employee_name s))].

(** The view [... as AttendanceState]. *)
Definition viewAttendanceState (j : JSON) : option AttendanceState :=
  attendance_state ← Json.req viewStatus "attendance_state" j;
  last_check_in ← Json.req (Json.asNullable Json.asStr) "last_check_in" j;
  last_check_out ← Json.req (Json.asNullable Json.asStr) "last_check_out" j;
  hours_today ← Json.req Json.asNum "hours_today" j;
  employee_name ← Json.req Json.asStr "employee_name" j;
  Some {| attendance_state := attendance_state; last_check_in := last_check_in;
          last_check_out := last_check_out; hours_today := hours_today;
          employee_name := employee_name |}.

(** The narrower answer of the model call: the state and the hours. *)
Definition viewUserData (j : JSON) : option (AttendanceStatus * Z) :=
  attendance_state ← Json.req viewStatus "attendance_state" j;
  hours_today ← Json.req Json.asNum "hours_today" j;
  Some (attendance_state, hours_today).

Definition encodeCached (c : CachedData AttendanceState) : JSON :=
  JObj [("data", encodeAttendanceState (data c)); ("timestamp", JNum (timestamp c))].

Definition viewCached (j : JSON) : option (CachedData AttendanceState) :=
  d ← Json.req viewAttendanceState "data" j;
  t ← Json.req Json.asNum "timestamp" j;
  Some {| data := d; timestamp := t |}.

Definition cacheAttendanceState (state : AttendanceState) : M unit :=
  let* t := now in
  setItem ATTENDANCE_CACHE_KEY
    (Parsed (encodeCached {| data := state; timestamp := t |})).

Definition getCachedAttendanceState : M (option AttendanceState) :=
  let* raw := getItem ATTENDANCE_CACHE_KEY in
  if storedFalsy raw then ret None
  else match raw with
       | Some (Parsed j) =>
           let* cached := cast (viewCached j) in
           let* t := now in
           if t - timestamp cached <? ATTENDANCE_CACHE_TTL
           then ret (Some (data cached))
           else ret None
       | _ => ret None
       end.

Definition getAttendanceStatus (useCache : bool) : M AttendanceState :=
  let* cached := if useCache then getCachedAttendanceState else ret None in
  match cached with
  | Some cached => ret cached
  | None =>
      let* client := Auth.getAuthenticatedClient in
      tryCatch
        (let* r := Client.request client "/hr_attendance/attendance_user_data" (JObj []) in
         let* result := cast (r ≫= viewAttendanceState) in
         cacheAttendanceState result ;;
         ret result)
        (fun error =>
           tryCatch
             (let* r := Client.callKw client "hr.employee" "attendance_user_data" [] [] in
              let* result := cast (r ≫= viewUserData) in
              let attendanceState :=
                {| attendance_state := fst result; last_check_in := None;
                   last_check_out := None; hours_today := snd result;
                   employee_name := EmptyString |} in
              cacheAttendanceState attendanceState ;;
              ret attendanceState)
             (fun _ => throw error))
  end.

Definition toggleCheckInOut : M AttendanceState :=
  let* client := Auth.getAuthenticatedClient in
  tryCatch
    (let* r := Client.request client "/hr_attendance/systray_check_in_out" (JObj []) in
     let* result := cast (r ≫= viewAttendanceState) in
     cacheAttendanceState result ;;
     ret result)
    (fun error =>
       tryCatch
         (let* currentState := getAttendanceStatus false in
          match attendance_state currentState with
          | checked_out =>
              Client.callKw client "hr.employee" "attendance_manual"
                [JArr []; JStr "hr_attendance.hr_attendance_action_my_attendances"] []
          | checked_in =>
              Client.callKw client "hr.employee" "attendance_manual"
                [JArr []; JStr "hr_attendance.hr_attendance_action_my_attendances"] []
          end ;;
          getAttendanceStatus false)
         (fun _ => throw error)).

Definition isCheckedIn : M bool :=
  let* state := getAttendanceStatus true in
  ret (match attendance_state state with checked_in => true | checked_out => false end).

(** [state.hours_today || 0]: on a number, [0] when it is [0]. *)
Definition getHoursToday : M Z :=
  let* state := getAttendanceStatus true in
  ret (if hours_today state =? 0 then 0 else hours_today state).

End Attendance.

(** ** format.ts: the text formatters *)

Module FormatText.

(** [formatDuration(seconds)] for a whole number of seconds, within the
    range in which a number holds every integer (up to 2^53 - 1 in
    absolute value) and prints in plain decimal.  [%] is the remainder
    that takes the sign of the dividend. *)
Definition formatDuration (seconds : Z) : string :=
  let hours := seconds / 3600 in
  let minutes := Z.rem seconds 3600 / 60 in
  let secs := Z.rem seconds 60 in
  if (hours =? 0) && (minutes =? 0) && (secs =? 0) then "0sec"
  else
    let parts :=
      ((if 0 <? hours then [Client.decimal hours +:+ "h"] else []) ++
       (if 0 <? minutes then [Client.decimal minutes +:+ "min"] else []) ++
       (if (0 <? secs) || ((hours =? 0) && (minutes =? 0))
        then [Client.decimal secs +:+ "sec"] else []))%list in
    Client.join " " parts.

(** A string as its UTF-16 code units, which is what [length] and
    [substring] count. *)
Definition Utf16 : Type := list N.

Definition ofAscii (s : string) : Utf16 := N_of_ascii <$> JsString.chars s.

(** The horizontal ellipsis, U+2026. *)
Definition ellipsis : N := 8230.

(** [s.substring(0, n)]: a negative [n] counts as [0], one beyond the
    length as the length. *)
Definition substring0 (s : Utf16) (n : Z) : Utf16 := take (Z.to_nat n) s.

Definition truncate (str : Utf16) (maxLength : Z) : Utf16 :=
  if Z.of_nat (length str) <=? maxLength then str
  else (substring0 str (maxLength - 1) ++ [ellipsis])%list.

Definition formatMenuBarTitle (projectName' taskName' : Utf16) (maxLength : Z) : Utf16 :=
  truncate (projectName' ++ ofAscii " - " ++ taskName')%list maxLength.

End FormatText.

(** ** Vocabulary of the statements *)

(** A calendar date and time of day, the content of an Odoo timestamp. *)
Record Civil := {
  year : Z; month : Z; day : Z;
  hour : Z; minute : Z; second : Z
}.

Definition validCivil (c : Civil) : bool :=
  (0 <=? year c) && (year c <=? 9999) &&
  (1 <=? month c) && (month c <=? 12) &&
  (1 <=? day c) && (day c <=? JsDate.daysInMonth (year c) (month c)) &&
  (0 <=? hour c) && (hour c <=? 23) &&
  (0 <=? minute c) && (minute c <=? 59) &&
  (0 <=? second c) && (second c <=? 59).

(** The Odoo rendering ["YYYY-MM-DD HH:MM:SS"]. *)
Definition odooFormat (c : Civil) : string :=
  JsString.ofChars
    (JsDate.pad 4 (year c) ++ "-"%char :: JsDate.pad 2 (month c) ++ "-"%char ::
     JsDate.pad 2 (day c) ++ " "%char :: JsDate.pad 2 (hour c) ++ ":"%char ::
     JsDate.pad 2 (minute c) ++ ":"%char :: JsDate.pad 2 (second c)).

(** The instant, in milliseconds since the epoch, that a timestamp denotes
    in the host's time zone. *)
Definition instant (LocalTZA : Z -> Z) (c : Civil) : Z :=
  JsDate.UTC LocalTZA
    (JsDate.MakeDate (JsDate.MakeDay (year c) (month c) (day c))
                     (JsDate.MakeTime (hour c) (minute c) (second c) 0)).


(** A check of the month and day that [civilFromDay] computes from [doy],
    the day of a year that starts on 1 March: they are a month and a day
    of that month, and on the day [doy] of the year.  February is allowed
    its 29th day only as the last day, [doy = 365]. *)
Definition monthDayOk (doy : Z) : bool :=
  let mp := (5 * doy + 2) / 153 in
  let d := doy - (153 * mp + 2) / 5 + 1 in
  let m := if mp <? 10 then mp + 3 else mp - 9 in
  (1 <=? m) && (m <=? 12) && (1 <=? d) &&
  (if 3 <=? m
   then (d <=? JsDate.daysInMonth 1 m) &&
        (JsDate.daysBeforeMonth 1 m - 59 + d - 1 =? doy)
   else (JsDate.daysBeforeMonth 1 m + 306 + d - 1 =? doy) &&
        (d <=? (if m =? 2 then (if doy =? 365 then 29 else 28) else 31))).

Fixpoint allFrom (f : Z -> bool) (n : nat) (z : Z) : bool :=
  match n with
  | O => true
  | S n' => if f z then allFrom f n' (z + 1) else false
  end.

(** The exchange that will answer the next request. *)
Definition nextExchange (w : World) : Exchange := server w (length (sent w)).

(** The exchange that will answer the [k]-th request from now on. *)
Definition exchange (w : World) (k : nat) : Exchange :=
  server w (k + length (sent w))%nat.

(** [rpcResult x = Some r]: the exchange is an HTTP success whose body is a
    JSON-RPC answer without [error]; [r] is its [result] ([None] when the
    answer has none). *)
Definition rpcResult (x : Exchange) : option (option JSON) :=
  match answer x with
  | Responded r =>
      if ok r then
        match body r with
        | JsonBody jr =>
            match rpc_error jr with
            | None => Some (rpc_result jr)
            | Some _ => None
            end
        | NotJson _ => None
        end
      else None
  | FetchFailed _ => None
  end.

(** How [request] ends, as a function of the network's answer. *)
Definition requestOutcome (endpoint : string) (a : FetchResult)
  : Outcome (option JSON) :=
  match a with
  | FetchFailed m => Thrown (Client.rethrow (Error m))
  | Responded r =>
      match Client.handleResponse endpoint r with
      | Thrown e => Thrown (Client.rethrow e)
      | o => o
      end
  end.

(** The world once a request has been sent and answered: [r] is the request
    and [cs] the client objects afterwards. *)
Definition afterRequest (w : World) (r : Request) (cs : list OdooClient.t) : World :=
  {| storage := storage w;
     clock := clock w + Z.of_N (latency (nextExchange w));
     server := server w;
     sent := sent w ++ [r];
     clients := cs |}.

Definition withClients (w : World) (cs : list OdooClient.t) : World :=
  {| storage := storage w; clock := clock w; server := server w;
     sent := sent w; clients := cs |}.

(** Time passing between two operations. *)
Definition elapse (dt : N) (w : World) : World :=
  {| storage := storage w; clock := clock w + Z.of_N dt; server := server w;
     sent := sent w; clients := clients w |}.

(** The request is the model call of [method]. *)
Definition callsMethod (method : string) (r : Request) : Prop :=
  Json.field "params" (req_body r) ≫= Json.field "method" = Some (JStr method).

(** The invariant of [TimerState]: a timer id comes with a start time. *)
Definition timerInv (s : TimerState) : Prop :=
  timerId s <> None -> startTime s <> None.

(** The timer cache entry of a world, when the store holds one. *)
Definition cachedTimer (w : World) : option (CachedData TimerState) :=
  match storage w !! Timesheet.TIMER_CACHE_KEY with
  | Some (Parsed j) => Timesheet.viewCached j
  | _ => None
  end.

Definition cacheInv (w : World) : Prop :=
  forall c, cachedTimer w = Some c -> timerInv (data c).

(** Database resolution for a multi-tenant host, in the words of the
    specification: the sole listed database; among several the first whose
    name starts with the subdomain, else the first listed; the subdomain
    when nothing is listed. *)
Definition databaseFor (subdomain : string) (listing : list string) : string :=
  match listing with
  | [] => subdomain
  | [db] => db
  | first :: _ =>
      default first (find (fun db => JsString.startsWith db subdomain) listing)
  end.

(** [loggedInAs w s]: the store holds the session [s]. *)
Definition loggedInAs (w : World) (s : SessionInfo) : Prop :=
  (Auth.getSession w).1 = Returned (Some s).

(** *** Invariants of runs *)

(** [holds I m Q]: started in a world that satisfies [I], the run of [m]
    ends, however it ends, in a world that satisfies [I], and a returned
    value satisfies [Q]. *)
Definition holds {A : Type} (I : World -> Prop) (m : M A) (Q : A -> Prop) : Prop :=
  forall w, I w -> I (m w).2 /\ forall a, (m w).1 = Returned a -> Q a.

(** Invariants that only look at the store and at the requests sent, and
    that survive further requests. *)
Record Stable (I : World -> Prop) : Prop := {
  stable_frame : forall w w',
    storage w' = storage w -> sent w `prefix_of` sent w' -> I w -> I w'
}.

(** The invariant of the timer operations: the cache invariant, together
    with a property [P] of the requests sent. *)
Definition J (P : list Request -> Prop) (w : World) : Prop :=
  P (sent w) /\ cacheInv w.

(** The timer cache of [w] has been invalidated: the store holds no entry,
    and whenever a later [getRunningTimer(true)] runs, it finds no cached
    state and sends the [get_running_timer] lookup to the server. *)
Definition invalidated (w : World) : Prop :=
  storage w !! Timesheet.TIMER_CACHE_KEY = None /\
  forall dt : N,
    let w' := elapse dt w in
    (Timesheet.getCachedTimerState w').1 = Returned None /\
    exists r rest,
      sent (Timesheet.getRunningTimer true w').2 = (sent w' ++ r :: rest)%list /\
      callsMethod "get_running_timer" r.

(** *** Sample worlds *)

Definition sampleSession : SessionInfo :=
  {| sessionId := "0f3c9a"; baseUrl := "https://acme.odoo.com"; userId := 2;
     companyId := 1; employeeId := 7; employeeName := "Ada"; username := "ada";
     cookies := Some ["session_id=0f3c9a"] |}.

Definition offline : Exchange :=
  {| latency := 0; answer := FetchFailed "connect ECONNREFUSED" |}.

(** A server that answers the requests with the listed exchanges, in order. *)
Definition script (xs : list Exchange) : nat -> Exchange :=
  fun n => nth n xs offline.

Definition http (ms : N) (st : Z) (text : string) (b : Body) : Exchange :=
  {| latency := ms;
     answer := Responded {| status := st; statusText := text;
                            setCookie := None; body := b |} |}.

Definition okJson (ms : N) (j : JSON) : Exchange :=
  http ms 200 "OK" (JsonBody {| rpc_result := Some j; rpc_error := None |}).

Definition loggedIn (t : Z) (xs : list Exchange) : World :=
  {| storage := {[ Auth.STORAGE_KEYS.SESSION := Parsed (Auth.encodeSession sampleSession) ]};
     clock := t; server := script xs; sent := []; clients := [] |}.

(** A world with one client object and no store, for single requests. *)
Definition sampleClient : OdooClient.t :=
  {| OdooClient.baseUrl := "https://acme.odoo.com";
     OdooClient.sessionId := Some "0f3c9a";
     OdooClient.cookies := ["session_id=0f3c9a"];
     OdooClient.requestId := 1 |}.

Definition connected (xs : list Exchange) : World :=
  {| storage := ∅; clock := 0; server := script xs; sent := [];
     clients := [sampleClient] |}.

(** Central European Time, as a host time zone. *)
Definition cet (_ : Z) : Z := 3600000.

Definition leapDayEvening : Civil :=
  {| year := 2024; month := 2; day := 29; hour := 23; minute := 59; second := 59 |}.

Definition marchFirst : Civil :=
  {| year := 2024; month := 3; day := 1; hour := 0; minute := 0; second := 1 |}.

(** The error body of the "Access Denied" scenario. *)
Definition accessDenied : RpcError :=
  {| error_code := 200; error_message := "Odoo Server Error";
     error_data := Some {| data_message := "Access Denied";
                           data_debug := "Traceback (most recent call last)" |} |}.

(** An error whose nested message is present and empty. *)
Definition emptyNested : RpcError :=
  {| error_code := 200; error_message := "Odoo Server Error";
     error_data := Some {| data_message := EmptyString;
                           data_debug := "Traceback (most recent call last)" |} |}.

Definition rpcFailure (e : RpcError) : Exchange :=
  http 0 200 "OK" (JsonBody {| rpc_result := None; rpc_error := Some e |}).

(** The start action answers [false], the lookup finds timer 42 started
    five minutes ago. *)
Definition startedElsewhere : World :=
  loggedIn 1700000000000
    [okJson 120 (JBool false);
     okJson 80 (JObj [("id", JNum 42); ("start", JNum 5)])].

(** Timer 42 has been started and cached; the server is ready to answer
    a stop, the read of the duration and a later lookup. *)
Definition running : World :=
  (Timesheet.startTimer
     (loggedIn 1700000000000
        [okJson 10 (JNum 42);
         okJson 10 (JBool true);
         okJson 10 (JArr [JObj [("unit_amount", JNum 2)]]);
         okJson 10 (JObj [])])).2.

(** The lookup finds timer 42, the read of its start time finds no row. *)
Definition vanished : World :=
  loggedIn 1700000000000
    [okJson 10 (JObj [("id", JNum 42); ("start", JNum 5)]);
     okJson 10 (JArr [])].

Definition checkedIn : JSON :=
  JObj [("attendance_state", JStr "checked_in"); ("last_check_in", JStr "2024-03-01 08:00:00");
        ("last_check_out", JNull); ("hours_today", JNum 3); ("employee_name", JStr "Ada")].

(** The attendance endpoint answers. *)
Definition attending : World := loggedIn 1700000000000 [okJson 150 checkedIn].

(** The attendance endpoint is missing (404); the model call answers. *)
Definition attendingFallback : World :=
  loggedIn 1700000000000
    [http 40 404 "Not Found" (NotJson "Unexpected token < in JSON at position 0");
     okJson 40 (JObj [("attendance_state", JStr "checked_in"); ("hours_today", JNum 3)])].

(** A host parser that knows one URL. *)
Definition acmeHost (url : string) : option string :=
  if String.eqb url "https://acme.odoo.com" then Some "acme.odoo.com" else None.

Definition acmeListing : World :=
  {| storage := ∅; clock := 0; server := script [okJson 30 (JArr [JStr "acme"])];
     sent := []; clients := [] |}.

(** *** Vocabulary of the further properties *)

(** The name of a stored cookie: what precedes its first [=]. *)
Definition cookieName (c : string) : list ascii :=
  Client.upTo "=" (JsString.chars c).

(** A cookie jar is well formed when every cookie is a [name=value] pair
    and no two cookies share a name. *)
Definition cookieJarOk (jar : list string) : Prop :=
  Forall (fun c => "="%char ∈ JsString.chars c) jar /\
  NoDup (cookieName <$> jar).

(** What [updateCookiesFromResponse] keeps of one piece of a [Set-Cookie]
    header: the text before the first [;], trimmed. *)
Definition cookiePair (cookieHeader : list ascii) : list ascii :=
  Client.trim (Client.upTo ";" cookieHeader).

(** A piece that sets a cookie with a value, or that the loop skips for
    want of a name. *)
Definition pieceOk (cookieHeader : list ascii) : Prop :=
  Client.upTo "=" (cookiePair cookieHeader) = [] \/
  "="%char ∈ cookiePair cookieHeader.

(** The [Cookie] header that a client in state [c] sends, if any. *)
Definition cookieHeaderOf (c : OdooClient.t) : option string :=
  if match OdooClient.sessionId c with
     | Some sid => JsString.truthy sid
     | None => false
     end || (0 <? length (OdooClient.cookies c))%nat
  then Some (Client.getCookieHeader c)
  else None.

(** The errors that [request] raises itself. *)
Definition isApiError (e : Exn) : Prop :=
  e = defaultSessionExpired \/
  exists message code debug, e = OdooApiError message code debug.

(** The error of an operation that finds no stored session. *)
Definition noSession : Exn := SessionExpiredError "No active session found".

(** A URL parser that knows one URL, and a server that lists one database,
    accepts the login with a session cookie and knows the employee. *)
Definition acmeProtocol (url : string) : option string :=
  if String.eqb url "https://acme.odoo.com" then Some "https:" else None.

Definition acmeLogin : World :=
  {| storage := ∅; clock := 0;
     server :=
       script
         [okJson 30 (JArr [JStr "acme"]);
          {| latency := 90;
             answer :=
               Responded
                 {| status := 200; statusText := "OK";
                    setCookie := Some "session_id=0f3c9a; Path=/; HttpOnly";
                    body :=
                      JsonBody
                        {| rpc_result :=
                             Some (JObj [("uid", JNum 2); ("username", JStr "ada");
                                         ("name", JStr "Ada Lovelace");
                                         ("company_id", JNum 1)]);
                           rpc_error := None |} |} |};
          okJson 40 (JArr [JObj [("id", JNum 7); ("name", JStr "Ada")]])];
     sent := []; clients := [] |}.

(** The same server, but it rejects the credentials. *)
Definition acmeDenied : World :=
  {| storage := ∅; clock := 0;
     server := script [okJson 30 (JArr [JStr "acme"]); rpcFailure accessDenied];
     sent := []; clients := [] |}.

(** The request by which [fetchDatabaseList] asks a server for its
    databases: the first request of a fresh client without session. *)
Definition databaseListRequest (url : string) : Request :=
  {| req_url := Client.stripTrailingSlash url +:+ "/web/database/list";
     req_cookie := None;
     req_body := Client.requestBody (JObj []) 1 |}.

(** A parser for a self-hosted server. *)
Definition intranetHost (url : string) : option string :=
  if String.eqb url "https://odoo.example.org" then Some "odoo.example.org" else None.

Definition intranetListing : World :=
  {| storage := ∅; clock := 0;
     server := script [okJson 30 (JArr [JStr "production"])];
     sent := []; clients := [] |}.

(** Both attendance endpoints are missing, and the model call is refused. *)
Definition attendanceUnavailable : World :=
  loggedIn 1700000000000
    [http 40 404 "Not Found" (NotJson "Unexpected token < in JSON at position 0");
     rpcFailure accessDenied].

(** The toggle endpoint answers with the new state. *)
Definition toggling : World := loggedIn 1700000000000 [okJson 150 checkedIn].

(** The lookup finds timer 42, and the read of its start time answers. *)
Definition watching : World :=
  loggedIn 1700000000000
    [okJson 10 (JObj [("id", JNum 42); ("start", JNum 5)]);
     okJson 10 (JArr [JObj [("timer_start", JStr "2023-11-14 22:08:20")]])].

(** The local time value that a timestamp denotes, before the host's
    offset is taken off. *)
Definition localTime (c : Civil) : Z :=
  JsDate.MakeDate (JsDate.MakeDay (year c) (month c) (day c))
                  (JsDate.MakeTime (hour c) (minute c) (second c) 0).

(** The cache describes a timer with this id and this start time. *)
Definition cachesTimer (id0 : option Z) (start0 : option string) (w : World) : Prop :=
  exists c, cachedTimer w = Some c /\
            timerId (data c) = id0 /\ startTime (data c) = start0.

(** The store is [st0]. *)
Definition storeIs (st0 : gmap string Stored) (w : World) : Prop := storage w = st0.

(** [Number.MAX_SAFE_INTEGER] *)
Definition maxSafeInteger : Z := 9007199254740991.

(** *** Reading a displayed duration back

    A reader for the output of [formatDuration]: words separated by one
    space, each a decimal number with the unit [h], [min] or [sec]. *)

Definition isDigit (c : ascii) : bool :=
  let n := N_of_ascii c in ((48 <=? n) && (n <=? 57))%N.

(** [s.split(" ")]; [cur] is the word being read, reversed. *)
Fixpoint words (cur s : list ascii) : list (list ascii) :=
  match s with
  | [] => [rev cur]
  | c :: s' =>
      if Ascii.eqb c " " then rev cur :: words [] s' else words (c :: cur) s'
  end.

Fixpoint leadingDigits (s : list ascii) : list ascii * list ascii :=
  match s with
  | [] => ([], [])
  | c :: s' =>
      if isDigit c
      then let '(digits, rest) := leadingDigits s' in (c :: digits, rest)
      else ([], s)
  end.

Definition unitSeconds (unit : string) : option Z :=
  if String.eqb unit "h" then Some 3600
  else if String.eqb unit "min" then Some 60
  else if String.eqb unit "sec" then Some 1
  else None.

Definition readPart (word : list ascii) : option Z :=
  let '(digits, unit) := leadingDigits word in
  n ← NilZero.int_of_string (JsString.ofChars digits);
  k ← unitSeconds (JsString.ofChars unit);
  Some (Z.of_int n * k).

Definition readDuration (s : string) : option Z :=
  parts ← mapM readPart (words [] (JsString.chars s));
  Some (foldr Z.add 0 parts).

(** A host with daylight saving time: the offsets of New York in 2024, as
    a function of the local time value.  A local time in the hour skipped
    on 10 March is read with the winter offset. *)
Definition springForward : Civil :=
  {| year := 2024; month := 3; day := 10; hour := 3; minute := 0; second := 0 |}.

Definition fallBack : Civil :=
  {| year := 2024; month := 11; day := 3; hour := 2; minute := 0; second := 0 |}.

Definition newYork (t : Z) : Z :=
  if (localTime springForward <=? t) && (t <? localTime fallBack)
  then -14400000 else -18000000.

Definition lastWinterSecond : Civil :=
  {| year := 2024; month := 3; day := 10; hour := 1; minute := 59; second := 59 |}.

Definition skippedHalfHour : Civil :=
  {| year := 2024; month := 3; day := 10; hour := 2; minute := 30; second := 0 |}.

(** As [startedElsewhere], on a slow connection: the two exchanges take
    two minutes and eighty seconds. *)
Definition startedElsewhereSlowly : World :=
  loggedIn 1700000000000
    [okJson 120000 (JBool false);
     okJson 80000 (JObj [("id", JNum 42); ("start", JNum 5)])].

(** Timer 42 has been started and cached; the server is ready to answer
    the write of an update and the search for the project's name. *)
Definition runningUnassigned : World :=
  (Timesheet.startTimer
     (loggedIn 1700000000000
        [okJson 10 (JNum 42);
         okJson 10 (JBool true);
         okJson 10 (JArr [JArr [JNum 3; JStr "Website"]])])).2.

(** A host parser that knows the URL of a development instance. *)
Definition acmeDevHost (url : string) : option string :=
  if String.eqb url "https://acme.dev.odoo.com" then Some "acme.dev.odoo.com" else None.

(** The listing endpoint answers with three names. *)
Definition acmeSeveral : World :=
  {| storage := ∅; clock := 0;
     server := script [okJson 30 (JArr [JStr "test"; JStr "acme-staging"; JStr "acme"])];
     sent := []; clients := [] |}.

(** The listing endpoint cannot be reached. *)
Definition acmeUnlisted : World :=
  {| storage := ∅; clock := 0; server := script []; sent := []; clients := [] |}.

(** The server of [acmeLogin], but it refuses the employee lookup. *)
Definition acmeNoEmployee : World :=
  {| storage := ∅; clock := 0;
     server :=
       script
         [okJson 30 (JArr [JStr "acme"]);
          {| latency := 90;
             answer :=
               Responded
                 {| status := 200; statusText := "OK";
                    setCookie := Some "session_id=0f3c9a; Path=/; HttpOnly";
                    body :=
                      JsonBody
                        {| rpc_result :=
                             Some (JObj [("uid", JNum 2); ("username", JStr "ada");
                                         ("name", JStr "Ada Lovelace");
                                         ("company_id", JNum 1)]);
                           rpc_error := None |} |} |};
          rpcFailure accessDenied];
     sent := []; clients := [] |}.

(** The exchange answers the read of [timer_start] at its declared type:
    if it answers with rows, the first row carries a start time. *)
Definition carriesStart (x : Exchange) : Prop :=
  forall r row rest,
    rpcResult x = Some r ->
    Timesheet.viewTimerDetails r = Some (Some (row :: rest)) ->
    row <> None.

(** The lookup finds timer 42, and the read of its start time answers a
    row in which the field is not set. *)
Definition unstarted : World :=
  loggedIn 1700000000000
    [okJson 10 (JObj [("id", JNum 42); ("start", JNum 5)]);
     okJson 10 (JArr [JObj [("timer_start", JNull)]])].

(** A timesheet line is created and started, and the read of its start
    time answers a row in which the field is not set. *)
Definition unstartedLine : World :=
  loggedIn 1700000000000
    [okJson 10 (JNum 42);
     okJson 10 (JBool true);
     okJson 10 (JArr [JObj [("timer_start", JBool false)]]);
     okJson 10 (JArr [JArr [JNum 3; JStr "Website"]]);
     okJson 10 (JArr [JArr [JNum 5; JStr "Review"]])].
(** * Theorems *)

(** ** Elapsed seconds *)

Lemma digitVal_digitChar k :
  0 <= k < 10 -> JsDate.digitVal (JsDate.digitChar k) = Some k.
Proof.
  intros Hk.
  assert (k = 0 \/ k = 1 \/ k = 2 \/ k = 3 \/ k = 4 \/ k = 5 \/ k = 6 \/
          k = 7 \/ k = 8 \/ k = 9) as Hc by lia.
  repeat (destruct Hc as [-> | Hc]; [reflexivity |]). subst k. reflexivity.
Qed.

Lemma digitChar_not_space k :
  0 <= k < 10 -> Ascii.eqb (JsDate.digitChar k) " "%char = false.
Proof.
  intros Hk.
  assert (k = 0 \/ k = 1 \/ k = 2 \/ k = 3 \/ k = 4 \/ k = 5 \/ k = 6 \/
          k = 7 \/ k = 8 \/ k = 9) as Hc by lia.
  repeat (destruct Hc as [-> | Hc]; [reflexivity |]). subst k. reflexivity.
Qed.

(** Two-digit fields print and read back. *)
Lemma pad2_num2 n :
  0 <= n < 100 ->
  exists a b, JsDate.pad 2 n = [a; b] /\ JsDate.num2 a b = Some n /\
              Ascii.eqb a " "%char = false /\ Ascii.eqb b " "%char = false.
Proof.
  intros Hn.
  exists (JsDate.digitChar (n / 10 mod 10)), (JsDate.digitChar (n mod 10)).
  assert (0 <= n mod 10 < 10) by (apply Z.mod_pos_bound; lia).
  assert (0 <= n / 10 mod 10 < 10) by (apply Z.mod_pos_bound; lia).
  repeat split.
  - unfold JsDate.num2. rewrite !digitVal_digitChar by assumption. simpl.
    f_equal. rewrite (Z.mod_small (n / 10) 10).
    + pose proof (Z.div_mod n 10). lia.
    + split; [apply Z.div_pos; lia | apply Z.div_lt_upper_bound; lia].
  - now apply digitChar_not_space.
  - now apply digitChar_not_space.
Qed.

(** So does the four-digit year. *)
Lemma pad4_num4 n :
  0 <= n < 10000 ->
  exists a b c d, JsDate.pad 4 n = [a; b; c; d] /\ JsDate.num4 a b c d = Some n /\
    Ascii.eqb a " "%char = false /\ Ascii.eqb b " "%char = false /\
    Ascii.eqb c " "%char = false /\ Ascii.eqb d " "%char = false.
Proof.
  intros Hn.
  exists (JsDate.digitChar (n / 10 / 10 / 10 mod 10)),
         (JsDate.digitChar (n / 10 / 10 mod 10)),
         (JsDate.digitChar (n / 10 mod 10)), (JsDate.digitChar (n mod 10)).
  assert (0 <= n mod 10 < 10) by (apply Z.mod_pos_bound; lia).
  assert (0 <= n / 10 mod 10 < 10) by (apply Z.mod_pos_bound; lia).
  assert (0 <= n / 10 / 10 mod 10 < 10) by (apply Z.mod_pos_bound; lia).
  assert (0 <= n / 10 / 10 / 10 mod 10 < 10) by (apply Z.mod_pos_bound; lia).
  split; [reflexivity |].
  split; [| repeat split; now apply digitChar_not_space].
  unfold JsDate.num4, JsDate.num2. rewrite !digitVal_digitChar by assumption.
  simpl. f_equal. Z.div_mod_to_equations. lia.
Qed.

Lemma chars_ofChars l : JsString.chars (JsString.ofChars l) = l.
Proof. apply list_ascii_of_string_of_list_ascii. Qed.

Lemma DayFromYear_bounds y :
  0 <= y <= 9999 -> -720000 <= JsDate.DayFromYear y <= 2940000.
Proof.
  intros Hy. unfold JsDate.DayFromYear. Z.div_mod_to_equations. lia.
Qed.

Lemma daysBeforeMonth_bounds y m : 0 <= JsDate.daysBeforeMonth y m <= 335.
Proof.
  unfold JsDate.daysBeforeMonth.
  destruct (JsDate.isLeap y); repeat (case_match; try lia).
Qed.

Lemma daysInMonth_le y m : JsDate.daysInMonth y m <= 31.
Proof. unfold JsDate.daysInMonth. repeat (case_match; try lia). Qed.

Section ElapsedSeconds.

Variable LocalTZA : Z -> Z.

(** Local time is less than a day away from UTC. *)
Hypothesis LocalTZA_bounded : forall t, Z.abs (LocalTZA t) <= JsDate.msPerDay.

(** A valid Odoo timestamp is read as the instant it denotes. *)
Lemma dateOf_odooFormat c :
  validCivil c = true ->
  Format.dateOf LocalTZA (odooFormat c) = Some (instant LocalTZA c).
Proof.
  intros Hv. unfold validCivil in Hv.
  repeat (apply andb_prop in Hv; destruct Hv as [Hv ?]).
  destruct (pad4_num4 (year c)) as (y1 & y2 & y3 & y4 & Ey & Ny & ? & ? & ? & ?); [lia |].
  destruct (pad2_num2 (month c)) as (m1 & m2 & Em & Nm & ? & ?); [lia |].
  pose proof (daysInMonth_le (year c) (month c)).
  destruct (pad2_num2 (day c)) as (d1 & d2 & Ed & Nd & ? & ?); [lia |].
  destruct (pad2_num2 (hour c)) as (h1 & h2 & Eh & Nh & ? & ?); [lia |].
  destruct (pad2_num2 (minute c)) as (i1 & i2 & Ei & Ni & ? & ?); [lia |].
  destruct (pad2_num2 (second c)) as (s1 & s2 & Es & Ns & ? & ?); [lia |].
  unfold Format.dateOf, odooFormat, JsString.replaceFirst.
  rewrite chars_ofChars, Ey, Em, Ed, Eh, Ei, Es. cbn [app JsString.replaceFirstL].
  repeat match goal with H : Ascii.eqb _ _ = false |- _ => rewrite H; clear H end.
  cbn [JsString.replaceFirstL]. change (Ascii.eqb "-" " ") with false.
  cbn [JsString.replaceFirstL]. rewrite ?Ascii.eqb_refl.
  unfold JsDate.parse. rewrite chars_ofChars.
  unfold JsDate.parseFields. rewrite Ny, Nm, Nd, Nh, Ni, Ns. cbn [mbind option_bind].
  change (JsDate.isChar "-" "-") with true.
  change (JsDate.isChar "T" "T") with true.
  change (JsDate.isChar ":" ":") with true.
  replace (1 <=? month c) with true by lia.
  replace (month c <=? 12) with true by lia.
  replace (1 <=? day c) with true by lia.
  replace (day c <=? 31) with true by lia.
  replace (hour c <=? 23) with true by lia.
  replace (minute c <=? 59) with true by lia.
  replace (second c <=? 59) with true by lia.
  cbn [andb orb]. unfold instant, JsDate.TimeClip.
  pose proof (DayFromYear_bounds (year c)).
  pose proof (daysBeforeMonth_bounds (year c) (month c)).
  pose proof (LocalTZA_bounded
                (JsDate.MakeDate (JsDate.MakeDay (year c) (month c) (day c))
                   (JsDate.MakeTime (hour c) (minute c) (second c) 0))).
  unfold JsDate.UTC, JsDate.MakeDate, JsDate.MakeDay, JsDate.MakeTime, JsDate.msPerDay in *.
  cbn [mbind option_bind]. case_match; [reflexivity | lia].
Qed.

(** C1, as amended.  For valid Odoo timestamps [start] and [now], [now]
    not before [start] on the calendar, that the host reads with the same
    offset from UTC, [getElapsedSeconds] returns the number [e] of whole
    seconds between the two timestamps: [e] is the floor of the
    difference of the calendar readings (in milliseconds) by 1000, it is
    non-negative, and [1000 e <= now - start < 1000 (e + 1)], whatever
    days or months lie between the two dates. *)
Theorem getElapsedSeconds_floor (start now : Civil) :
  validCivil start = true ->
  validCivil now = true ->
  localTime start <= localTime now ->
  LocalTZA (localTime now) = LocalTZA (localTime start) ->
  exists e,
    Format.getElapsedSeconds LocalTZA (odooFormat start) (odooFormat now) = Some e /\
    e = (localTime now - localTime start) / 1000 /\
    0 <= e /\
    1000 * e <= localTime now - localTime start < 1000 * e + 1000.
Proof.
  intros Hs Hn Hle Htz.
  exists ((localTime now - localTime start) / 1000).
  unfold Format.getElapsedSeconds.
  rewrite (dateOf_odooFormat start Hs), (dateOf_odooFormat now Hn).
  cbn [mbind option_bind]. unfold instant, JsDate.UTC.
  fold (localTime start). fold (localTime now). rewrite Htz.
  split; [do 2 f_equal; lia |]. split; [reflexivity |].
  Z.div_mod_to_equations. lia.
Qed.

(** Between two timestamps with the same offset from UTC, the result is
    the difference of the calendar readings, in seconds. *)
Lemma getElapsedSeconds_civil (start now : Civil) :
  validCivil start = true ->
  validCivil now = true ->
  LocalTZA (JsDate.MakeDate (JsDate.MakeDay (year now) (month now) (day now))
              (JsDate.MakeTime (hour now) (minute now) (second now) 0)) =
  LocalTZA (JsDate.MakeDate (JsDate.MakeDay (year start) (month start) (day start))
              (JsDate.MakeTime (hour start) (minute start) (second start) 0)) ->
  Format.getElapsedSeconds LocalTZA (odooFormat start) (odooFormat now) =
  Some ((JsDate.MakeDay (year now) (month now) (day now)
         - JsDate.MakeDay (year start) (month start) (day start)) * 86400
        + (hour now - hour start) * 3600 + (minute now - minute start) * 60
        + (second now - second start)).
Proof.
  intros Hs Hn Htz. unfold Format.getElapsedSeconds.
  rewrite (dateOf_odooFormat start Hs), (dateOf_odooFormat now Hn).
  cbn [mbind option_bind]. f_equal.
  unfold instant, JsDate.UTC. rewrite Htz.
  unfold JsDate.MakeDate, JsDate.MakeTime, JsDate.msPerDay.
  Z.div_mod_to_equations. lia.
Qed.

End ElapsedSeconds.

(** Consecutive calendar days have consecutive day numbers, also where a
    month or a year ends. *)
Lemma isLeap_true y :
  JsDate.isLeap y = true <-> (y mod 4 = 0 /\ y mod 100 <> 0) \/ y mod 400 = 0.
Proof.
  unfold JsDate.isLeap.
  rewrite orb_true_iff, andb_true_iff, negb_true_iff, !Z.eqb_eq, Z.eqb_neq. tauto.
Qed.

Lemma MakeDay_next_day y m d : JsDate.MakeDay y m (d + 1) = JsDate.MakeDay y m d + 1.
Proof. unfold JsDate.MakeDay. lia. Qed.

Lemma MakeDay_next_month y m :
  1 <= m < 12 ->
  JsDate.MakeDay y (m + 1) 1 = JsDate.MakeDay y m (JsDate.daysInMonth y m) + 1.
Proof.
  intros Hm. unfold JsDate.MakeDay, JsDate.daysBeforeMonth, JsDate.daysInMonth.
  assert (m = 1 \/ m = 2 \/ m = 3 \/ m = 4 \/ m = 5 \/ m = 6 \/ m = 7 \/ m = 8 \/
          m = 9 \/ m = 10 \/ m = 11) as Hc by lia.
  destruct (JsDate.isLeap y);
    repeat (destruct Hc as [-> | Hc]; [simpl; lia |]); subst m; simpl; lia.
Qed.

Lemma DayFromYear_next y :
  JsDate.DayFromYear (y + 1) =
  JsDate.DayFromYear y + (if JsDate.isLeap y then 366 else 365).
Proof.
  unfold JsDate.DayFromYear.
  destruct (JsDate.isLeap y) eqn:E.
  - apply isLeap_true in E. Z.div_mod_to_equations. lia.
  - assert (~ ((y mod 4 = 0 /\ y mod 100 <> 0) \/ y mod 400 = 0)) as E'
      by (rewrite <- isLeap_true, E; discriminate).
    Z.div_mod_to_equations. lia.
Qed.

Lemma MakeDay_next_year y :
  JsDate.MakeDay (y + 1) 1 1 = JsDate.MakeDay y 12 31 + 1.
Proof.
  unfold JsDate.MakeDay. rewrite DayFromYear_next.
  unfold JsDate.daysBeforeMonth. cbn [Z.eqb]. destruct (JsDate.isLeap y); simpl; lia.
Qed.

(** ** [toISOString] and [parse] agree *)

Lemma allFrom_spec f n z :
  allFrom f n z = true -> forall k, z <= k < z + Z.of_nat n -> f k = true.
Proof.
  revert z. induction n as [| n IH]; intros z H k Hk; [lia |].
  cbn [allFrom] in H. destruct (f z) eqn:Ez; [| discriminate].
  destruct (Z.eq_dec k z) as [-> | Hne]; [exact Ez |].
  apply (IH (z + 1) H). lia.
Qed.

Lemma monthDayOk_all : allFrom monthDayOk 366 0 = true.
Proof. vm_compute. reflexivity. Qed.

(** The year of a day within the 400-year cycle that starts on 1 March of
    year 0. *)
Lemma yoe_bounds doe :
  0 <= doe < 146097 ->
  let yoe := (doe - doe / 1460 + doe / 36524 - doe / 146096) / 365 in
  0 <= yoe <= 399 /\
  365 * yoe + yoe / 4 - yoe / 100 <= doe /\
  doe < 365 * (yoe + 1) + (yoe + 1) / 4 - (yoe + 1) / 100 + (yoe + 1) / 400.
Proof. intros H yoe. subst yoe. Z.div_mod_to_equations. lia. Qed.

(** The day number of 1 March of year [y]. *)
Lemma DayFromYear_march y :
  JsDate.DayFromYear y + 59 + (if JsDate.isLeap y then 1 else 0) =
  365 * y + y / 4 - y / 100 + y / 400 - 719468.
Proof.
  unfold JsDate.DayFromYear. destruct (JsDate.isLeap y) eqn:E.
  - apply isLeap_true in E. Z.div_mod_to_equations. lia.
  - assert (~ ((y mod 4 = 0 /\ y mod 100 <> 0) \/ y mod 400 = 0)) as E'
      by (rewrite <- isLeap_true, E; discriminate).
    Z.div_mod_to_equations. lia.
Qed.

Lemma daysBeforeMonth_from_march y m :
  3 <= m <= 12 ->
  JsDate.daysBeforeMonth y m =
  JsDate.daysBeforeMonth 1 m + (if JsDate.isLeap y then 1 else 0).
Proof.
  intros Hm.
  assert (m = 3 \/ m = 4 \/ m = 5 \/ m = 6 \/ m = 7 \/ m = 8 \/ m = 9 \/ m = 10 \/
          m = 11 \/ m = 12) as Hc by lia.
  unfold JsDate.daysBeforeMonth.
  destruct (JsDate.isLeap y);
    repeat (destruct Hc as [-> | Hc]; [reflexivity |]); subst m; reflexivity.
Qed.

Lemma daysBeforeMonth_winter y m :
  1 <= m <= 2 -> JsDate.daysBeforeMonth y m = JsDate.daysBeforeMonth 1 m.
Proof.
  intros Hm. assert (m = 1 \/ m = 2) as [-> | ->] by lia; reflexivity.
Qed.

Lemma daysInMonth_not_february y m :
  m <> 2 -> JsDate.daysInMonth y m = JsDate.daysInMonth 1 m.
Proof.
  intros Hm. unfold JsDate.daysInMonth.
  destruct (Z.eqb_spec m 2); [contradiction | reflexivity].
Qed.

(** [civilFromDay] on a day of that cycle. *)
Lemma civilFromDay_in_cycle doe :
  0 <= doe < 146097 ->
  let '(y, m, d) := JsDate.civilFromDay (doe - 719468) in
  1 <= m <= 12 /\ 1 <= d <= JsDate.daysInMonth y m /\
  JsDate.MakeDay y m d = doe - 719468.
Proof.
  intros Hdoe. unfold JsDate.civilFromDay.
  replace (doe - 719468 + 719468) with doe by lia.
  replace (doe / 146097) with 0 by (symmetry; apply Z.div_small; lia).
  replace (doe - 0 * 146097) with doe by lia.
  destruct (yoe_bounds doe Hdoe) as (Hyoe & Hlo & Hhi).
  set (yoe := (doe - doe / 1460 + doe / 36524 - doe / 146096) / 365) in *.
  set (doy := doe - (365 * yoe + yoe / 4 - yoe / 100)).
  assert (yoe / 400 = 0) as Hq by (apply Z.div_small; lia).
  assert (0 <= doy <= 365) as Hdoy
    by (unfold doy; Z.div_mod_to_equations; lia).
  pose proof (allFrom_spec _ _ _ monthDayOk_all doy ltac:(lia)) as Hok.
  unfold monthDayOk in Hok.
  set (mp := (5 * doy + 2) / 153) in *.
  set (dd := doy - (153 * mp + 2) / 5 + 1) in *.
  set (mm := if mp <? 10 then mp + 3 else mp - 9) in *.
  replace (yoe + 0 * 400) with yoe by lia.
  pose proof (DayFromYear_march yoe) as Hmarch. rewrite Hq in Hmarch.
  clearbody mm dd. unfold JsDate.MakeDay.
  rewrite !andb_true_iff in Hok. destruct Hok as (((Hm1 & Hm12) & Hd1) & Hok).
  destruct (Z.leb_spec 3 mm) as [Hm | Hm].
  - rewrite andb_true_iff in Hok. destruct Hok as [Hdmax Hday].
    replace (mm <=? 2) with false by lia.
    rewrite daysBeforeMonth_from_march, (daysInMonth_not_february yoe mm) by lia.
    lia.
  - rewrite andb_true_iff in Hok. destruct Hok as [Hday Hdmax].
    replace (mm <=? 2) with true by lia.
    rewrite DayFromYear_next, daysBeforeMonth_winter by lia.
    assert (JsDate.DayFromYear yoe + (if JsDate.isLeap yoe then 366 else 365) =
            365 * yoe + yoe / 4 - yoe / 100 - 719468 + 306) as ->
      by (destruct (JsDate.isLeap yoe); lia).
    assert (doy = 365 -> JsDate.isLeap (yoe + 1) = true) as Hleap.
    { intros H365. apply isLeap_true. unfold doy in H365.
      clear Hmarch. Z.div_mod_to_equations. lia. }
    unfold JsDate.daysInMonth. revert Hdmax.
    destruct (Z.eqb_spec mm 2) as [Heq | Hne]; intros Hdmax;
      [| replace ((mm =? 4) || (mm =? 6) || (mm =? 9) || (mm =? 11)) with false by lia; lia].
    revert Hdmax.
    destruct (Z.eqb_spec doy 365) as [H365 | H365]; intros Hdmax;
      [rewrite (Hleap H365); lia | destruct (JsDate.isLeap (yoe + 1)); lia].
Qed.

Lemma DayFromYear_cycle y k :
  JsDate.DayFromYear (y + 400 * k) = JsDate.DayFromYear y + 146097 * k.
Proof. unfold JsDate.DayFromYear. Z.div_mod_to_equations. lia. Qed.

Lemma isLeap_cycle y k : JsDate.isLeap (y + 400 * k) = JsDate.isLeap y.
Proof.
  unfold JsDate.isLeap.
  replace ((y + 400 * k) mod 4) with (y mod 4)
    by (Z.div_mod_to_equations; lia).
  replace ((y + 400 * k) mod 100) with (y mod 100)
    by (Z.div_mod_to_equations; lia).
  replace ((y + 400 * k) mod 400) with (y mod 400)
    by (Z.div_mod_to_equations; lia).
  reflexivity.
Qed.

Lemma MakeDay_cycle y m d k :
  JsDate.MakeDay (y + 400 * k) m d = JsDate.MakeDay y m d + 146097 * k.
Proof.
  unfold JsDate.MakeDay, JsDate.daysBeforeMonth.
  rewrite DayFromYear_cycle, isLeap_cycle. lia.
Qed.

Lemma daysInMonth_cycle y m k :
  JsDate.daysInMonth (y + 400 * k) m = JsDate.daysInMonth y m.
Proof. unfold JsDate.daysInMonth. now rewrite isLeap_cycle. Qed.

(** [civilFromDay] on any day, through the day's place in its cycle. *)
Lemma civilFromDay_cycle z :
  let era := (z + 719468) / 146097 in
  let doe := (z + 719468) mod 146097 in
  JsDate.civilFromDay z =
  let '(y, m, d) := JsDate.civilFromDay (doe - 719468) in (y + 400 * era, m, d).
Proof.
  intros era doe. unfold JsDate.civilFromDay.
  assert (0 <= doe < 146097) as Hdoe by (apply Z.mod_pos_bound; lia).
  replace (doe - 719468 + 719468) with doe by lia.
  replace (doe / 146097) with 0 by (symmetry; apply Z.div_small; lia).
  replace (z + 719468 - (z + 719468) / 146097 * 146097) with doe
    by (unfold doe; rewrite Z.mod_eq by lia; lia).
  replace (doe - 0 * 146097) with doe by lia.
  fold era.
  set (yoe := (doe - doe / 1460 + doe / 36524 - doe / 146096) / 365).
  set (doy := doe - (365 * yoe + yoe / 4 - yoe / 100)).
  set (mp := (5 * doy + 2) / 153).
  destruct (mp <? 10); destruct (_ <=? 2); f_equal; f_equal; lia.
Qed.

(** The date of a day is a calendar date, and [MakeDay] finds the day
    again. *)
Lemma civilFromDay_MakeDay z :
  let '(y, m, d) := JsDate.civilFromDay z in
  1 <= m <= 12 /\ 1 <= d <= JsDate.daysInMonth y m /\ JsDate.MakeDay y m d = z.
Proof.
  rewrite civilFromDay_cycle.
  set (era := (z + 719468) / 146097). set (doe := (z + 719468) mod 146097).
  assert (0 <= doe < 146097) as Hdoe by (apply Z.mod_pos_bound; lia).
  assert (z = doe - 719468 + 146097 * era) as Hz
    by (unfold doe, era; rewrite Z.mod_eq by lia; lia).
  pose proof (civilFromDay_in_cycle doe Hdoe) as Hok.
  destruct (JsDate.civilFromDay (doe - 719468)) as [[y m] d].
  rewrite daysInMonth_cycle, MakeDay_cycle. lia.
Qed.

Lemma pad3_num3 n :
  0 <= n < 1000 ->
  exists a b c, JsDate.pad 3 n = [a; b; c] /\ JsDate.num3 a b c = Some n.
Proof.
  intros Hn.
  exists (JsDate.digitChar (n / 10 / 10 mod 10)),
         (JsDate.digitChar (n / 10 mod 10)), (JsDate.digitChar (n mod 10)).
  assert (0 <= n mod 10 < 10) by (apply Z.mod_pos_bound; lia).
  assert (0 <= n / 10 mod 10 < 10) by (apply Z.mod_pos_bound; lia).
  assert (0 <= n / 10 / 10 mod 10 < 10) by (apply Z.mod_pos_bound; lia).
  split; [reflexivity |].
  unfold JsDate.num3, JsDate.num2. rewrite !digitVal_digitChar by assumption.
  simpl. f_equal. Z.div_mod_to_equations. lia.
Qed.

Lemma DayFromYear_late y : 10000 <= y -> 2932897 <= JsDate.DayFromYear y.
Proof. intros Hy. unfold JsDate.DayFromYear. Z.div_mod_to_equations. lia. Qed.

Lemma DayFromYear_early y : y <= 0 -> JsDate.DayFromYear y <= -719528.
Proof. intros Hy. unfold JsDate.DayFromYear. Z.div_mod_to_equations. lia. Qed.

(** A calendar date lies within its year. *)
Lemma MakeDay_within_year y m d :
  1 <= m <= 12 -> 1 <= d <= JsDate.daysInMonth y m ->
  JsDate.DayFromYear y <= JsDate.MakeDay y m d < JsDate.DayFromYear (y + 1).
Proof.
  intros Hm Hd. rewrite DayFromYear_next.
  unfold JsDate.MakeDay, JsDate.daysBeforeMonth, JsDate.daysInMonth in *.
  assert (m = 1 \/ m = 2 \/ m = 3 \/ m = 4 \/ m = 5 \/ m = 6 \/ m = 7 \/ m = 8 \/
          m = 9 \/ m = 10 \/ m = 11 \/ m = 12) as Hc by lia.
  destruct (JsDate.isLeap y);
    repeat (destruct Hc as [-> | Hc]; [simpl in *; lia |]); subst m; simpl in *; lia.
Qed.

(** For an instant in the years 0 to 9999, [toISOString] yields a string
    that [parse] reads back as that instant, in any time zone. *)
Lemma toISOString_parse (LocalTZA : Z -> Z) (t : Z) :
  -62167219200000 <= t <= 253402300799999 ->
  exists iso, JsDate.toISOString t = Some iso /\ JsDate.parse LocalTZA iso = Some t.
Proof.
  intros Ht. unfold JsDate.toISOString, JsDate.TimeClip.
  replace (Z.abs t <=? 8640000000000000) with true by lia.
  cbn [mbind option_bind].
  set (dayNo := t / JsDate.msPerDay). set (tm := t mod JsDate.msPerDay).
  assert (0 <= tm < 86400000) as Htm by (apply Z.mod_pos_bound; reflexivity).
  assert (t = dayNo * 86400000 + tm) as Hsplit
    by (unfold dayNo, tm, JsDate.msPerDay; rewrite Z.mod_eq by lia; lia).
  clearbody dayNo tm.
  pose proof (civilFromDay_MakeDay dayNo) as Hcivil.
  destruct (JsDate.civilFromDay dayNo) as [[y m] d].
  destruct Hcivil as (Hm & Hd & Hday).
  pose proof (daysBeforeMonth_bounds y m) as Hbefore.
  pose proof (daysInMonth_le y m) as Hmax.
  assert (0 <= y <= 9999) as Hy.
  { pose proof (MakeDay_within_year y m d Hm Hd) as Hin.
    destruct (Z_lt_le_dec y 0) as [Hneg | Hpos];
      [pose proof (DayFromYear_early (y + 1) ltac:(lia)) |];
      (destruct (Z_le_gt_dec 10000 y) as [Hbig | Hsmall];
       [pose proof (DayFromYear_late y Hbig) |]); lia. }
  unfold JsDate.yearChars. replace ((0 <=? y) && (y <=? 9999)) with true by lia.
  destruct (pad4_num4 y) as (y1 & y2 & y3 & y4 & Ey & Ny & _); [lia |].
  destruct (pad2_num2 m) as (m1 & m2 & Em & Nm & _); [lia |].
  destruct (pad2_num2 d) as (d1 & d2 & Ed & Nd & _); [lia |].
  assert (0 <= tm / 3600000 <= 23) as Hh by (Z.div_mod_to_equations; lia).
  assert (0 <= tm / 60000 mod 60 <= 59) as Hi by (Z.div_mod_to_equations; lia).
  assert (0 <= tm / 1000 mod 60 <= 59) as Hs by (Z.div_mod_to_equations; lia).
  assert (0 <= tm mod 1000 < 1000) as Hms by (apply Z.mod_pos_bound; lia).
  destruct (pad2_num2 (tm / 3600000)) as (h1 & h2 & Eh & Nh & _); [lia |].
  destruct (pad2_num2 (tm / 60000 mod 60)) as (i1 & i2 & Ei & Ni & _); [lia |].
  destruct (pad2_num2 (tm / 1000 mod 60)) as (s1 & s2 & Es & Ns & _); [lia |].
  destruct (pad3_num3 (tm mod 1000)) as (f1 & f2 & f3 & Ef & Nf); [lia |].
  eexists. split; [reflexivity |].
  rewrite Ey, Em, Ed, Eh, Ei, Es, Ef. cbn [app].
  unfold JsDate.parse. rewrite chars_ofChars.
  unfold JsDate.parseFields. rewrite Ny, Nm, Nd, Nh, Ni, Ns. cbn [mbind option_bind].
  change (JsDate.isChar "-" "-") with true.
  change (JsDate.isChar "T" "T") with true.
  change (JsDate.isChar ":" ":") with true.
  replace (1 <=? m) with true by lia.
  replace (m <=? 12) with true by lia.
  replace (1 <=? d) with true by lia.
  replace (d <=? 31) with true by lia.
  replace (tm / 3600000 <=? 23) with true by lia.
  replace (tm / 60000 mod 60 <=? 59) with true by lia.
  replace (tm / 1000 mod 60 <=? 59) with true by lia.
  cbn [andb orb mbind option_bind]. rewrite Nf. cbn [mbind option_bind].
  change (JsDate.isChar "." ".") with true.
  change (JsDate.isChar "Z" "Z") with true. cbn [andb].
  unfold JsDate.TimeClip, JsDate.MakeDate, JsDate.MakeTime, JsDate.msPerDay.
  rewrite Hday.
  assert (dayNo * 86400000 +
          (tm / 3600000 * 3600000 + tm / 60000 mod 60 * 60000 +
           tm / 1000 mod 60 * 1000 + 0) + tm mod 1000 = t) as ->
    by (Z.div_mod_to_equations; lia).
  replace (Z.abs t <=? 8640000000000000) with true by lia.
  reflexivity.
Qed.

(** ** Reasoning about runs *)

Section HoldsRules.

Context {A B : Type} (I : World -> Prop).

Lemma holds_ret (a : A) (Q : A -> Prop) : Q a -> holds I (ret a) Q.
Proof. intros Ha w Hw. split; [exact Hw |]. intros b [= <-]. exact Ha. Qed.

Lemma holds_throw (e : Exn) (Q : A -> Prop) : holds I (throw e) Q.
Proof. intros w Hw. split; [exact Hw | discriminate]. Qed.

Lemma holds_stuck (Q : A -> Prop) : holds I (@stuck A) Q.
Proof. intros w Hw. split; [exact Hw | discriminate]. Qed.

Lemma holds_lift (o : Outcome A) : holds I (lift o) (fun a => o = Returned a).
Proof. intros w Hw. split; [exact Hw | auto]. Qed.

Lemma holds_cast (v : option A) : holds I (cast v) (fun a => v = Some a).
Proof.
  intros w Hw. destruct v; simpl; (split; [exact Hw |]); [| discriminate].
  now intros b [= <-].
Qed.

Lemma holds_weaken (m : M A) (Q Q' : A -> Prop) :
  holds I m Q -> (forall a, Q a -> Q' a) -> holds I m Q'.
Proof. intros Hm HQ w Hw. destruct (Hm w Hw). split; auto. Qed.

Lemma holds_bind (m : M A) (k : A -> M B) (Q1 : A -> Prop) (Q2 : B -> Prop) :
  holds I m Q1 -> (forall a, Q1 a -> holds I (k a) Q2) -> holds I (bind m k) Q2.
Proof.
  intros Hm Hk w Hw. unfold bind. destruct (Hm w Hw) as [HI HQ].
  destruct (m w) as [[a | e |] w']; simpl in *.
  - apply (Hk a); auto.
  - split; [exact HI | discriminate].
  - split; [exact HI | discriminate].
Qed.

Lemma holds_tryCatch (m : M A) (h : Exn -> M A) (Q : A -> Prop) :
  holds I m Q -> (forall e, holds I (h e) Q) -> holds I (tryCatch m h) Q.
Proof.
  intros Hm Hh w Hw. unfold tryCatch. destruct (Hm w Hw) as [HI HQ].
  destruct (m w) as [[a | e |] w']; simpl in *.
  - split; auto.
  - apply (Hh e); auto.
  - split; [exact HI | discriminate].
Qed.

End HoldsRules.

Section Primitives.

Variable I : World -> Prop.
Hypothesis I_stable : Stable I.

Local Ltac same_world := intros w Hw; split; [exact Hw | auto].
Local Ltac framed :=
  intros w Hw; split; [| auto];
  apply (stable_frame I I_stable w); [reflexivity | | exact Hw]; simpl.

Lemma holds_now : holds I now (fun _ => True).
Proof. same_world. Qed.

Lemma holds_getItem key : holds I (getItem key) (fun _ => True).
Proof. same_world. Qed.

Lemma holds_fetch r : holds I (fetch r) (fun _ => True).
Proof. framed. now apply prefix_app_r. Qed.

Lemma holds_newRef c : holds I (newRef c) (fun _ => True).
Proof. framed. reflexivity. Qed.

Lemma holds_readRef this : holds I (readRef this) (fun _ => True).
Proof.
  intros w Hw. unfold readRef. destruct (clients w !! this); (split; [exact Hw | auto]).
Qed.

Lemma holds_writeRef this c : holds I (writeRef this c) (fun _ => True).
Proof. framed. reflexivity. Qed.

Lemma holds_request this endpoint params :
  holds I (Client.request this endpoint params) (fun _ => True).
Proof.
  unfold Client.request.
  eapply holds_bind; [apply holds_readRef | intros c _].
  eapply holds_bind; [apply holds_writeRef | intros _ _].
  apply holds_tryCatch; [| intros e; apply holds_throw].
  eapply holds_bind; [apply holds_fetch | intros [m | response] _].
  - apply holds_throw.
  - eapply holds_bind; [apply holds_readRef | intros c' _].
    eapply holds_bind; [apply holds_writeRef | intros _ _].
    eapply holds_weaken; [apply holds_lift | auto].
Qed.

Lemma holds_callKw this model method args kwargs :
  holds I (Client.callKw this model method args kwargs) (fun _ => True).
Proof. apply holds_request. Qed.

Lemma holds_getSession : holds I Auth.getSession (fun _ => True).
Proof.
  unfold Auth.getSession.
  eapply holds_bind; [apply holds_getItem | intros raw _].
  destruct (storedFalsy raw); [now apply holds_ret |].
  destruct raw as [[raw | j] |]; try now apply holds_ret.
  destruct j; try now apply holds_ret.
  all: eapply holds_bind; [apply holds_cast | intros; now apply holds_ret].
Qed.

Lemma holds_getAuthenticatedClient :
  holds I Auth.getAuthenticatedClient (fun _ => True).
Proof.
  unfold Auth.getAuthenticatedClient.
  eapply holds_bind; [apply holds_getSession | intros [s |] _].
  - apply holds_newRef.
  - apply holds_throw.
Qed.

Lemma holds_getProjects search :
  holds I (Timesheet.getProjects search) (fun _ => True).
Proof.
  unfold Timesheet.getProjects.
  eapply holds_bind; [apply holds_getAuthenticatedClient | intros client _].
  eapply holds_bind; [apply holds_callKw | intros r _].
  eapply holds_weaken; [apply holds_cast | auto].
Qed.

Lemma holds_getTasks p search :
  holds I (Timesheet.getTasks p search) (fun _ => True).
Proof.
  unfold Timesheet.getTasks.
  eapply holds_bind; [apply holds_getAuthenticatedClient | intros client _].
  eapply holds_bind; [apply holds_callKw | intros r _].
  eapply holds_weaken; [apply holds_cast | auto].
Qed.

End Primitives.

(** ** The timer cache *)

Lemma viewTimerState_encode s :
  Timesheet.viewTimerState (Timesheet.encodeTimerState s) = Some s.
Proof.
  destruct s as [[?|] [?|] [?|] [?|] [?|] [?|] [?|]]; reflexivity.
Qed.

Lemma viewCached_encode c :
  Timesheet.viewCached (Timesheet.encodeCached c) = Some c.
Proof.
  destruct c as [s t]. unfold Timesheet.viewCached, Timesheet.encodeCached.
  cbn [Json.req Json.field Json.assoc String.eqb Ascii.eqb Bool.eqb data timestamp
       mbind option_bind].
  rewrite viewTimerState_encode. reflexivity.
Qed.

Lemma cachedTimer_cacheTimerState w s :
  cachedTimer (Timesheet.cacheTimerState s w).2 =
  Some {| data := s; timestamp := clock w |}.
Proof.
  unfold cachedTimer, Timesheet.cacheTimerState, bind, now, setItem. simpl.
  rewrite lookup_insert_eq. apply viewCached_encode.
Qed.

Lemma cachedTimer_clearTimerCache w :
  cachedTimer (Timesheet.clearTimerCache w).2 = None.
Proof.
  unfold cachedTimer, Timesheet.clearTimerCache, removeItem. simpl.
  now rewrite lookup_delete_eq.
Qed.

Create HintDb holdsdb.

Section TimerOperations.

(** A property of the requests sent that further requests keep. *)
Variable P : list Request -> Prop.
Hypothesis P_mono : forall l l', l `prefix_of` l' -> P l -> P l'.

Lemma J_stable : Stable (J P).
Proof.
  constructor. intros w w' Hst Hpre [HP Hc]. split; [eauto |].
  unfold cacheInv, cachedTimer in *. now rewrite Hst.
Qed.

Local Hint Resolve J_stable : core.
Local Hint Resolve holds_now holds_getItem holds_callKw holds_request
  holds_getAuthenticatedClient holds_getProjects holds_getTasks : holdsdb.
Local Hint Extern 1 (holds _ (cast _) _) => apply holds_cast : holdsdb.

Local Ltac hbind :=
  eapply holds_bind; [solve [eauto with holdsdb] | intros ? ?].
Local Tactic Notation "hbind" "as" simple_intropattern(x) :=
  eapply holds_bind; [solve [eauto with holdsdb] | intros x ?].

Lemma holds_cacheTimerState s :
  timerInv s -> holds (J P) (Timesheet.cacheTimerState s) (fun _ => True).
Proof.
  intros Hs w [HP Hc]. split; [| auto]. split; [exact HP |].
  intros c Hc'. rewrite cachedTimer_cacheTimerState in Hc'.
  injection Hc' as <-. exact Hs.
Qed.

Lemma holds_clearTimerCache : holds (J P) Timesheet.clearTimerCache (fun _ => True).
Proof.
  intros w [HP Hc]. split; [| auto]. split; [exact HP |].
  intros c Hc'. now rewrite cachedTimer_clearTimerCache in Hc'.
Qed.

Lemma holds_getCachedTimerState :
  holds (J P) Timesheet.getCachedTimerState (fun r => forall s, r = Some s -> timerInv s).
Proof.
  intros w [HP Hc]. unfold Timesheet.getCachedTimerState, bind, getItem.
  destruct (storedFalsy (storage w !! Timesheet.TIMER_CACHE_KEY)) eqn:Ef;
    [split; [now split | now intros a [= <-]] |].
  destruct (storage w !! Timesheet.TIMER_CACHE_KEY) as [[raw | j] |] eqn:El;
    try (split; [now split | now intros a [= <-]]).
  destruct (Timesheet.viewCached j) as [c |] eqn:Ev; simpl;
    [| split; [now split | discriminate]].
  unfold now. simpl.
  destruct (clock w - timestamp c <? Timesheet.TIMER_CACHE_TTL);
    (split; [now split |]); intros a [= <-]; [| discriminate].
  intros s [= <-]. apply Hc. unfold cachedTimer. now rewrite El.
Qed.

Local Hint Resolve holds_clearTimerCache holds_getCachedTimerState : holdsdb.

Lemma holds_toISOString t : holds (J P) (Timesheet.toISOString t) (fun _ => True).
Proof.
  unfold Timesheet.toISOString. destruct (JsDate.toISOString t).
  - now apply holds_ret.
  - apply holds_throw.
Qed.

Local Hint Resolve holds_toISOString : holdsdb.

Local Ltac cache_and_return :=
  eapply holds_bind;
  [apply holds_cacheTimerState; unfold timerInv; simpl; congruence
  | intros; now apply holds_ret].

Lemma holds_startTimer : holds (J P) Timesheet.startTimer (fun _ => True).
Proof.
  unfold Timesheet.startTimer. hbind.
  apply holds_tryCatch; [| intros; apply holds_throw].
  hbind. hbind as result.
  destruct result as [ | | | n | id].
  1, 2: hbind; hbind as timerResult; destruct timerResult as [rt |]; [| apply holds_throw];
    destruct (Timesheet.numOrNull (Timesheet.RunningTimer.id rt));
    [| apply holds_throw]; hbind; hbind; cache_and_return.
  - apply holds_throw.
  - destruct n; [apply holds_throw | |]; hbind; hbind; cache_and_return.
  - hbind. hbind. cache_and_return.
Qed.

(** The end of [startTimerWithDetails], once the read has answered a
    row with the start time [start]. *)
Lemma holds_cacheStartedTimer (timerId' p t : Z) (d : option string) (start : string) :
  holds (J P)
    (let* projects := Timesheet.getProjects EmptyString in
     let* tasks := Timesheet.getTasks p EmptyString in
     Timesheet.cacheTimerState
       {| timerId := Some timerId'; projectId := Some p;
          projectName := Timesheet.nameOf projects p;
          taskId := Some t; taskName := Timesheet.nameOf tasks t;
          description := Timesheet.strOrNull d;
          startTime := Some start |} ;;
     let* startTime' := cast (Some start) in
     ret {| Timesheet.started_timerId := timerId';
            Timesheet.started_startTime := startTime' |})
    (fun _ => True).
Proof.
  hbind. hbind.
  eapply holds_bind;
    [apply holds_cacheTimerState; unfold timerInv; simpl; congruence |].
  intros _ _. hbind. now apply holds_ret.
Qed.

Lemma holds_updateTimer id p t d :
  holds (J P) (Timesheet.updateTimer id p t d) (fun _ => True).
Proof.
  unfold Timesheet.updateTimer. hbind. hbind.
  eapply holds_bind; [apply holds_getCachedTimerState | intros [s |] Hs];
    [| now apply holds_ret].
  specialize (Hs s eq_refl).
  destruct (Timesheet.optEq (timerId s) id); [| now apply holds_ret].
  eapply (holds_bind _ _ _ timerInv).
  { destruct p as [p |]; [| now apply holds_ret].
    hbind. apply holds_ret. exact Hs. }
  intros s1 Hs1.
  eapply (holds_bind _ _ _ timerInv).
  { destruct t as [t |]; [| now apply holds_ret]. cbn [Timesheet.setTaskId projectId].
    destruct (Timesheet.numOrNull (projectId s1)).
    - hbind. apply holds_ret. exact Hs1.
    - apply holds_ret. exact Hs1. }
  intros s2 Hs2.
  apply holds_cacheTimerState. destruct d; exact Hs2.
Qed.

Lemma holds_assignTimerDetails id p t d :
  holds (J P) (Timesheet.assignTimerDetails id p t d) (fun _ => True).
Proof.
  unfold Timesheet.assignTimerDetails. do 4 hbind.
  eapply holds_bind; [apply holds_getCachedTimerState | intros [s |] Hs];
    [| now apply holds_ret].
  specialize (Hs s eq_refl).
  destruct (Timesheet.optEq (timerId s) id); [| now apply holds_ret].
  hbind. hbind. apply holds_cacheTimerState. exact Hs.
Qed.

Lemma holds_stopTimer id : holds (J P) (Timesheet.stopTimer id) (fun _ => True).
Proof.
  unfold Timesheet.stopTimer. do 5 hbind. now apply holds_ret.
Qed.

Lemma holds_cancelTimer id : holds (J P) (Timesheet.cancelTimer id) (fun _ => True).
Proof. unfold Timesheet.cancelTimer. do 2 hbind. apply holds_clearTimerCache. Qed.

Lemma holds_clear_none :
  holds (J P) (Timesheet.clearTimerCache ;; ret None)
        (fun r : option TimerState => forall s, r = Some s -> timerInv s).
Proof. hbind. now apply holds_ret. Qed.

(** The end of [getRunningTimer], once the read has answered a row with
    the start time [start]. *)
Lemma holds_cacheRunningTimer (result : Timesheet.RunningTimer.t) (tid : Z)
    (start : string) :
  holds (J P)
    (let projectId' := Timesheet.numOrNull (Timesheet.RunningTimer.project_id result) in
     let taskId' := Timesheet.numOrNull (Timesheet.RunningTimer.task_id result) in
     let* projectName' :=
       match projectId' with
       | Some p =>
           let* projects := Timesheet.getProjects EmptyString in
           ret (Timesheet.nameOf projects p)
       | None => ret None
       end in
     let* taskName' :=
       match taskId', projectId' with
       | Some t, Some p =>
           let* tasks := Timesheet.getTasks p EmptyString in
           ret (Timesheet.nameOf tasks t)
       | _, _ => ret None
       end in
     let timerState :=
       {| timerId := Some tid; projectId := projectId';
          projectName := projectName';
          taskId := taskId'; taskName := taskName';
          description := Timesheet.strOrNull (Timesheet.RunningTimer.description result);
          startTime := Some start |} in
     Timesheet.cacheTimerState timerState ;;
     ret (Some timerState))
    (fun r => forall s, r = Some s -> timerInv s).
Proof.
  cbv zeta.
  eapply (holds_bind _ _ _ (fun _ => True)).
  { destruct (Timesheet.numOrNull (Timesheet.RunningTimer.project_id result));
      [hbind |]; now apply holds_ret. }
  intros pn _.
  eapply (holds_bind _ _ _ (fun _ => True)).
  { destruct (Timesheet.numOrNull (Timesheet.RunningTimer.task_id result));
      destruct (Timesheet.numOrNull (Timesheet.RunningTimer.project_id result));
      try hbind; now apply holds_ret. }
  intros tn _.
  eapply holds_bind;
    [apply holds_cacheTimerState; unfold timerInv; simpl; congruence |].
  intros _ _. apply holds_ret. intros s [= <-]. unfold timerInv. simpl. congruence.
Qed.

(** *** What the operations send

    The requests sent only grow, also where the cache is rewritten. *)

Lemma sent_stable : Stable (fun w => P (sent w)).
Proof. constructor. intros w w' _ Hpre HP. eauto. Qed.

Local Hint Resolve sent_stable : core.

Lemma holds_sent_cacheTimerState s :
  holds (fun w => P (sent w)) (Timesheet.cacheTimerState s) (fun _ => True).
Proof. intros w HP. split; [exact HP | auto]. Qed.

Lemma holds_sent_clearTimerCache :
  holds (fun w => P (sent w)) Timesheet.clearTimerCache (fun _ => True).
Proof. intros w HP. split; [exact HP | auto]. Qed.

Lemma holds_sent_readRunningTimer client r :
  holds (fun w => P (sent w)) (Timesheet.readRunningTimer client r) (fun _ => True).
Proof.
  unfold Timesheet.readRunningTimer. hbind as result.
  assert (holds (fun w => P (sent w)) (Timesheet.clearTimerCache ;; ret None)
            (fun _ : option TimerState => True)) as Hclear.
  { eapply holds_bind; [apply holds_sent_clearTimerCache | intros _ _].
    now apply holds_ret. }
  destruct result as [rt |]; cbn [mbind option_bind]; [| exact Hclear].
  destruct (Timesheet.numOrNull (Timesheet.RunningTimer.id rt)) as [tid |];
    [| exact Hclear].
  hbind. hbind as timerDetails.
  destruct timerDetails as [[| startTime' rows] |]; try exact Hclear.
  eapply (holds_bind _ _ _ (fun _ => True)).
  { destruct (Timesheet.numOrNull (Timesheet.RunningTimer.project_id rt));
      [hbind |]; now apply holds_ret. }
  intros pn _.
  eapply (holds_bind _ _ _ (fun _ => True)).
  { destruct (Timesheet.numOrNull (Timesheet.RunningTimer.task_id rt));
      destruct (Timesheet.numOrNull (Timesheet.RunningTimer.project_id rt));
      try hbind; now apply holds_ret. }
  intros tn _.
  eapply holds_bind; [apply holds_sent_cacheTimerState | intros _ _].
  now apply holds_ret.
Qed.

End TimerOperations.

(** ** One request *)

Lemma request_run this endpoint params w :
  (this < length (clients w))%nat ->
  exists r cs,
    Client.request this endpoint params w =
      (requestOutcome endpoint (answer (nextExchange w)), afterRequest w r cs) /\
    length cs = length (clients w) /\
    exists id, req_body r = Client.requestBody params id.
Proof.
  intros Hlt. destruct (lookup_lt_is_Some_2 _ _ Hlt) as [c Hc].
  unfold Client.request, bind at 1. unfold readRef at 1. rewrite Hc.
  unfold bind at 1. unfold writeRef at 1.
  unfold tryCatch, bind at 1. unfold fetch at 1. cbn [sent server clients clock storage].
  unfold requestOutcome, afterRequest, nextExchange.
  destruct (answer (server w (length (sent w)))) as [m | response].
  - eexists _, _. split; [reflexivity |]. split; [now rewrite length_insert | eauto].
  - unfold bind at 1. unfold readRef. cbn [clients].
    rewrite list_lookup_insert_eq by exact Hlt.
    unfold bind, writeRef, lift. cbn [sent server clients clock storage].
    destruct (Client.handleResponse endpoint response);
      (eexists _, _; split; [reflexivity |]; split;
       [now rewrite !length_insert | eauto]).
Qed.

Lemma callKw_run this model method args kwargs w :
  (this < length (clients w))%nat ->
  exists r cs,
    Client.callKw this model method args kwargs w =
      (requestOutcome "/web/dataset/call_kw" (answer (nextExchange w)),
       afterRequest w r cs) /\
    length cs = length (clients w) /\
    callsMethod method r.
Proof.
  intros Hlt. unfold Client.callKw.
  destruct (request_run this "/web/dataset/call_kw"
              (JObj [("model", JStr model); ("method", JStr method);
                     ("args", JArr args);
                     ("kwargs",
                      JObj (Json.setField "context"
                              match Json.assoc "context" kwargs with
                              | Some c => if Json.truthy c then c else JObj []
                              | None => JObj []
                              end kwargs))]) w Hlt)
    as (r & cs & Hrun & Hlen & id & Hbody).
  exists r, cs. repeat split; try assumption.
  unfold callsMethod. rewrite Hbody. reflexivity.
Qed.

(** A model call answered without error returns the answer's result. *)
Lemma requestOutcome_call_kw x res :
  rpcResult x = Some res ->
  requestOutcome "/web/dataset/call_kw" (answer x) = Returned res.
Proof.
  unfold rpcResult, requestOutcome, Client.handleResponse.
  destruct (answer x) as [m | r]; [discriminate |].
  destruct (ok r); [| discriminate]. cbn [negb].
  destruct (body r) as [m | jr]; [discriminate |].
  destruct (rpc_error jr); [discriminate |]. intros [= <-].
  destruct (rpc_result jr) as [[| [|] | | | |] |]; reflexivity.
Qed.

(** ** The session *)

Lemma getSession_world w : (Auth.getSession w).2 = w.
Proof.
  unfold Auth.getSession, bind, getItem.
  destruct (storedFalsy (storage w !! Auth.STORAGE_KEYS.SESSION)); [reflexivity |].
  destruct (storage w !! Auth.STORAGE_KEYS.SESSION) as [[raw | j] |]; try reflexivity.
  destruct j; try reflexivity; simpl.
  all: match goal with |- context [Auth.viewSessionInfo ?j] =>
         destruct (Auth.viewSessionInfo j) end; reflexivity.
Qed.

(** The outcome of [getSession] depends on the stored session alone. *)
Lemma getSession_storage w w' :
  storage w' !! Auth.STORAGE_KEYS.SESSION = storage w !! Auth.STORAGE_KEYS.SESSION ->
  (Auth.getSession w').1 = (Auth.getSession w).1.
Proof.
  intros H. unfold Auth.getSession, bind, getItem. rewrite H.
  destruct (storedFalsy (storage w !! Auth.STORAGE_KEYS.SESSION)); [reflexivity |].
  destruct (storage w !! Auth.STORAGE_KEYS.SESSION) as [[raw | j] |]; try reflexivity.
  destruct j; try reflexivity; simpl.
  all: match goal with |- context [Auth.viewSessionInfo ?j] =>
         destruct (Auth.viewSessionInfo j) end; reflexivity.
Qed.

Lemma getAuthenticatedClient_run w s :
  loggedInAs w s ->
  exists c,
    Auth.getAuthenticatedClient w =
      (Returned (length (clients w)), withClients w (clients w ++ [c])).
Proof.
  unfold loggedInAs. intros H. pose proof (getSession_world w) as Hw.
  unfold Auth.getAuthenticatedClient, bind.
  destruct (Auth.getSession w) as [o w']. simpl in H, Hw. subst o w'.
  eexists. reflexivity.
Qed.

(** Without a stored session no client is made and nothing is sent. *)
Lemma getAuthenticatedClient_inv w client w' :
  Auth.getAuthenticatedClient w = (Returned client, w') ->
  exists s, loggedInAs w s.
Proof.
  unfold loggedInAs, Auth.getAuthenticatedClient, bind.
  destruct (Auth.getSession w) as [[[s |] | e |] w1]; simpl; try discriminate.
  eauto.
Qed.

Lemma getCachedTimerState_world w : (Timesheet.getCachedTimerState w).2 = w.
Proof.
  unfold Timesheet.getCachedTimerState, bind, getItem.
  destruct (storedFalsy (storage w !! Timesheet.TIMER_CACHE_KEY)); [reflexivity |].
  destruct (storage w !! Timesheet.TIMER_CACHE_KEY) as [[raw | j] |]; try reflexivity.
  simpl. destruct (Timesheet.viewCached j); [| reflexivity]. simpl.
  now destruct (_ <? _).
Qed.


(** ** Classification of answers by [request] *)

Lemma request_outcome this endpoint params w :
  (this < length (clients w))%nat ->
  (Client.request this endpoint params w).1 =
  requestOutcome endpoint (answer (nextExchange w)).
Proof.
  intros Hlt. destruct (request_run this endpoint params w Hlt) as (r & cs & -> & _).
  reflexivity.
Qed.

(** [includes] is containment: the needle occurs somewhere in the string. *)
Lemma startsWithL_spec p s :
  JsString.startsWithL p s = true <-> exists rest, s = (p ++ rest)%list.
Proof.
  revert s. induction p as [| a p IH]; intros s; simpl.
  - split; eauto.
  - destruct s as [| b s]; [split; [discriminate | intros [rest [=]]] |].
    rewrite andb_true_iff, IH. split.
    + intros [Hab [rest ->]]. apply Ascii.eqb_eq in Hab as ->. eauto.
    + intros [rest [= -> ->]]. split; [apply Ascii.eqb_refl | eauto].
Qed.

Lemma includesL_spec p s :
  JsString.includesL p s = true <-> exists before rest, s = (before ++ p ++ rest)%list.
Proof.
  induction s as [| b s IH].
  - simpl. rewrite orb_false_r, startsWithL_spec. split.
    + intros [rest ->]. now exists [], rest.
    + intros (before & rest & H). destruct before; [eauto | discriminate].
  - cbn [JsString.includesL]. rewrite orb_true_iff, IH, startsWithL_spec. split.
    + intros [[rest ->] | (before & rest & ->)].
      * now exists [], rest.
      * now exists (b :: before), rest.
    + intros (before & rest & H). destruct before as [| c before].
      * left. eauto.
      * right. injection H as -> ->. eauto.
Qed.

(** C3. Whatever the endpoint, the parameters and the body of the
    response: an HTTP answer with status 401 or 403 makes [request] raise
    [SessionExpiredError], and any other status outside 200..299 makes it
    raise an [OdooApiError] that carries the status code. *)
Theorem request_http_failure
    (w : World) (this : nat) (endpoint : string) (params : JSON) (r : Response) :
  (this < length (clients w))%nat ->
  answer (nextExchange w) = Responded r ->
  (status r = 401 \/ status r = 403 ->
   (Client.request this endpoint params w).1 = Thrown defaultSessionExpired) /\
  (ok r = false -> status r <> 401 -> status r <> 403 ->
   (Client.request this endpoint params w).1 =
     Thrown (OdooApiError
               ("HTTP " +:+ Client.decimal (status r) +:+ ": " +:+ statusText r)
               (Some (status r)) None)).
Proof.
  intros Hlt Ha. rewrite (request_outcome _ _ _ _ Hlt), Ha.
  unfold requestOutcome, Client.handleResponse. split.
  - intros Hs. assert (ok r = false) as -> by (unfold ok; lia).
    assert ((status r =? 401) || (status r =? 403) = true) as -> by lia.
    reflexivity.
  - intros -> H1 H3.
    assert ((status r =? 401) || (status r =? 403) = false) as -> by lia.
    reflexivity.
Qed.

(** C4. When a successful HTTP answer carries a JSON body with an [error]
    field, [request] raises an [OdooApiError] with the numeric code of the
    error; its message is the nested [error.data.message] when that is
    present and not empty, and the top-level [error.message] otherwise. *)
Theorem request_rpc_error
    (w : World) (this : nat) (endpoint : string) (params : JSON)
    (r : Response) (jr : JsonRpcResponse) (e : RpcError) :
  (this < length (clients w))%nat ->
  answer (nextExchange w) = Responded r ->
  ok r = true ->
  body r = JsonBody jr ->
  rpc_error jr = Some e ->
  exists message,
    (Client.request this endpoint params w).1 =
      Thrown (OdooApiError message (Some (error_code e)) (data_debug <$> error_data e)) /\
    (forall d, error_data e = Some d -> data_message d <> EmptyString ->
               message = data_message d) /\
    (forall d, error_data e = Some d -> data_message d = EmptyString ->
               message = error_message e) /\
    (error_data e = None -> message = error_message e).
Proof.
  intros Hlt Ha Hok Hb He. rewrite (request_outcome _ _ _ _ Hlt), Ha.
  unfold requestOutcome, Client.handleResponse. rewrite Hok, Hb, He. cbn [negb].
  eexists. split; [reflexivity |].
  destruct (error_data e) as [d |]; repeat split; try discriminate; try reflexivity.
  - intros d' [= <-] Hne. destruct (data_message d); [contradiction | reflexivity].
  - intros d' [= <-] ->. reflexivity.
Qed.

(** C5. When a successful answer without [error] has the result [false],
    [request] raises [SessionExpiredError] exactly when the endpoint path
    contains ["/web/session"]; on any other endpoint the [false] is
    returned as the result. *)
Theorem request_false_result
    (w : World) (this : nat) (endpoint : string) (params : JSON) :
  (this < length (clients w))%nat ->
  rpcResult (nextExchange w) = Some (Some (JBool false)) ->
  ((Client.request this endpoint params w).1 = Thrown defaultSessionExpired <->
   JsString.includes endpoint "/web/session" = true) /\
  (JsString.includes endpoint "/web/session" = false ->
   (Client.request this endpoint params w).1 = Returned (Some (JBool false))).
Proof.
  intros Hlt Hr. rewrite (request_outcome _ _ _ _ Hlt).
  unfold rpcResult in Hr. unfold requestOutcome, Client.handleResponse.
  destruct (answer (nextExchange w)) as [m | r]; [discriminate |].
  destruct (ok r); [| discriminate]. cbn [negb].
  destruct (body r) as [m | jr]; [discriminate |].
  destruct (rpc_error jr); [discriminate |]. injection Hr as ->.
  destruct (JsString.includes endpoint "/web/session"); split; try split;
    try reflexivity; try discriminate.
Qed.

(** ** Runs of the timer operations *)

Lemma exchange_afterRequest w r cs k :
  exchange (afterRequest w r cs) k = exchange w (S k).
Proof.
  unfold exchange, afterRequest. cbn [server sent]. rewrite length_app.
  f_equal. simpl. lia.
Qed.

Lemma nextExchange_afterRequest w r cs :
  nextExchange (afterRequest w r cs) = exchange w 1.
Proof.
  unfold nextExchange, exchange, afterRequest. cbn [server sent].
  rewrite length_app. f_equal. simpl. lia.
Qed.

(** A model call on a live client, answered without error. *)
Lemma callKw_answered this model method args kwargs w res :
  (this < length (clients w))%nat ->
  rpcResult (nextExchange w) = Some res ->
  exists r cs,
    Client.callKw this model method args kwargs w = (Returned res, afterRequest w r cs) /\
    length cs = length (clients w) /\
    callsMethod method r.
Proof.
  intros Hlt Hres.
  destruct (callKw_run this model method args kwargs w Hlt) as (r & cs & Hrun & Hlen & Hm).
  rewrite (requestOutcome_call_kw _ _ Hres) in Hrun. eauto.
Qed.

(** The lookup branch of [startTimer]: the start action returns [false] or
    [null], and the running timer found has the id [id] and has run for
    [minutes] minutes. *)
Lemma startTimer_lookup w s r0 id minutes iso :
  loggedInAs w s ->
  rpcResult (exchange w 0) = Some (Some r0) ->
  r0 = JBool false \/ r0 = JNull ->
  rpcResult (exchange w 1) =
    Some (Some (JObj [("id", JNum id); ("start", JNum minutes)])) ->
  id <> 0 ->
  JsDate.toISOString
    (clock w + Z.of_N (latency (exchange w 0)) + Z.of_N (latency (exchange w 1))
     - minutes * 60000) = Some iso ->
  (Timesheet.startTimer w).1 =
    Returned {| Timesheet.started_timerId := id; Timesheet.started_startTime := iso |} /\
  cachedTimer (Timesheet.startTimer w).2 =
    Some {| data := {| timerId := Some id; projectId := None; projectName := None;
                       taskId := None; taskName := None; description := None;
                       startTime := Some iso |};
            timestamp := clock w + Z.of_N (latency (exchange w 0))
                         + Z.of_N (latency (exchange w 1)) |}.
Proof.
  intros Hs H0 Hr0 H1 Hid Hiso.
  destruct (getAuthenticatedClient_run w s Hs) as [c Hc].
  set (w1 := withClients w (clients w ++ [c])) in Hc.
  assert (length (clients w) < length (clients w1))%nat as Hlt1
    by (unfold w1; simpl; rewrite length_app; simpl; lia).
  destruct (callKw_answered (length (clients w)) "account.analytic.line"
              "action_start_new_timesheet_timer" [JObj []] [] w1 (Some r0) Hlt1 H0)
    as (q1 & cs1 & Hrun1 & Hlen1 & _).
  set (w2 := afterRequest w1 q1 cs1) in Hrun1.
  assert (length (clients w) < length (clients w2))%nat as Hlt2
    by (unfold w2; simpl; lia).
  assert (rpcResult (nextExchange w2) =
          Some (Some (JObj [("id", JNum id); ("start", JNum minutes)]))) as H1'
    by (unfold w2; rewrite nextExchange_afterRequest; exact H1).
  destruct (callKw_answered (length (clients w)) "account.analytic.line"
              "get_running_timer" [] [] w2 _ Hlt2 H1')
    as (q2 & cs2 & Hrun2 & Hlen2 & _).
  set (w3 := afterRequest w2 q2 cs2) in Hrun2.
  assert (clock w3 = clock w + Z.of_N (latency (exchange w 0))
                     + Z.of_N (latency (exchange w 1))) as Hclock.
  { unfold w3. cbn [afterRequest clock]. unfold w2 at 2.
    rewrite nextExchange_afterRequest. reflexivity. }
  assert (Timesheet.numOrNull (Some id) = Some id) as Hnz
    by (unfold Timesheet.numOrNull; destruct (Z.eqb_spec id 0); congruence).
  assert (Timesheet.viewRunningTimer
            (Some (JObj [("id", JNum id); ("start", JNum minutes)])) =
          Some (Some {| Timesheet.RunningTimer.id := Some id;
                        Timesheet.RunningTimer.start := Some minutes;
                        Timesheet.RunningTimer.project_id := None;
                        Timesheet.RunningTimer.task_id := None;
                        Timesheet.RunningTimer.description := None |})) as Hview
    by reflexivity.
  destruct (Timesheet.startTimer w) as [o wf] eqn:E. cbn [fst snd].
  unfold Timesheet.startTimer in E. unfold bind at 1 in E. rewrite Hc in E.
  unfold tryCatch in E. unfold bind at 1 in E. rewrite Hrun1 in E.
  assert (Timesheet.viewStartResult (Some r0) = Some Timesheet.StartFalse \/
          Timesheet.viewStartResult (Some r0) = Some Timesheet.StartNull) as Hv
    by (destruct Hr0 as [-> | ->]; auto).
  destruct Hv as [Hv | Hv]; unfold bind at 1 in E; rewrite Hv in E; cbn [cast ret] in E;
    unfold bind at 1 in E; rewrite Hrun2 in E;
    unfold bind at 1 in E; rewrite Hview in E; cbn [cast ret] in E;
    cbn [Timesheet.RunningTimer.id Timesheet.RunningTimer.start
         Timesheet.RunningTimer.project_id Timesheet.RunningTimer.task_id
         Timesheet.RunningTimer.description] in E;
    rewrite Hnz in E; unfold bind at 1 in E; unfold now at 1 in E;
    unfold bind at 1 in E; unfold Timesheet.toISOString in E;
    change (default 0 (Some minutes)) with minutes in E;
    rewrite Hclock, Hiso in E; cbn [ret] in E; unfold bind in E;
    destruct (Timesheet.cacheTimerState
                {| timerId := Some id; projectId := Timesheet.numOrNull None;
                   projectName := None; taskId := Timesheet.numOrNull None;
                   taskName := None; description := Timesheet.strOrNull None;
                   startTime := Some iso |} w3) as [o4 w4] eqn:E4;
    pose proof (cachedTimer_cacheTimerState w3
                {| timerId := Some id; projectId := None; projectName := None;
                   taskId := None; taskName := None; description := None;
                   startTime := Some iso |}) as Hcached;
    change (Timesheet.numOrNull None) with (@None Z) in E4;
    change (Timesheet.strOrNull None) with (@None string) in E4;
    rewrite E4 in Hcached; cbn [snd] in Hcached;
    assert (o4 = Returned tt) as -> by (injection E4 as <- _; reflexivity);
    injection E as <- <-; rewrite Hcached, Hclock; split; reflexivity.
Qed.

(** C2, as amended.  When the start action answers [false] or [null] and
    the lookup [get_running_timer] then answers [{id: 42, start: 5}],
    [startTimer] called at the time [T] returns timer 42 with a start time
    that denotes the instant [T + d - 5 minutes], to the millisecond, where
    [d] is the time the two exchanges take: the start time is computed from
    what [Date.now()] reads once the lookup has answered.  When the two
    exchanges take less than a second together, the start time is within a
    second of [T - 5 minutes].  The operation caches a [TimerState] with
    that id and start time and with no project, task or description, at
    the time [T + d]. *)
Theorem startTimer_false_then_lookup
    (w : World) (s : SessionInfo) (r0 : JSON) (T d : Z) :
  loggedInAs w s ->
  rpcResult (exchange w 0) = Some (Some r0) ->
  r0 = JBool false \/ r0 = JNull ->
  rpcResult (exchange w 1) = Some (Some (JObj [("id", JNum 42); ("start", JNum 5)])) ->
  T = clock w ->
  d = Z.of_N (latency (exchange w 0)) + Z.of_N (latency (exchange w 1)) ->
  0 <= T ->
  T + d <= 253402300799999 ->
  exists iso start,
    JsDate.toISOString start = Some iso /\
    (forall LocalTZA, JsDate.parse LocalTZA iso = Some start) /\
    start = T + d - 5 * 60000 /\
    (d < 1000 -> T - 5 * 60000 <= start < T - 5 * 60000 + 1000) /\
    (Timesheet.startTimer w).1 =
      Returned {| Timesheet.started_timerId := 42; Timesheet.started_startTime := iso |} /\
    cachedTimer (Timesheet.startTimer w).2 =
      Some {| data := {| timerId := Some 42; projectId := None; projectName := None;
                         taskId := None; taskName := None; description := None;
                         startTime := Some iso |};
              timestamp := T + d |}.
Proof.
  intros Hs H0 Hr0 H1 -> -> HT Hd.
  set (d := Z.of_N (latency (exchange w 0)) + Z.of_N (latency (exchange w 1))) in *.
  assert (0 <= d) as Hd0 by (unfold d; lia).
  destruct (toISOString_parse (fun _ => 0) (clock w + d - 5 * 60000) ltac:(lia))
    as (iso & Hiso & _).
  exists iso, (clock w + d - 5 * 60000). split; [exact Hiso |]. split.
  { intros LocalTZA.
    destruct (toISOString_parse LocalTZA (clock w + d - 5 * 60000) ltac:(lia))
      as (iso' & Hiso' & Hparse).
    congruence. }
  split; [reflexivity |]. split; [lia |].
  destruct (startTimer_lookup w s r0 42 5 iso Hs H0 Hr0 H1 ltac:(lia)) as [Hr Hc].
  { rewrite <- Hiso. f_equal. unfold d. lia. }
  split; [exact Hr |]. rewrite Hc. do 2 f_equal. unfold d. lia.
Qed.

(** ** The invariant of the cached timer *)

Lemma cacheInv_storage w w' : storage w' = storage w -> cacheInv w -> cacheInv w'.
Proof. intros Hst Hw c Hc. apply Hw. unfold cachedTimer in *. now rewrite <- Hst. Qed.

(** What the invariant logic says of one run. *)
Lemma holds_at {A : Type} (m : M A) (Q : A -> Prop) w :
  holds (J (fun _ => True)) m Q ->
  cacheInv w ->
  cacheInv (m w).2 /\ forall a, (m w).1 = Returned a -> Q a.
Proof.
  intros Hm Hw. destruct (Hm w (conj I Hw)) as [[_ Hc] HQ]. split; assumption.
Qed.

Lemma requestOutcome_rpcResult x r :
  requestOutcome "/web/dataset/call_kw" (answer x) = Returned r -> rpcResult x = Some r.
Proof.
  unfold rpcResult, requestOutcome, Client.handleResponse.
  destruct (answer x) as [m | resp]; [discriminate |].
  destruct (ok resp); cbn [negb];
    [| destruct ((status resp =? 401) || (status resp =? 403)); discriminate].
  destruct (body resp) as [m | jr]; [discriminate |].
  destruct (rpc_error jr); [discriminate |].
  destruct (rpc_result jr) as [[| [|] | | | |] |]; cbn; congruence.
Qed.

(** [getAuthenticatedClient] makes a client, or leaves the world as it
    is. *)
Lemma getAuthenticatedClient_cases w :
  (exists c, Auth.getAuthenticatedClient w =
             (Returned (length (clients w)), withClients w (clients w ++ [c]))) \/
  ((Auth.getAuthenticatedClient w).2 = w /\
   forall a, (Auth.getAuthenticatedClient w).1 <> Returned a).
Proof.
  pose proof (getSession_world w) as Hw.
  unfold Auth.getAuthenticatedClient, bind.
  destruct (Auth.getSession w) as [[[s |] | e |] w']; cbn [snd] in Hw; subst w'.
  - left. eexists. reflexivity.
  - right. split; [reflexivity | discriminate].
  - right. split; [reflexivity | discriminate].
  - right. split; [reflexivity | discriminate].
Qed.

(** The [try] block of [getRunningTimer] after the lookup keeps the
    invariant when the read that follows answers at its declared type. *)
Lemma readRunningTimer_keeps_invariant client r w :
  (client < length (clients w))%nat ->
  cacheInv w ->
  carriesStart (nextExchange w) ->
  cacheInv (Timesheet.readRunningTimer client r w).2 /\
  forall a, (Timesheet.readRunningTimer client r w).1 = Returned a ->
            forall s, a = Some s -> timerInv s.
Proof.
  intros Hlt Hw Hrow.
  assert (forall l l' : list Request, l `prefix_of` l' -> True -> True) as Hm by auto.
  set (Good := fun x : Outcome (option TimerState) * World =>
                 cacheInv x.2 /\
                 forall a, x.1 = Returned a -> forall s, a = Some s -> timerInv s).
  change (Good (Timesheet.readRunningTimer client r w)).
  assert (forall w0, cacheInv w0 -> Good ((Timesheet.clearTimerCache ;; ret None) w0))
    as Hclear by (intros w0 Hw0; apply (holds_at _ _ w0 (holds_clear_none (fun _ => True)) Hw0)).
  assert (forall w0 e, cacheInv w0 -> Good (Thrown e, w0)) as Hthrown
    by (intros w0 e Hw0; split; [exact Hw0 | discriminate]).
  assert (forall w0, cacheInv w0 -> Good (Stuck, w0)) as Hstuck
    by (intros w0 Hw0; split; [exact Hw0 | discriminate]).
  unfold Timesheet.readRunningTimer. unfold bind at 1.
  destruct (Timesheet.viewRunningTimer r) as [result |]; cbn [cast ret]; [| now apply Hstuck].
  destruct result as [rt |]; cbn [mbind option_bind]; [| now apply Hclear].
  destruct (Timesheet.numOrNull (Timesheet.RunningTimer.id rt)) as [tid |];
    [| now apply Hclear].
  destruct (callKw_run client "account.analytic.line" "read"
              [JArr [JNum tid]; JArr [JStr "timer_start"]] [] w Hlt)
    as (q & cs & Hrun & _ & _).
  unfold bind at 1. rewrite Hrun.
  assert (cacheInv (afterRequest w q cs)) as Hw'
    by (apply (cacheInv_storage w); [reflexivity | exact Hw]).
  destruct (requestOutcome "/web/dataset/call_kw" (answer (nextExchange w)))
    as [rows | e |] eqn:Eo; [| now apply Hthrown | now apply Hstuck].
  apply requestOutcome_rpcResult in Eo.
  unfold bind at 1.
  destruct (Timesheet.viewTimerDetails rows) as [timerDetails |] eqn:Ev; cbn [cast ret];
    [| now apply Hstuck].
  destruct timerDetails as [[| row rest] |]; try now apply Hclear.
  pose proof (Hrow rows row rest Eo Ev) as Hstart.
  destruct row as [start |]; [| contradiction].
  apply (holds_at _ _ _ (holds_cacheRunningTimer _ Hm rt tid start) Hw').
Qed.

Lemma getRunningTimer_keeps_invariant useCache w :
  cacheInv w ->
  carriesStart (exchange w 1) ->
  cacheInv (Timesheet.getRunningTimer useCache w).2 /\
  forall a, (Timesheet.getRunningTimer useCache w).1 = Returned a ->
            forall s, a = Some s -> timerInv s.
Proof.
  intros Hw Hrow.
  assert (forall l l' : list Request, l `prefix_of` l' -> True -> True) as Hm by auto.
  assert (holds (J (fun _ => True))
            (if useCache then Timesheet.getCachedTimerState else ret None)
            (fun r => forall s, r = Some s -> timerInv s)) as Hcache.
  { destruct useCache; [now apply holds_getCachedTimerState | now apply holds_ret]. }
  destruct (holds_at _ _ w Hcache Hw) as [_ Hhit].
  assert (((if useCache then Timesheet.getCachedTimerState else ret None) w).2 = w) as Hw0
    by (destruct useCache; [apply getCachedTimerState_world | reflexivity]).
  set (Good := fun x : Outcome (option TimerState) * World =>
                 cacheInv x.2 /\
                 forall a, x.1 = Returned a -> forall s, a = Some s -> timerInv s).
  change (Good (Timesheet.getRunningTimer useCache w)).
  assert (forall w0 e, cacheInv w0 -> Good (Thrown e, w0)) as Hthrown
    by (intros w' e Hw'; split; [exact Hw' | discriminate]).
  assert (forall w0, cacheInv w0 -> Good (Stuck, w0)) as Hstuck
    by (intros w' Hw'; split; [exact Hw' | discriminate]).
  assert (forall w0, cacheInv w0 -> Good (Returned None, w0)) as Hnone
    by (intros w' Hw'; split; [exact Hw' | intros a [= <-]; discriminate]).
  unfold Timesheet.getRunningTimer. unfold bind at 1.
  destruct ((if useCache then Timesheet.getCachedTimerState else ret None) w)
    as [[[cached |] | e |] w0]; cbn [fst snd] in Hw0, Hhit; subst w0;
    [| | now apply Hthrown | now apply Hstuck].
  { split; [exact Hw |]. intros a [= <-]. now apply Hhit. }
  unfold bind at 1.
  destruct (getAuthenticatedClient_cases w) as [[c Hc] | [Hsame Hnr]].
  2:{ destruct (Auth.getAuthenticatedClient w) as [[a | e |] w1];
        cbn [fst snd] in Hsame, Hnr; subst w1;
        [now exfalso; apply (Hnr a) | now apply Hthrown | now apply Hstuck]. }
  rewrite Hc.
  set (w1 := withClients w (clients w ++ [c])).
  assert (length (clients w) < length (clients w1))%nat as Hlt1
    by (unfold w1; simpl; rewrite length_app; simpl; lia).
  destruct (callKw_run (length (clients w)) "account.analytic.line"
              "get_running_timer" [] [] w1 Hlt1) as (q & cs & Hrun & Hlen & _).
  unfold tryCatch. unfold bind at 1. rewrite Hrun.
  set (w2 := afterRequest w1 q cs).
  assert (cacheInv w2) as Hw2 by (apply (cacheInv_storage w); [reflexivity | exact Hw]).
  destruct (requestOutcome "/web/dataset/call_kw" (answer (nextExchange w1)))
    as [r | e |]; [| now apply Hnone | now apply Hstuck].
  destruct (readRunningTimer_keeps_invariant (length (clients w)) r w2) as [Hc3 Hq3].
  - unfold w2. simpl. lia.
  - exact Hw2.
  - unfold w2. rewrite nextExchange_afterRequest. exact Hrow.
  - destruct (Timesheet.readRunningTimer (length (clients w)) r w2) as [[a | e |] w3];
      cbn [fst snd] in *.
    + split; [exact Hc3 | exact Hq3].
    + now apply Hnone.
    + now apply Hstuck.
Qed.

Lemma startTimerWithDetails_keeps_invariant p t d w :
  cacheInv w ->
  carriesStart (exchange w 2) ->
  cacheInv (Timesheet.startTimerWithDetails p t d w).2.
Proof.
  intros Hw Hrow.
  assert (forall l l' : list Request, l `prefix_of` l' -> True -> True) as Hm by auto.
  unfold Timesheet.startTimerWithDetails. unfold bind at 1.
  destruct (getAuthenticatedClient_cases w) as [[c Hc] | [Hsame Hnr]].
  2:{ destruct (Auth.getAuthenticatedClient w) as [[a | e |] w1];
        cbn [fst snd] in Hsame, Hnr; subst w1;
        [now exfalso; apply (Hnr a) | exact Hw ..]. }
  rewrite Hc.
  set (w1 := withClients w (clients w ++ [c])).
  assert (length (clients w) < length (clients w1))%nat as Hlt1
    by (unfold w1; simpl; rewrite length_app; simpl; lia).
  match goal with |- context [Client.callKw _ ?mo ?me ?ar ?kw] =>
    destruct (callKw_run (length (clients w)) mo me ar kw w1 Hlt1)
      as (q1 & cs1 & Hrun1 & Hlen1 & _) end.
  unfold bind at 1. rewrite Hrun1.
  set (w2 := afterRequest w1 q1 cs1).
  assert (cacheInv w2) as Hw2 by (apply (cacheInv_storage w); [reflexivity | exact Hw]).
  destruct (requestOutcome "/web/dataset/call_kw" (answer (nextExchange w1)))
    as [r1 | e |]; try exact Hw2.
  unfold bind at 1.
  destruct (r1 ≫= Json.asNum) as [tid |]; cbn [cast ret]; [| exact Hw2].
  assert (length (clients w) < length (clients w2))%nat as Hlt2
    by (unfold w2; simpl; lia).
  destruct (callKw_run (length (clients w)) "account.analytic.line" "action_timer_start"
              [JArr [JNum tid]] [] w2 Hlt2) as (q2 & cs2 & Hrun2 & Hlen2 & _).
  unfold bind at 1. rewrite Hrun2.
  set (w3 := afterRequest w2 q2 cs2).
  assert (cacheInv w3) as Hw3 by (apply (cacheInv_storage w); [reflexivity | exact Hw]).
  destruct (requestOutcome "/web/dataset/call_kw" (answer (nextExchange w2)))
    as [r2 | e |]; try exact Hw3.
  assert (length (clients w) < length (clients w3))%nat as Hlt3
    by (unfold w3; simpl; lia).
  destruct (callKw_run (length (clients w)) "account.analytic.line" "read"
              [JArr [JNum tid]; JArr [JStr "timer_start"]] [] w3 Hlt3)
    as (q3 & cs3 & Hrun3 & Hlen3 & _).
  unfold bind at 1. rewrite Hrun3.
  set (w4 := afterRequest w3 q3 cs3).
  assert (cacheInv w4) as Hw4 by (apply (cacheInv_storage w); [reflexivity | exact Hw]).
  assert (nextExchange w3 = exchange w 2) as Hnext.
  { unfold w3, w2, w1, nextExchange, exchange. cbn. rewrite !length_app. cbn.
    f_equal. lia. }
  rewrite Hnext.
  destruct (requestOutcome "/web/dataset/call_kw" (answer (exchange w 2)))
    as [rows | e |] eqn:Eo; try exact Hw4.
  apply requestOutcome_rpcResult in Eo.
  unfold bind at 1.
  destruct (Timesheet.viewTimerDetails rows) as [timerDetails |] eqn:Ev; cbn [cast ret];
    [| exact Hw4].
  destruct timerDetails as [[| row rest] |]; try exact Hw4.
  pose proof (Hrow rows row rest Eo Ev) as Hstart.
  destruct row as [start |]; [| contradiction].
  apply (holds_at _ _ _ (holds_cacheStartedTimer _ Hm tid p t d start) Hw4).
Qed.

(** C7, as amended.  The timer operations keep the invariant of the
    cached [TimerState]: in a world whose cached state, if any, has a
    start time whenever it has a timer id, after [startTimer],
    [updateTimer] or [assignTimerDetails] the cached state still does,
    however the operation ends, and [stopTimer] and [cancelTimer] keep the
    invariant as well.  So do [startTimerWithDetails] and
    [getRunningTimer], and the state that [getRunningTimer] returns has a
    start time with its timer id, when the server answers their read of
    [timer_start] (the third exchange of the one, the second of the other)
    at its declared type, with a start time in the first row: they copy
    that field into the state as it comes.  Project, task and description
    may be unset while the timer id is set: [startTimer] produces such a
    state. *)
Theorem timer_state_invariant (w : World) :
  cacheInv w ->
  cacheInv (Timesheet.startTimer w).2 /\
  (forall p t d,
     carriesStart (exchange w 2) ->
     cacheInv (Timesheet.startTimerWithDetails p t d w).2) /\
  (forall id p t d, cacheInv (Timesheet.updateTimer id p t d w).2) /\
  (forall id p t d, cacheInv (Timesheet.assignTimerDetails id p t d w).2) /\
  (forall useCache,
     carriesStart (exchange w 1) ->
     cacheInv (Timesheet.getRunningTimer useCache w).2 /\
     forall s, (Timesheet.getRunningTimer useCache w).1 = Returned (Some s) ->
               timerInv s) /\
  (forall id, cacheInv (Timesheet.stopTimer id w).2) /\
  (forall id, cacheInv (Timesheet.cancelTimer id w).2) /\
  (exists w0 s,
     (Timesheet.getRunningTimer true (Timesheet.startTimer w0).2).1 = Returned (Some s) /\
     timerId s <> None /\ projectId s = None /\ taskId s = None /\
     description s = None).
Proof.
  intros Hw.
  assert (J (fun _ => True) w) as HJ by (split; [exact I | exact Hw]).
  assert (forall l l' : list Request, l `prefix_of` l' -> True -> True) as Hm by auto.
  split; [apply (holds_startTimer _ Hm w HJ) |].
  split; [intros p t d Hrow; now apply startTimerWithDetails_keeps_invariant |].
  split; [intros id p t d; apply (holds_updateTimer _ Hm id p t d w HJ) |].
  split; [intros id p t d; apply (holds_assignTimerDetails _ Hm id p t d w HJ) |].
  split.
  { intros useCache Hrow.
    destruct (getRunningTimer_keeps_invariant useCache w Hw Hrow) as [Hc Hq].
    split; [exact Hc |]. intros s Hs. exact (Hq _ Hs s eq_refl). }
  split; [intros id; apply (holds_stopTimer _ Hm id w HJ) |].
  split; [intros id; apply (holds_cancelTimer _ Hm id w HJ) |].
  exists (loggedIn 1700000000000 [okJson 120 (JNum 42)]).
  eexists. split; [vm_compute; reflexivity |]. repeat split; discriminate.
Qed.

(** ** Cache invalidation *)

(** Operations built from requests and client objects leave the store
    alone. *)
Lemma storage_frame {A : Type} (m : M A) :
  (forall I, Stable I -> holds I m (fun _ => True)) ->
  forall w, storage (m w).2 = storage w.
Proof.
  intros Hm w. apply (Hm (fun w' => storage w' = storage w)); [| reflexivity].
  constructor. intros w1 w2 Hst _ H. congruence.
Qed.

Lemma callKw_storage this model method args kwargs w :
  storage (Client.callKw this model method args kwargs w).2 = storage w.
Proof. apply storage_frame. intros I HI. now apply holds_callKw. Qed.

Lemma getAuthenticatedClient_storage w :
  storage (Auth.getAuthenticatedClient w).2 = storage w.
Proof. apply storage_frame. intros I HI. now apply holds_getAuthenticatedClient. Qed.

Lemma loggedInAs_storage w w' s :
  storage w' !! Auth.STORAGE_KEYS.SESSION = storage w !! Auth.STORAGE_KEYS.SESSION ->
  loggedInAs w s -> loggedInAs w' s.
Proof. unfold loggedInAs. intros H <-. now apply getSession_storage. Qed.

Lemma stopTimer_returned id w d :
  (Timesheet.stopTimer id w).1 = Returned d ->
  (exists s, loggedInAs w s) /\
  storage (Timesheet.stopTimer id w).2 = delete Timesheet.TIMER_CACHE_KEY (storage w).
Proof.
  destruct (Timesheet.stopTimer id w) as [o wf] eqn:E. cbn [fst snd]. intros ->.
  unfold Timesheet.stopTimer in E. unfold bind at 1 in E.
  pose proof (getAuthenticatedClient_storage w) as Ha.
  destruct (Auth.getAuthenticatedClient w) as [[client | e |] wa] eqn:Ea;
    try discriminate. cbn [snd] in Ha.
  split; [exact (getAuthenticatedClient_inv _ _ _ Ea) |].
  unfold bind at 1 in E.
  pose proof (callKw_storage client "account.analytic.line" "action_timer_stop"
                [JNum id; JBool true] [] wa) as Hb.
  destruct (Client.callKw client "account.analytic.line" "action_timer_stop"
              [JNum id; JBool true] [] wa) as [[x | e |] wb]; try discriminate.
  cbn [snd] in Hb. unfold bind at 1 in E.
  unfold Timesheet.clearTimerCache, removeItem in E. unfold bind at 1 in E.
  match type of E with context [Client.callKw ?c ?m ?f ?a ?k ?w0] =>
    pose proof (callKw_storage c m f a k w0) as Hc;
    destruct (Client.callKw c m f a k w0) as [[y | e |] wc] end; try discriminate.
  cbn [snd storage] in Hc. unfold bind, cast in E.
  destruct (Timesheet.viewLines y); try discriminate.
  injection E as _ <-. congruence.
Qed.

Lemma cancelTimer_returned id w u :
  (Timesheet.cancelTimer id w).1 = Returned u ->
  (exists s, loggedInAs w s) /\
  storage (Timesheet.cancelTimer id w).2 = delete Timesheet.TIMER_CACHE_KEY (storage w).
Proof.
  destruct (Timesheet.cancelTimer id w) as [o wf] eqn:E. cbn [fst snd]. intros ->.
  unfold Timesheet.cancelTimer in E. unfold bind at 1 in E.
  pose proof (getAuthenticatedClient_storage w) as Ha.
  destruct (Auth.getAuthenticatedClient w) as [[client | e |] wa] eqn:Ea;
    try discriminate. cbn [snd] in Ha.
  split; [exact (getAuthenticatedClient_inv _ _ _ Ea) |].
  unfold bind in E.
  pose proof (callKw_storage client "account.analytic.line" "action_timer_unlink"
                [JNum id] [] wa) as Hb.
  destruct (Client.callKw client "account.analytic.line" "action_timer_unlink"
              [JNum id] [] wa) as [[x | e |] wb]; try discriminate.
  cbn [snd] in Hb. unfold Timesheet.clearTimerCache, removeItem in E.
  injection E as _ <-. cbn [storage]. congruence.
Qed.

Lemma getCachedTimerState_miss w :
  storage w !! Timesheet.TIMER_CACHE_KEY = None ->
  Timesheet.getCachedTimerState w = (Returned None, w).
Proof.
  intros H. unfold Timesheet.getCachedTimerState, bind, getItem. now rewrite H.
Qed.

(** With a session and no cache entry, [getRunningTimer(true)] asks the
    server. *)
Lemma getRunningTimer_fresh_lookup w s :
  loggedInAs w s ->
  storage w !! Timesheet.TIMER_CACHE_KEY = None ->
  exists r rest,
    sent (Timesheet.getRunningTimer true w).2 = (sent w ++ r :: rest)%list /\
    callsMethod "get_running_timer" r.
Proof.
  intros Hs Hnone. unfold Timesheet.getRunningTimer. unfold bind at 1.
  rewrite (getCachedTimerState_miss w Hnone).
  destruct (getAuthenticatedClient_run w s Hs) as [c Hc].
  unfold bind at 1. rewrite Hc.
  set (w1 := withClients w (clients w ++ [c])).
  assert (length (clients w) < length (clients w1))%nat as Hlt
    by (unfold w1; simpl; rewrite length_app; simpl; lia).
  destruct (callKw_run (length (clients w)) "account.analytic.line"
              "get_running_timer" [] [] w1 Hlt) as (r & cs & Hrun & _ & Hcall).
  exists r. unfold tryCatch at 1. unfold bind at 1. rewrite Hrun.
  set (w2 := afterRequest w1 r cs).
  destruct (requestOutcome "/web/dataset/call_kw" (answer (nextExchange w1)))
    as [res | e |]; [| exists []; split; [reflexivity | exact Hcall] ..].
  set (P := fun l : list Request => (sent w ++ [r])%list `prefix_of` l).
  assert (P (sent w2)) as HP by (unfold P, w2; reflexivity).
  assert (forall l l' : list Request, l `prefix_of` l' -> P l -> P l') as Hmono
    by (unfold P; intros l l' Hl HP'; now transitivity l).
  assert (forall e : Exn,
            holds (fun w0 => P (sent w0)) (@ret (option TimerState) None) (fun _ => True))
    as Hh by (intros _; now apply holds_ret).
  pose proof (holds_tryCatch (fun w0 => P (sent w0)) _ (fun _ => ret None) _
                (holds_sent_readRunningTimer P Hmono (length (clients w)) res) Hh w2 HP)
    as [[rest Hrest] _].
  exists rest. split; [| exact Hcall].
  unfold tryCatch in Hrest.
  destruct (Timesheet.readRunningTimer (length (clients w)) res w2) as [[a | e |] w3];
    cbn [snd] in *; rewrite Hrest, <- app_assoc; reflexivity.
Qed.

Lemma invalidated_intro w s :
  loggedInAs w s ->
  storage w !! Timesheet.TIMER_CACHE_KEY = None ->
  invalidated w.
Proof.
  intros Hs Hnone. split; [exact Hnone |]. intros dt w'.
  assert (storage w' = storage w) as Hst by reflexivity.
  split.
  - rewrite getCachedTimerState_miss; [reflexivity | now rewrite Hst].
  - apply (getRunningTimer_fresh_lookup w' s).
    + apply (loggedInAs_storage w); [now rewrite Hst | exact Hs].
    + now rewrite Hst.
Qed.


(** C10. When [getRunningTimer] goes to the server (no cache hit), the
    lookup answers a record with an id, and the read of [timer_start] then
    answers [null] or an empty list, [getRunningTimer] removes the timer
    cache entry and returns [null]: it raises nothing and caches nothing. *)
Theorem getRunningTimer_no_start_row
    (w : World) (s : SessionInfo) (useCache : bool)
    (lookup rows : option JSON) (found : Timesheet.RunningTimer.t) (timerId' : Z) :
  loggedInAs w s ->
  (useCache = true -> (Timesheet.getCachedTimerState w).1 = Returned None) ->
  rpcResult (exchange w 0) = Some lookup ->
  Timesheet.viewRunningTimer lookup = Some (Some found) ->
  Timesheet.numOrNull (Timesheet.RunningTimer.id found) = Some timerId' ->
  rpcResult (exchange w 1) = Some rows ->
  rows = Some JNull \/ rows = Some (JArr []) ->
  (Timesheet.getRunningTimer useCache w).1 = Returned None /\
  storage (Timesheet.getRunningTimer useCache w).2 =
    delete Timesheet.TIMER_CACHE_KEY (storage w).
Proof.
  intros Hs Hmiss H0 Hview Hid H1 Hrows.
  destruct (getAuthenticatedClient_run w s Hs) as [c Hc].
  set (w1 := withClients w (clients w ++ [c])) in Hc.
  assert (length (clients w) < length (clients w1))%nat as Hlt1
    by (unfold w1; simpl; rewrite length_app; simpl; lia).
  destruct (callKw_answered (length (clients w)) "account.analytic.line"
              "get_running_timer" [] [] w1 lookup Hlt1 H0)
    as (q1 & cs1 & Hrun1 & Hlen1 & _).
  set (w2 := afterRequest w1 q1 cs1) in Hrun1.
  assert (length (clients w) < length (clients w2))%nat as Hlt2
    by (unfold w2; simpl; lia).
  assert (rpcResult (nextExchange w2) = Some rows) as H1'
    by (unfold w2; rewrite nextExchange_afterRequest; exact H1).
  destruct (callKw_answered (length (clients w)) "account.analytic.line" "read"
              [JArr [JNum timerId']; JArr [JStr "timer_start"]] [] w2 rows Hlt2 H1')
    as (q2 & cs2 & Hrun2 & Hlen2 & _).
  set (w3 := afterRequest w2 q2 cs2) in Hrun2.
  assert ((if useCache then Timesheet.getCachedTimerState else ret None) w =
          (Returned None, w)) as Hcache.
  { destruct useCache; [| reflexivity].
    specialize (Hmiss eq_refl). pose proof (getCachedTimerState_world w) as Hw.
    destruct (Timesheet.getCachedTimerState w) as [o w']. simpl in *. congruence. }
  assert (Timesheet.viewTimerDetails rows = Some None \/
          Timesheet.viewTimerDetails rows = Some (Some [])) as Hdetails
    by (destruct Hrows as [-> | ->]; auto).
  destruct (Timesheet.getRunningTimer useCache w) as [o wf] eqn:E. cbn [fst snd].
  unfold Timesheet.getRunningTimer in E. unfold bind at 1 in E. rewrite Hcache in E.
  unfold bind at 1 in E. rewrite Hc in E.
  unfold tryCatch in E. unfold bind at 1 in E. rewrite Hrun1 in E.
  unfold Timesheet.readRunningTimer in E. unfold bind at 1 in E.
  rewrite Hview in E. cbn [cast ret mbind option_bind] in E. rewrite Hid in E.
  unfold bind at 1 in E. rewrite Hrun2 in E. unfold bind at 1 in E.
  destruct Hdetails as [Hd | Hd]; rewrite Hd in E; cbn [cast ret] in E;
    unfold bind, Timesheet.clearTimerCache, removeItem in E;
    injection E as <- <-; split; reflexivity.
Qed.

(** ** Attendance *)

Lemma requestOutcome_answered endpoint x res :
  rpcResult x = Some res ->
  JsString.includes endpoint "/web/session" = false ->
  requestOutcome endpoint (answer x) = Returned res.
Proof.
  unfold rpcResult, requestOutcome, Client.handleResponse.
  destruct (answer x) as [m | r]; [discriminate |].
  destruct (ok r); [| discriminate]. cbn [negb].
  destruct (body r) as [m | jr]; [discriminate |].
  destruct (rpc_error jr); [discriminate |]. intros [= <-] ->.
  destruct (rpc_result jr) as [[| [|] | | | |] |]; reflexivity.
Qed.

Lemma viewAttendanceState_encode a :
  Attendance.viewAttendanceState (Attendance.encodeAttendanceState a) = Some a.
Proof. destruct a as [[|] [?|] [?|] ? ?]; reflexivity. Qed.

Lemma attendance_viewCached_encode c :
  Attendance.viewCached (Attendance.encodeCached c) = Some c.
Proof.
  destruct c as [a t]. unfold Attendance.viewCached, Attendance.encodeCached.
  cbn [Json.req Json.field Json.assoc String.eqb Ascii.eqb Bool.eqb data timestamp
       mbind option_bind].
  rewrite viewAttendanceState_encode. reflexivity.
Qed.

Lemma getCachedAttendanceState_world w :
  (Attendance.getCachedAttendanceState w).2 = w.
Proof.
  unfold Attendance.getCachedAttendanceState, bind, getItem.
  destruct (storedFalsy (storage w !! Attendance.ATTENDANCE_CACHE_KEY)); [reflexivity |].
  destruct (storage w !! Attendance.ATTENDANCE_CACHE_KEY) as [[raw | j] |]; try reflexivity.
  simpl. destruct (Attendance.viewCached j); [| reflexivity]. simpl.
  now destruct (_ <? _).
Qed.

(** A state cached less than a minute ago is returned, and the world is
    left as it is. *)
Lemma getAttendanceStatus_hit w a (dt : N) :
  Z.of_N dt < Attendance.ATTENDANCE_CACHE_TTL ->
  let w' := elapse dt (Attendance.cacheAttendanceState a w).2 in
  Attendance.getAttendanceStatus true w' = (Returned a, w').
Proof.
  intros Hdt w'.
  assert (storage w' !! Attendance.ATTENDANCE_CACHE_KEY =
          Some (Parsed (Attendance.encodeCached {| data := a; timestamp := clock w |})))
    as Hst by (unfold w'; simpl; apply lookup_insert_eq).
  assert (clock w' = clock w + Z.of_N dt) as Hclock by reflexivity.
  assert (Attendance.getCachedAttendanceState w' = (Returned (Some a), w')) as Hhit.
  { unfold Attendance.getCachedAttendanceState, bind at 1. unfold getItem.
    rewrite Hst. cbn [storedFalsy]. unfold bind at 1.
    rewrite attendance_viewCached_encode. cbn [cast ret timestamp data].
    unfold bind, now. rewrite Hclock.
    replace (clock w + Z.of_N dt - clock w <? Attendance.ATTENDANCE_CACHE_TTL)
      with true by lia.
    reflexivity. }
  unfold Attendance.getAttendanceStatus, bind at 1. rewrite Hhit. reflexivity.
Qed.

(** What a first call that misses the cache and returns has done: one or
    two requests, then the returned state cached. *)
Lemma getAttendanceStatus_miss w a :
  (Attendance.getCachedAttendanceState w).1 = Returned None ->
  (Attendance.getAttendanceStatus true w).1 = Returned a ->
  exists wk q rest,
    (Attendance.getAttendanceStatus true w).2 = (Attendance.cacheAttendanceState a wk).2 /\
    clock w <= clock wk /\
    sent wk = (sent w ++ q :: rest)%list /\
    (length rest <= 1)%nat /\
    (is_Some (rpcResult (exchange w 0)) -> rest = []).
Proof.
  intros Hmiss. pose proof (getCachedAttendanceState_world w) as Hw0.
  destruct (Attendance.getAttendanceStatus true w) as [o wf] eqn:E. cbn [fst snd].
  intros ->. unfold Attendance.getAttendanceStatus in E. unfold bind at 1 in E.
  destruct (Attendance.getCachedAttendanceState w) as [o0 w0]. cbn [fst snd] in *.
  subst o0 w0. unfold bind at 1 in E.
  destruct (Auth.getAuthenticatedClient w) as [[client | e |] wa] eqn:Ea;
    try discriminate.
  destruct (getAuthenticatedClient_inv _ _ _ Ea) as [s Hs].
  destruct (getAuthenticatedClient_run w s Hs) as [c Hc]. rewrite Hc in Ea.
  injection Ea as <- <-.
  set (w1 := withClients w (clients w ++ [c])) in *.
  assert (length (clients w) < length (clients w1))%nat as Hlt1
    by (unfold w1; simpl; rewrite length_app; simpl; lia).
  destruct (request_run (length (clients w)) "/hr_attendance/attendance_user_data"
              (JObj []) w1 Hlt1) as (q1 & cs1 & Hrun1 & Hlen1 & _).
  set (w2 := afterRequest w1 q1 cs1) in *.
  unfold tryCatch at 1 in E. unfold bind at 1 in E. rewrite Hrun1 in E.
  destruct (requestOutcome "/hr_attendance/attendance_user_data"
              (answer (nextExchange w1))) as [r | e |] eqn:Eo; try discriminate.
  - (* the endpoint answered *)
    unfold bind at 1 in E. destruct (r ≫= Attendance.viewAttendanceState) as [a' |];
      cbn [cast ret stuck] in E; [| discriminate].
    unfold bind in E.
    destruct (Attendance.cacheAttendanceState a' w2) as [[[] | |] w3] eqn:E3;
      try discriminate.
    injection E as <- <-. exists w2, q1, []. rewrite E3.
    repeat split; try reflexivity; simpl; lia.
  - (* the endpoint failed: the model call *)
    assert (length (clients w) < length (clients w2))%nat as Hlt2
      by (unfold w2; simpl; lia).
    destruct (callKw_run (length (clients w)) "hr.employee" "attendance_user_data"
                [] [] w2 Hlt2) as (q2 & cs2 & Hrun2 & Hlen2 & _).
    set (w3 := afterRequest w2 q2 cs2) in *.
    unfold tryCatch in E. unfold bind at 1 in E. rewrite Hrun2 in E.
    destruct (requestOutcome "/web/dataset/call_kw" (answer (nextExchange w2)))
      as [r | e' |]; try discriminate.
    unfold bind at 1 in E. destruct (r ≫= Attendance.viewUserData) as [[st hours] |];
      cbn [cast ret stuck] in E; [| discriminate].
    unfold bind in E. cbn [fst snd] in E.
    match type of E with context [Attendance.cacheAttendanceState ?x w3] =>
      destruct (Attendance.cacheAttendanceState x w3) as [[[] | |] w4] eqn:E4
    end; try discriminate.
    injection E as <- <-. exists w3, q1, [q2]. rewrite E4.
    repeat split; try reflexivity.
    + simpl. lia.
    + unfold w3, w2. cbn [afterRequest sent]. now rewrite <- app_assoc.
    + intros [res Hres].
      pose proof (requestOutcome_answered "/hr_attendance/attendance_user_data"
                    (exchange w 0) res Hres eq_refl) as Hx.
      change (exchange w 0) with (nextExchange w1) in Hx. congruence.
Qed.

(** C9. Take two calls [getAttendanceStatus(true)], the second one issued
    less than 60 000 ms after the first.  If the first call misses the
    cache and returns a state, the second call returns that state from the
    cache and sends nothing to the server.  The first call sends one
    request when the endpoint answers, and two when it has to fall back on
    the model call; so the two calls make at most two requests. *)
Theorem getAttendanceStatus_twice_within_ttl
    (w : World) (a : AttendanceState) (dt : N) :
  let w1 := (Attendance.getAttendanceStatus true w).2 in
  let w2 := elapse dt w1 in
  (Attendance.getCachedAttendanceState w).1 = Returned None ->
  (Attendance.getAttendanceStatus true w).1 = Returned a ->
  clock w2 - clock w < Attendance.ATTENDANCE_CACHE_TTL ->
  Attendance.getAttendanceStatus true w2 = (Returned a, w2) /\
  (length (sent w) < length (sent w2) <= length (sent w) + 2)%nat /\
  (is_Some (rpcResult (exchange w 0)) ->
   length (sent w2) = (length (sent w) + 1)%nat).
Proof.
  intros w1 w2 Hmiss Ha Hdt.
  destruct (getAttendanceStatus_miss w a Hmiss Ha)
    as (wk & q & rest & Hw1 & Hclock & Hsent & Hlen & Hone).
  assert (sent w2 = (sent w ++ q :: rest)%list) as Hsent2
    by (unfold w2, w1; rewrite Hw1; exact Hsent).
  assert (clock w2 = clock wk + Z.of_N dt) as Hclock2
    by (unfold w2, w1; rewrite Hw1; reflexivity).
  split; [| split].
  - unfold w2, w1. rewrite Hw1. apply getAttendanceStatus_hit. lia.
  - rewrite Hsent2, length_app. simpl. lia.
  - intros Hsome. rewrite Hsent2, (Hone Hsome), length_app. reflexivity.
Qed.

(** ** Database resolution *)

Lemma asArray_strings names :
  Json.asArray Json.asStr (JArr (JStr <$> names)) = Some names.
Proof.
  unfold Json.asArray. induction names as [| n names IH]; [reflexivity |].
  cbn [fmap list_fmap mapM]. cbn [fmap list_fmap] in IH. rewrite IH. reflexivity.
Qed.

(** The listing as [fetchDatabaseList] reports it: the listed names when
    the endpoint answers with them, and the empty list when the request
    fails or the answer has no list. *)
Lemma fetchDatabaseList_run url w :
  (forall names,
     rpcResult (exchange w 0) = Some (Some (JArr (JStr <$> names))) ->
     (Auth.fetchDatabaseList url w).1 = Returned names) /\
  (rpcResult (exchange w 0) = None ->
   (Auth.fetchDatabaseList url w).1 = Returned []) /\
  (forall res,
     rpcResult (exchange w 0) = Some res -> Json.truthyOpt res = false ->
     (Auth.fetchDatabaseList url w).1 = Returned []).
Proof.
  destruct (Auth.fetchDatabaseList url w) as [o wf] eqn:E. cbn [fst].
  unfold Auth.fetchDatabaseList in E. unfold bind at 1 in E.
  destruct (Client.constructor url None [] w) as [o1 w1] eqn:E1.
  unfold Client.constructor, newRef in E1. injection E1 as <- <-.
  match type of E with context [tryCatch _ _ ?w0] => set (w1 := w0) in E end.
  assert (length (clients w) < length (clients w1))%nat as Hlt
    by (unfold w1; simpl; rewrite length_app; simpl; lia).
  destruct (request_run (length (clients w)) "/web/database/list" (JObj []) w1 Hlt)
    as (q & cs & Hrun & _ & _).
  unfold tryCatch, bind in E. rewrite Hrun in E.
  change (nextExchange w1) with (exchange w 0) in E. split; [| split].
  - intros names Hres.
    rewrite (requestOutcome_answered "/web/database/list" _ _ Hres eq_refl) in E.
    unfold Auth.viewDatabases in E. cbn [Json.truthy] in E.
    rewrite asArray_strings in E. cbn [cast ret] in E. now injection E as <-.
  - intros Hres. unfold rpcResult in Hres.
    unfold requestOutcome, Client.handleResponse in E.
    destruct (answer (exchange w 0)) as [m | r]; [cbn [ret] in E; now injection E as <- |].
    destruct (ok r); cbn [negb] in E;
      [| destruct ((status r =? 401) || (status r =? 403)); cbn [ret] in E; now injection E as <-].
    destruct (body r) as [m | jr]; [cbn [ret] in E; now injection E as <- |].
    destruct (rpc_error jr); [cbn [ret] in E; now injection E as <- | discriminate].
  - intros res Hres Hfalsy.
    rewrite (requestOutcome_answered "/web/database/list" _ _ Hres eq_refl) in E.
    unfold Auth.viewDatabases in E. destruct res as [j |]; cbn [Json.truthyOpt] in Hfalsy;
      [rewrite Hfalsy in E |]; cbn [cast ret] in E; now injection E as <-.
Qed.

Lemma startsWith_empty_name sub : JsString.startsWith EmptyString sub = true -> sub = EmptyString.
Proof.
  unfold JsString.startsWith, JsString.chars. destruct sub; [reflexivity | discriminate].
Qed.

(** The code's choice among several databases is the specification's. *)
Lemma find_match_or_first sub first others :
  match find (fun db => JsString.startsWith db sub) (first :: others) with
  | Some match_ => if JsString.truthy match_ then match_ else first
  | None => first
  end = default first (find (fun db => JsString.startsWith db sub) (first :: others)).
Proof.
  destruct (find _ (first :: others)) as [m |] eqn:E; [| reflexivity].
  destruct m as [| a m]; [| reflexivity]. cbn [JsString.truthy default].
  pose proof (find_some _ _ E) as [_ Hm].
  apply startsWith_empty_name in Hm. subst sub.
  destruct first; [reflexivity |]. discriminate E.
Qed.

Lemma chars_app a b : JsString.chars (a +:+ b) = (JsString.chars a ++ JsString.chars b)%list.
Proof.
  unfold JsString.chars. induction a as [| c a IH]; [reflexivity |].
  change (String c a +:+ b) with (String c (a +:+ b)).
  cbn [list_ascii_of_string app]. now rewrite IH.
Qed.

Lemma ofChars_chars s : JsString.ofChars (JsString.chars s) = s.
Proof. apply string_of_list_ascii_of_string. Qed.

Lemma startsWithL_app_cancel p q s :
  JsString.startsWithL (p ++ q) (p ++ s) = JsString.startsWithL q s.
Proof.
  induction p as [| a p IH]; [reflexivity |].
  cbn [app JsString.startsWithL]. now rewrite Ascii.eqb_refl, IH.
Qed.

(** A string ends with what is appended to it, and dropping that gives
    the string back. *)
Lemma endsWith_app s p : JsString.endsWith (s +:+ p) p = true.
Proof.
  unfold JsString.endsWith. rewrite chars_app, rev_app_distr.
  rewrite <- (app_nil_r (rev (JsString.chars p))) at 1.
  rewrite startsWithL_app_cancel. reflexivity.
Qed.

Lemma dropEnd_app s p : JsString.dropEnd (length (JsString.chars p)) (s +:+ p) = s.
Proof.
  unfold JsString.dropEnd. rewrite chars_app, rev_app_distr.
  rewrite <- (length_rev (JsString.chars p)), drop_app_length, rev_involutive.
  apply ofChars_chars.
Qed.

(** The pattern [\.(dev\.)?odoo\.com$] takes [.odoo.com] off a host, and
    [.dev.odoo.com] where the host ends with that. *)
Lemma stripOdooSuffix_odoo sub :
  JsString.endsWith sub ".dev" = false ->
  Auth.stripOdooSuffix (sub +:+ ".odoo.com") = sub.
Proof.
  intros Hdev. unfold Auth.stripOdooSuffix.
  assert (JsString.endsWith (sub +:+ ".odoo.com") ".dev.odoo.com" = false) as ->.
  { unfold JsString.endsWith in *. rewrite chars_app, rev_app_distr.
    change (rev (JsString.chars ".dev.odoo.com"))
      with (rev (JsString.chars ".odoo.com") ++ rev (JsString.chars ".dev"))%list.
    now rewrite startsWithL_app_cancel. }
  rewrite endsWith_app. apply (dropEnd_app sub ".odoo.com").
Qed.

Lemma stripOdooSuffix_dev_odoo sub :
  Auth.stripOdooSuffix (sub +:+ ".dev.odoo.com") = sub.
Proof.
  unfold Auth.stripOdooSuffix. rewrite endsWith_app.
  apply (dropEnd_app sub ".dev.odoo.com").
Qed.

Lemma endsWith_odoo_of_dev sub :
  JsString.endsWith (sub +:+ ".dev.odoo.com") ".odoo.com" = true.
Proof.
  unfold JsString.endsWith. rewrite chars_app, rev_app_distr.
  change (rev (JsString.chars ".dev.odoo.com"))
    with (rev (JsString.chars ".odoo.com") ++ rev (JsString.chars ".dev"))%list.
  rewrite <- app_assoc.
  rewrite <- (app_nil_r (rev (JsString.chars ".odoo.com"))) at 1.
  rewrite startsWithL_app_cancel. reflexivity.
Qed.

Section DatabaseName.

Variable URL_hostname : string -> option string.

Lemma extractDatabaseName_listing url hostname w listing :
  URL_hostname url = Some hostname ->
  JsString.endsWith hostname ".odoo.com" = true ->
  (Auth.fetchDatabaseList url w).1 = Returned listing ->
  (Auth.extractDatabaseName URL_hostname url w).1 =
  Returned (databaseFor (Auth.stripOdooSuffix hostname) listing).
Proof.
  intros Hh Hends Hl. unfold Auth.extractDatabaseName, tryCatch, bind at 1.
  rewrite Hh. cbn [ret]. rewrite Hends. unfold bind.
  destruct (Auth.fetchDatabaseList url w) as [o w']. cbn [fst] in Hl. subst o.
  destruct listing as [| first [| second others]]; try reflexivity.
  unfold databaseFor. rewrite <- find_match_or_first.
  destruct (find _ _) as [m |]; [destruct (JsString.truthy m) |]; reflexivity.
Qed.

(** C8. For a URL whose host is [subdomain.odoo.com] or
    [subdomain.dev.odoo.com] (the longer suffix is the one taken off a
    host that ends with it): when the listing endpoint answers with
    names, [extractDatabaseName] returns the only name if there is one,
    among several the first that starts with the subdomain and else the
    first listed, and the subdomain if there is none; when the listing
    request fails, or answers without a list, it returns the subdomain.
    The host ["acme.odoo.com"] with the listing [["acme"]] gives
    ["acme"]. *)
Theorem extractDatabaseName_multitenant (url hostname subdomain : string) (w : World) :
  URL_hostname url = Some hostname ->
  (hostname = subdomain +:+ ".odoo.com" /\ JsString.endsWith subdomain ".dev" = false) \/
  hostname = subdomain +:+ ".dev.odoo.com" ->
  (forall names,
     rpcResult (exchange w 0) = Some (Some (JArr (JStr <$> names))) ->
     (Auth.extractDatabaseName URL_hostname url w).1 =
       Returned (databaseFor subdomain names)) /\
  (forall name,
     rpcResult (exchange w 0) = Some (Some (JArr [JStr name])) ->
     (Auth.extractDatabaseName URL_hostname url w).1 = Returned name) /\
  (forall first second others,
     rpcResult (exchange w 0) =
       Some (Some (JArr (JStr <$> first :: second :: others))) ->
     (Auth.extractDatabaseName URL_hostname url w).1 =
       Returned (default first (find (fun db => JsString.startsWith db subdomain)
                                     (first :: second :: others)))) /\
  (rpcResult (exchange w 0) = Some (Some (JArr [])) ->
   (Auth.extractDatabaseName URL_hostname url w).1 = Returned subdomain) /\
  (rpcResult (exchange w 0) = None ->
   (Auth.extractDatabaseName URL_hostname url w).1 = Returned subdomain) /\
  (forall res,
     rpcResult (exchange w 0) = Some res -> Json.truthyOpt res = false ->
     (Auth.extractDatabaseName URL_hostname url w).1 = Returned subdomain) /\
  (hostname = "acme.odoo.com" ->
   rpcResult (exchange w 0) = Some (Some (JArr [JStr "acme"])) ->
   (Auth.extractDatabaseName URL_hostname url w).1 = Returned "acme").
Proof.
  intros Hh Hhost.
  assert (JsString.endsWith hostname ".odoo.com" = true /\
          Auth.stripOdooSuffix hostname = subdomain) as [Hends Hstrip].
  { destruct Hhost as [[-> Hdev] | ->].
    - split; [apply endsWith_app | now apply stripOdooSuffix_odoo].
    - split; [apply endsWith_odoo_of_dev | apply stripOdooSuffix_dev_odoo]. }
  destruct (fetchDatabaseList_run url w) as (Hnames & Hfail & Hfalsy).
  assert (forall listing,
            (Auth.fetchDatabaseList url w).1 = Returned listing ->
            (Auth.extractDatabaseName URL_hostname url w).1 =
            Returned (databaseFor subdomain listing)) as Hrun.
  { intros listing Hl. rewrite <- Hstrip.
    now apply (extractDatabaseName_listing url hostname w listing Hh Hends). }
  split; [| split; [| split; [| split; [| split; [| split]]]]].
  - intros names Hres. apply Hrun, Hnames, Hres.
  - intros name Hres. apply (Hrun [name]), (Hnames [name]), Hres.
  - intros first second others Hres.
    apply (Hrun (first :: second :: others)), Hnames, Hres.
  - intros Hres. apply (Hrun []), (Hnames []), Hres.
  - intros Hres. apply (Hrun []), Hfail, Hres.
  - intros res Hres Hf. apply (Hrun []), (Hfalsy res Hres Hf).
  - intros _ Hres. apply (Hrun ["acme"]), (Hnames ["acme"]), Hres.
Qed.

End DatabaseName.

(** ** The model on concrete inputs *)

Example toISOString_epoch :
  JsDate.toISOString 0 = Some "1970-01-01T00:00:00.000Z".
Proof. reflexivity. Qed.

Example toISOString_2023 :
  JsDate.toISOString 1700000000000 = Some "2023-11-14T22:13:20.000Z".
Proof. reflexivity. Qed.

Example toISOString_before_epoch :
  JsDate.toISOString (-1) = Some "1969-12-31T23:59:59.999Z".
Proof. reflexivity. Qed.

Example toISOString_out_of_range :
  JsDate.toISOString 8640000000000001 = None.
Proof. reflexivity. Qed.

Example parse_utc :
  JsDate.parse cet "2023-11-14T22:13:20.000Z" = Some 1700000000000.
Proof. reflexivity. Qed.

Example parse_local :
  JsDate.parse cet "2023-11-14T23:13:20" = Some 1700000000000.
Proof. reflexivity. Qed.

Example parse_day_past_month_end :
  JsDate.parse cet "2023-02-29T00:00:00" = JsDate.parse cet "2023-03-01T00:00:00" /\
  JsDate.parse cet "2023-02-32T00:00:00" = None /\
  JsDate.parse cet "2023-13-01T00:00:00" = None.
Proof. repeat split; reflexivity. Qed.

Example getElapsedSeconds_invalid :
  Format.getElapsedSeconds cet "yesterday" "2024-03-01 00:00:01" = None.
Proof. reflexivity. Qed.

Example stripOdooSuffix_plain : Auth.stripOdooSuffix "acme.odoo.com" = "acme".
Proof. reflexivity. Qed.

Example stripOdooSuffix_dev : Auth.stripOdooSuffix "acme.dev.odoo.com" = "acme".
Proof. reflexivity. Qed.

Example stripOdooSuffix_dev_host : Auth.stripOdooSuffix "dev.odoo.com" = "dev".
Proof. reflexivity. Qed.

Example updateCookies_replaces :
  Client.updateCookiesFromResponse ["session_id=abc"; "tz=UTC"]
    {| status := 200; statusText := "OK";
       setCookie := Some "session_id=def; Expires=Wed, 21 Oct 2026 07:28:00 GMT; Path=/, lang=en_US; Path=/";
       body := NotJson "-" |}
  = ["tz=UTC"; "session_id=def"; "lang=en_US"].
Proof. reflexivity. Qed.

Example request_not_found :
  (Client.request 0 "/web/database/list" (JObj [])
     (connected [http 0 404 "Not Found" (NotJson "-")])).1 =
  Thrown (OdooApiError "HTTP 404: Not Found" (Some 404) None).
Proof. reflexivity. Qed.

Example request_offline :
  (Client.request 0 "/web/database/list" (JObj []) (connected [])).1 =
  Thrown (OdooApiError "Network error: connect ECONNREFUSED" None None).
Proof. reflexivity. Qed.

Example request_counts_ids :
  let w := (Client.request 0 "/web/database/list" (JObj [])
              (connected [okJson 0 (JArr [])])).2 in
  OdooClient.requestId <$> clients w = [2] /\
  Json.field "id" <$> (req_body <$> sent w) = [Some (JNum 1)].
Proof. split; reflexivity. Qed.

Example extractDatabaseName_several :
  databaseFor "acme" ["test"; "acme-staging"; "acme"] = "acme-staging" /\
  databaseFor "acme" ["test"; "demo"] = "test" /\
  databaseFor "acme" [] = "acme".
Proof. repeat split; reflexivity. Qed.

Example startTimer_bare_id :
  (Timesheet.startTimer (loggedIn 1700000000000 [okJson 200 (JNum 7)])).1 =
  Returned {| Timesheet.started_timerId := 7;
              Timesheet.started_startTime := "2023-11-14T22:13:20.200Z" |}.
Proof. vm_compute. reflexivity. Qed.

Example startTimer_nothing_running :
  (Timesheet.startTimer (loggedIn 1700000000000 [okJson 0 JNull; okJson 0 (JObj [])])).1 =
  Thrown Timesheet.noRunningTimer.
Proof. vm_compute. reflexivity. Qed.

Example startTimer_logged_out :
  (Timesheet.startTimer (connected [])).1 =
  Thrown (SessionExpiredError "No active session found").
Proof. vm_compute. reflexivity. Qed.

Example startTimerWithDetails_run :
  let w := loggedIn 1700000000000
             [okJson 10 (JNum 9); okJson 10 (JBool true);
              okJson 10 (JArr [JObj [("timer_start", JStr "2023-11-14 22:13:20")]]);
              okJson 10 (JArr [JArr [JNum 3; JStr "Website"]]);
              okJson 10 (JArr [JArr [JNum 5; JStr "Landing page"]])] in
  (Timesheet.getRunningTimer true (Timesheet.startTimerWithDetails 3 5 None w).2).1 =
  Returned (Some {| timerId := Some 9; projectId := Some 3;
                    projectName := Some "Website"; taskId := Some 5;
                    taskName := Some "Landing page"; description := None;
                    startTime := Some "2023-11-14 22:13:20" |}).
Proof. vm_compute. reflexivity. Qed.

Example stopTimer_duration :
  (Timesheet.stopTimer 42 running).1 = Returned 7200.
Proof. vm_compute. reflexivity. Qed.

Example cache_expires :
  let w := (Timesheet.startTimer (loggedIn 1700000000000 [okJson 200 (JNum 7)])).2 in
  (Timesheet.getCachedTimerState (elapse 29999 w)).1 <> Returned None /\
  (Timesheet.getCachedTimerState (elapse 30000 w)).1 = Returned None.
Proof. vm_compute. split; [discriminate | reflexivity]. Qed.

(** ** The theorems at work on sample worlds *)

Lemma cet_bounded : forall t, Z.abs (cet t) <= JsDate.msPerDay.
Proof. intros t. unfold cet, JsDate.msPerDay. lia. Qed.

Example getElapsedSeconds_leap_day :
  Format.getElapsedSeconds cet "2024-02-29 23:59:59" "2024-03-01 00:00:01" = Some 2.
Proof. reflexivity. Qed.

Example getElapsedSeconds_new_year :
  Format.getElapsedSeconds cet "2023-12-31 23:59:30" "2024-01-01 00:00:30" = Some 60.
Proof. reflexivity. Qed.

Example getElapsedSeconds_month :
  Format.getElapsedSeconds cet "2023-01-31 12:00:00" "2023-03-01 12:00:00" = Some 2505600.
Proof. reflexivity. Qed.

Lemma getElapsedSeconds_floor_witness :
  Format.getElapsedSeconds cet "2024-02-29 23:59:59" "2024-03-01 00:00:01" = Some 2.
Proof.
  destruct (getElapsedSeconds_floor cet cet_bounded leapDayEvening marchFirst)
    as (e & He & -> & _).
  - reflexivity.
  - reflexivity.
  - vm_compute. discriminate.
  - reflexivity.
  - exact He.
Defined.

(** The claim of C1 as first stated fails on a host that changes its
    offset between the two timestamps.  In New York the timestamps
    "2024-03-10 01:59:59" and "2024-03-10 03:00:00" are 3601 seconds apart
    and the result is 1; from "2024-03-10 02:30:00" to "03:00:00", 1800
    seconds later, the result is negative. *)
Lemma getElapsedSeconds_across_dst :
  validCivil lastWinterSecond = true /\ validCivil skippedHalfHour = true /\
  validCivil springForward = true /\
  localTime lastWinterSecond <= localTime springForward /\
  (localTime springForward - localTime lastWinterSecond) / 1000 = 3601 /\
  Format.getElapsedSeconds newYork "2024-03-10 01:59:59" "2024-03-10 03:00:00" = Some 1 /\
  odooFormat lastWinterSecond = "2024-03-10 01:59:59" /\
  odooFormat springForward = "2024-03-10 03:00:00" /\
  localTime skippedHalfHour <= localTime springForward /\
  (localTime springForward - localTime skippedHalfHour) / 1000 = 1800 /\
  Format.getElapsedSeconds newYork (odooFormat skippedHalfHour) (odooFormat springForward)
    = Some (-1800).
Proof.
  vm_compute. repeat split; discriminate.
Qed.

Lemma startTimer_false_then_lookup_witness :
  (Timesheet.startTimer startedElsewhere).1 =
    Returned {| Timesheet.started_timerId := 42;
                Timesheet.started_startTime := "2023-11-14T22:08:20.200Z" |} /\
  JsDate.parse cet "2023-11-14T22:08:20.200Z" = Some (1700000000000 + 200 - 300000) /\
  cachedTimer (Timesheet.startTimer startedElsewhere).2 =
    Some {| data := {| timerId := Some 42; projectId := None; projectName := None;
                       taskId := None; taskName := None; description := None;
                       startTime := Some "2023-11-14T22:08:20.200Z" |};
            timestamp := 1700000000000 + 200 |}.
Proof.
  destruct (startTimer_false_then_lookup startedElsewhere sampleSession (JBool false)
              1700000000000 200) as (iso & start & Hiso & Hparse & -> & _ & Hreturned & Hcached).
  - vm_compute. reflexivity.
  - reflexivity.
  - left. reflexivity.
  - reflexivity.
  - reflexivity.
  - reflexivity.
  - lia.
  - lia.
  - assert (iso = "2023-11-14T22:08:20.200Z") as ->
      by (vm_compute in Hiso; congruence).
    split; [exact Hreturned |]. split; [apply Hparse | exact Hcached].
Defined.

(** The claim of C2 as first stated fails when the two exchanges take
    time: called at 22:13:20, [startTimer] returns and caches the start
    time 22:11:40, which is 200 seconds after the call time less five
    minutes, 22:08:20. *)
Lemma startTimer_lookup_on_slow_connection :
  let w := startedElsewhereSlowly in
  let T := clock w in
  rpcResult (exchange w 0) = Some (Some (JBool false)) /\
  rpcResult (exchange w 1) = Some (Some (JObj [("id", JNum 42); ("start", JNum 5)])) /\
  JsDate.toISOString T = Some "2023-11-14T22:13:20.000Z" /\
  JsDate.toISOString (T - 5 * 60000) = Some "2023-11-14T22:08:20.000Z" /\
  (Timesheet.startTimer w).1 =
    Returned {| Timesheet.started_timerId := 42;
                Timesheet.started_startTime := "2023-11-14T22:11:40.000Z" |} /\
  (exists c, cachedTimer (Timesheet.startTimer w).2 = Some c /\
             startTime (data c) = Some "2023-11-14T22:11:40.000Z") /\
  JsDate.parse cet "2023-11-14T22:11:40.000Z" = Some (T - 5 * 60000 + 200000).
Proof.
  vm_compute. repeat split. eexists. split; reflexivity.
Qed.

Lemma request_http_failure_witness :
  (Client.request 0 "/web/dataset/call_kw" (JObj [])
     (connected [http 0 403 "Forbidden" (NotJson "Forbidden")])).1 =
  Thrown defaultSessionExpired.
Proof.
  apply (request_http_failure (connected [http 0 403 "Forbidden" (NotJson "Forbidden")])
           0%nat "/web/dataset/call_kw" (JObj [])
           {| status := 403; statusText := "Forbidden"; setCookie := None;
              body := NotJson "Forbidden" |}).
  - simpl. lia.
  - reflexivity.
  - right. reflexivity.
Defined.

Lemma request_rpc_error_witness :
  exists message,
    (Client.request 0 "/web/dataset/call_kw" (JObj [])
       (connected [rpcFailure accessDenied])).1 =
      Thrown (OdooApiError message (Some 200) (Some "Traceback (most recent call last)")) /\
    message = "Access Denied".
Proof.
  destruct (request_rpc_error (connected [rpcFailure accessDenied]) 0%nat
              "/web/dataset/call_kw" (JObj [])
              {| status := 200; statusText := "OK"; setCookie := None;
                 body := JsonBody {| rpc_result := None; rpc_error := Some accessDenied |} |}
              {| rpc_result := None; rpc_error := Some accessDenied |} accessDenied
              ltac:(simpl; lia) eq_refl eq_refl eq_refl eq_refl)
    as (message & Hthrown & Hnested & _).
  exists message. split; [exact Hthrown |].
  apply (Hnested _ eq_refl). discriminate.
Defined.

(** The claim of C4 as first stated fails when the nested message is
    present and empty: the error raised carries the top-level message. *)
Lemma request_rpc_error_empty_nested :
  exists d,
    error_data emptyNested = Some d /\
    (Client.request 0 "/web/dataset/call_kw" (JObj [])
       (connected [rpcFailure emptyNested])).1 =
      Thrown (OdooApiError "Odoo Server Error" (Some 200) (Some (data_debug d))) /\
    data_message d <> "Odoo Server Error".
Proof.
  eexists. split; [reflexivity |]. split; [reflexivity | discriminate].
Qed.

Lemma request_false_result_witness :
  (Client.request 0 "/web/dataset/call_kw" (JObj [])
     (connected [okJson 0 (JBool false)])).1 = Returned (Some (JBool false)) /\
  (Client.request 0 "/web/session/get_session_info" (JObj [])
     (connected [okJson 0 (JBool false)])).1 = Thrown defaultSessionExpired.
Proof.
  split.
  - apply (request_false_result (connected [okJson 0 (JBool false)]) 0%nat
             "/web/dataset/call_kw" (JObj [])); [simpl; lia | reflexivity | reflexivity].
  - apply (request_false_result (connected [okJson 0 (JBool false)]) 0%nat
             "/web/session/get_session_info" (JObj [])); [simpl; lia | reflexivity | reflexivity].
Defined.


Lemma timer_state_invariant_witness :
  cacheInv (Timesheet.startTimer startedElsewhere).2 /\
  cacheInv (Timesheet.getRunningTimer false watching).2 /\
  (exists s,
     (Timesheet.getRunningTimer false watching).1 = Returned (Some s) /\
     timerId s = Some 42 /\ startTime s = Some "2023-11-14 22:08:20" /\ timerInv s).
Proof.
  assert (forall xs, cacheInv (loggedIn 1700000000000 xs)) as Hfresh
    by (intros xs c Hc; vm_compute in Hc; discriminate).
  split; [exact (proj1 (timer_state_invariant startedElsewhere (Hfresh _))) |].
  destruct (timer_state_invariant watching (Hfresh _)) as (_ & _ & _ & _ & Hget & _).
  destruct (Hget false) as [Hcache Hreturned].
  { intros r row rest Hr Hv. vm_compute in Hr. injection Hr as <-.
    vm_compute in Hv. injection Hv as <- _. discriminate. }
  split; [exact Hcache |].
  eexists. split; [vm_compute; reflexivity |].
  split; [reflexivity |]. split; [reflexivity |].
  apply Hreturned. vm_compute. reflexivity.
Defined.

(** The claim of C7 as first stated fails when the server answers the
    read of [timer_start] with a row in which the field is not set:
    [getRunningTimer] returns and caches a state with the timer id 42 and
    no start time, and [startTimerWithDetails] caches such a state. *)
Lemma getRunningTimer_row_without_start :
  cacheInv unstarted /\
  (exists s,
     (Timesheet.getRunningTimer false unstarted).1 = Returned (Some s) /\
     timerId s = Some 42 /\ startTime s = None /\ ~ timerInv s) /\
  ~ cacheInv (Timesheet.getRunningTimer false unstarted).2 /\
  cacheInv unstartedLine /\
  (exists c,
     cachedTimer (Timesheet.startTimerWithDetails 3 5 None unstartedLine).2 = Some c /\
     timerId (data c) = Some 42 /\ startTime (data c) = None) /\
  ~ cacheInv (Timesheet.startTimerWithDetails 3 5 None unstartedLine).2.
Proof.
  assert (forall xs, cacheInv (loggedIn 1700000000000 xs)) as Hfresh
    by (intros xs c Hc; vm_compute in Hc; discriminate).
  split; [apply Hfresh |]. split.
  { eexists. split; [vm_compute; reflexivity |].
    split; [reflexivity |]. split; [reflexivity |].
    intros H. now apply H. }
  split.
  { intros H. eapply H; [vm_compute; reflexivity | discriminate | reflexivity]. }
  split; [apply Hfresh |]. split.
  { eexists. split; [vm_compute; reflexivity |]. split; reflexivity. }
  intros H. eapply H; [vm_compute; reflexivity | discriminate | reflexivity].
Qed.

Lemma extractDatabaseName_multitenant_witness :
  (Auth.extractDatabaseName acmeHost "https://acme.odoo.com" acmeListing).1 =
    Returned "acme" /\
  (Auth.extractDatabaseName acmeHost "https://acme.odoo.com" acmeSeveral).1 =
    Returned "acme-staging" /\
  (Auth.extractDatabaseName acmeHost "https://acme.odoo.com" acmeUnlisted).1 =
    Returned "acme" /\
  (Auth.extractDatabaseName acmeDevHost "https://acme.dev.odoo.com" acmeUnlisted).1 =
    Returned "acme".
Proof.
  split; [| split; [| split]].
  - destruct (extractDatabaseName_multitenant acmeHost "https://acme.odoo.com"
                "acme.odoo.com" "acme" acmeListing eq_refl
                (or_introl (conj eq_refl eq_refl)))
      as (_ & _ & _ & _ & _ & _ & Hacme).
    apply Hacme; reflexivity.
  - destruct (extractDatabaseName_multitenant acmeHost "https://acme.odoo.com"
                "acme.odoo.com" "acme" acmeSeveral eq_refl
                (or_introl (conj eq_refl eq_refl)))
      as (_ & _ & Hseveral & _).
    apply (Hseveral "test" "acme-staging" ["acme"]). reflexivity.
  - destruct (extractDatabaseName_multitenant acmeHost "https://acme.odoo.com"
                "acme.odoo.com" "acme" acmeUnlisted eq_refl
                (or_introl (conj eq_refl eq_refl)))
      as (_ & _ & _ & _ & Hfail & _).
    apply Hfail. reflexivity.
  - destruct (extractDatabaseName_multitenant acmeDevHost "https://acme.dev.odoo.com"
                "acme.dev.odoo.com" "acme" acmeUnlisted eq_refl (or_intror eq_refl))
      as (_ & _ & _ & _ & Hfail & _).
    apply Hfail. reflexivity.
Defined.

Lemma getAttendanceStatus_twice_within_ttl_witness :
  let w1 := (Attendance.getAttendanceStatus true attending).2 in
  let w2 := elapse 59000 w1 in
  (Attendance.getAttendanceStatus true w2).1 = (Attendance.getAttendanceStatus true attending).1 /\
  length (sent (Attendance.getAttendanceStatus true w2).2) = 1%nat.
Proof.
  intros w1 w2.
  destruct (getAttendanceStatus_twice_within_ttl attending
              {| attendance_state := checked_in;
                 last_check_in := Some "2024-03-01 08:00:00";
                 last_check_out := None; hours_today := 3; employee_name := "Ada" |}
              59000) as (Hhit & _ & Hone).
  - vm_compute. reflexivity.
  - vm_compute. reflexivity.
  - vm_compute. reflexivity.
  - fold w1 in Hhit. fold w2 in Hhit. rewrite Hhit. split.
    + vm_compute. reflexivity.
    + cbn [snd]. apply Hone. eexists. reflexivity.
Defined.

(** The claim of C9 as first stated fails when the attendance endpoint is
    missing: the first call alone sends two requests. *)
Lemma getAttendanceStatus_fallback_two_requests :
  let w := attendingFallback in
  let w1 := (Attendance.getAttendanceStatus true w).2 in
  let w2 := elapse 1000 w1 in
  let w3 := (Attendance.getAttendanceStatus true w2).2 in
  clock w2 - clock w < Attendance.ATTENDANCE_CACHE_TTL /\
  (Attendance.getAttendanceStatus true w).1 = (Attendance.getAttendanceStatus true w2).1 /\
  ~ (length (sent w3) <= length (sent w) + 1)%nat.
Proof.
  vm_compute. repeat split; try discriminate.
  intros H. repeat (apply le_S_n in H). inversion H.
Qed.

Lemma getRunningTimer_no_start_row_witness :
  (Timesheet.getRunningTimer true vanished).1 = Returned None /\
  storage (Timesheet.getRunningTimer true vanished).2 =
    delete Timesheet.TIMER_CACHE_KEY (storage vanished).
Proof.
  apply (getRunningTimer_no_start_row vanished sampleSession true
           (Some (JObj [("id", JNum 42); ("start", JNum 5)])) (Some (JArr []))
           {| Timesheet.RunningTimer.id := Some 42;
              Timesheet.RunningTimer.start := Some 5;
              Timesheet.RunningTimer.project_id := None;
              Timesheet.RunningTimer.task_id := None;
              Timesheet.RunningTimer.description := None |} 42).
  - vm_compute. reflexivity.
  - intros _. vm_compute. reflexivity.
  - reflexivity.
  - reflexivity.
  - reflexivity.
  - reflexivity.
  - right. reflexivity.
Defined.

(** * Further properties *)

(** ** The transport: [OdooClient] *)

Lemma handleResponse_thrown endpoint r e :
  Client.handleResponse endpoint r = Thrown e ->
  isApiError e \/ exists m, body r = NotJson m /\ ok r = true /\ e = Error m.
Proof.
  unfold Client.handleResponse, isApiError.
  destruct (ok r); cbn [negb].
  - destruct (body r) as [m | jr].
    + intros [= <-]. right. eauto.
    + destruct (rpc_error jr) as [err |].
      * intros [= <-]. left. right. eauto.
      * destruct (rpc_result jr) as [[| [|] | | | |] |]; try discriminate.
        destruct (JsString.includes endpoint "/web/session"); [| discriminate].
        intros [= <-]. left. now left.
  - destruct ((status r =? 401) || (status r =? 403)); intros [= <-]; left.
    + now left.
    + right. eauto.
Qed.

(** X1. Whatever the server does, [request] on a live client raises only
    its own two error classes: a [SessionExpiredError] with the default
    message, or an [OdooApiError]. *)
Theorem request_throws_own_errors
    (w : World) (this : nat) (endpoint : string) (params : JSON) (e : Exn) :
  (this < length (clients w))%nat ->
  (Client.request this endpoint params w).1 = Thrown e ->
  isApiError e.
Proof.
  intros Hlt. rewrite (request_outcome _ _ _ _ Hlt). unfold requestOutcome.
  destruct (answer (nextExchange w)) as [m | r].
  - intros [= <-]. right. simpl. eauto.
  - destruct (Client.handleResponse endpoint r) as [a | e' |] eqn:Er; try discriminate.
    intros [= <-]. destruct (handleResponse_thrown _ _ _ Er) as [H | (m & _ & _ & ->)].
    + destruct H as [-> | (m & c & d & ->)]; [now left | right; simpl; eauto].
    + right. simpl. eauto.
Qed.

(** X2. A connection failure, and an HTTP success whose body is not JSON,
    both surface as an [OdooApiError] without code whose message is
    "Network error: " followed by the message of the failure. *)
Theorem request_network_error
    (w : World) (this : nat) (endpoint : string) (params : JSON) (m : string) :
  (this < length (clients w))%nat ->
  answer (nextExchange w) = FetchFailed m \/
  (exists r, answer (nextExchange w) = Responded r /\ ok r = true /\ body r = NotJson m) ->
  (Client.request this endpoint params w).1 =
    Thrown (OdooApiError ("Network error: " +:+ m) None None).
Proof.
  intros Hlt H. rewrite (request_outcome _ _ _ _ Hlt). unfold requestOutcome.
  destruct H as [-> | (r & -> & Hok & Hbody)]; [reflexivity |].
  unfold Client.handleResponse. rewrite Hok, Hbody. reflexivity.
Qed.

(** The client object after a request that found it in state [c]. *)
Lemma request_eq this endpoint params w c :
  clients w !! this = Some c ->
  Client.request this endpoint params w =
    (requestOutcome endpoint (answer (nextExchange w)),
     afterRequest w
       {| req_url := OdooClient.baseUrl c +:+ endpoint;
          req_cookie := cookieHeaderOf c;
          req_body := Client.requestBody params (OdooClient.requestId c) |}
       (<[this := {| OdooClient.baseUrl := OdooClient.baseUrl c;
                     OdooClient.sessionId := OdooClient.sessionId c;
                     OdooClient.cookies :=
                       match answer (nextExchange w) with
                       | Responded r =>
                           Client.updateCookiesFromResponse (OdooClient.cookies c) r
                       | FetchFailed _ => OdooClient.cookies c
                       end;
                     OdooClient.requestId := OdooClient.requestId c + 1 |}]> (clients w))).
Proof.
  intros Hc. pose proof (lookup_lt_Some _ _ _ Hc) as Hlt.
  unfold Client.request, bind at 1. unfold readRef at 1. rewrite Hc.
  unfold bind at 1. unfold writeRef at 1.
  unfold tryCatch, bind at 1. unfold fetch at 1. cbn [sent server clients clock storage].
  unfold requestOutcome, afterRequest, nextExchange, cookieHeaderOf.
  destruct (answer (server w (length (sent w)))) as [m | response].
  - reflexivity.
  - unfold bind at 1. unfold readRef. cbn [clients].
    rewrite list_lookup_insert_eq by exact Hlt.
    unfold bind, writeRef, lift. cbn [sent server clients clock storage].
    rewrite list_insert_insert_eq.
    destruct (Client.handleResponse endpoint response); reflexivity.
Qed.

(** The whole effect of one request on the world. *)
Lemma request_effect this endpoint params w c :
  clients w !! this = Some c ->
  let w' := (Client.request this endpoint params w).2 in
  storage w' = storage w /\
  server w' = server w /\
  clock w' = clock w + Z.of_N (latency (nextExchange w)) /\
  sent w' = (sent w ++ [{| req_url := OdooClient.baseUrl c +:+ endpoint;
                           req_cookie := cookieHeaderOf c;
                           req_body := Client.requestBody params (OdooClient.requestId c) |}])%list /\
  exists c',
    clients w' = <[this := c']> (clients w) /\
    OdooClient.baseUrl c' = OdooClient.baseUrl c /\
    OdooClient.sessionId c' = OdooClient.sessionId c /\
    OdooClient.requestId c' = OdooClient.requestId c + 1.
Proof.
  intros Hc. cbv zeta. rewrite (request_eq _ _ _ _ _ Hc). cbn.
  repeat split. eexists. repeat split.
Qed.

(** X3. Request ids count up by one per request, answered or not: two
    requests in a row by the same client are two POSTs whose ids are the
    client's counter and its successor.  The store is not touched. *)
Theorem request_ids_consecutive
    (w : World) (this : nat) (c : OdooClient.t)
    (endpoint1 endpoint2 : string) (params1 params2 : JSON) :
  clients w !! this = Some c ->
  let w1 := (Client.request this endpoint1 params1 w).2 in
  let w2 := (Client.request this endpoint2 params2 w1).2 in
  exists r1 r2,
    sent w2 = (sent w ++ [r1; r2])%list /\
    req_url r1 = OdooClient.baseUrl c +:+ endpoint1 /\
    req_url r2 = OdooClient.baseUrl c +:+ endpoint2 /\
    Json.field "id" (req_body r1) = Some (JNum (OdooClient.requestId c)) /\
    Json.field "id" (req_body r2) = Some (JNum (OdooClient.requestId c + 1)) /\
    storage w2 = storage w.
Proof.
  intros Hc w1 w2.
  destruct (request_effect this endpoint1 params1 w c Hc)
    as (Hst1 & _ & _ & Hsent1 & c1 & Hcl1 & Hb1 & _ & Hid1).
  fold w1 in Hst1, Hsent1, Hcl1.
  assert (clients w1 !! this = Some c1) as Hc1.
  { rewrite Hcl1. apply list_lookup_insert_eq. now apply lookup_lt_Some in Hc. }
  destruct (request_effect this endpoint2 params2 w1 c1 Hc1)
    as (Hst2 & _ & _ & Hsent2 & _).
  fold w2 in Hst2, Hsent2.
  eexists _, _. split.
  { rewrite Hsent2, Hsent1, <- app_assoc. reflexivity. }
  cbn [req_url req_body]. rewrite Hb1, Hid1, Hst2, Hst1. repeat split; reflexivity.
Qed.

Lemma request_ids_consecutive_witness :
  Json.field "id" <$>
    (req_body <$>
       sent (Client.request 0 "/web/dataset/call_kw" (JObj [])
               (Client.request 0 "/web/database/list" (JObj []) (connected [])).2).2)
  = [Some (JNum 1); Some (JNum 2)].
Proof.
  destruct (request_ids_consecutive (connected []) 0%nat sampleClient
              "/web/database/list" "/web/dataset/call_kw" (JObj []) (JObj []) eq_refl)
    as (r1 & r2 & Hsent & _ & _ & Hid1 & Hid2 & _).
  rewrite Hsent. cbn [connected sent app fmap list_fmap]. now rewrite Hid1, Hid2.
Defined.

Lemma assoc_setField_eq k v fs : Json.assoc k (Json.setField k v fs) = Some v.
Proof.
  induction fs as [| [k' v'] fs IH]; simpl.
  - now rewrite String.eqb_refl.
  - destruct (String.eqb k k') eqn:E; simpl; [now rewrite String.eqb_refl |].
    now rewrite E.
Qed.

Lemma assoc_setField_ne k k' v fs :
  k' <> k -> Json.assoc k' (Json.setField k v fs) = Json.assoc k' fs.
Proof.
  intros Hne. induction fs as [| [k0 v0] fs IH]; simpl.
  - destruct (String.eqb_spec k' k); [contradiction | reflexivity].
  - destruct (String.eqb_spec k k0) as [<- | Hk]; simpl.
    + destruct (String.eqb_spec k' k); [contradiction | reflexivity].
    + destruct (String.eqb k' k0); [reflexivity | exact IH].
Qed.

(** X4. A model call is one POST to [/web/dataset/call_kw] whose [kwargs]
    always carry a [context]: the caller's when it is truthy, an empty
    object otherwise.  Every other keyword argument is passed on as
    given. *)
Theorem callKw_context
    (w : World) (this : nat) (c : OdooClient.t) (model method : string)
    (args : list JSON) (kwargs : list (string * JSON)) :
  clients w !! this = Some c ->
  exists r sentKwargs context,
    sent (Client.callKw this model method args kwargs w).2 = (sent w ++ [r])%list /\
    req_url r = OdooClient.baseUrl c +:+ "/web/dataset/call_kw" /\
    Json.field "params" (req_body r) =
      Some (JObj [("model", JStr model); ("method", JStr method);
                  ("args", JArr args); ("kwargs", JObj sentKwargs)]) /\
    Json.assoc "context" sentKwargs = Some context /\
    Json.truthy context = true /\
    (forall given, Json.assoc "context" kwargs = Some given ->
                   Json.truthy given = true -> context = given) /\
    (Json.truthyOpt (Json.assoc "context" kwargs) = false -> context = JObj []) /\
    (forall k, k <> "context" -> Json.assoc k sentKwargs = Json.assoc k kwargs).
Proof.
  intros Hc. unfold Client.callKw.
  match goal with |- context [Client.request this ?ep ?ps w] =>
    destruct (request_effect this ep ps w c Hc) as (_ & _ & _ & Hsent & _) end.
  rewrite Hsent. eexists _, _, _. split; [reflexivity |].
  cbn [req_url req_body]. split; [reflexivity |]. split; [reflexivity |].
  split; [apply assoc_setField_eq |].
  repeat split.
  - destruct (Json.assoc "context" kwargs) as [g |]; [| reflexivity].
    destruct (Json.truthy g) eqn:Eg; [exact Eg | reflexivity].
  - intros given -> ->. reflexivity.
  - unfold Json.truthyOpt. destruct (Json.assoc "context" kwargs) as [g |]; [| reflexivity].
    now intros ->.
  - intros k Hk. now apply assoc_setField_ne.
Qed.

Lemma callKw_context_witness :
  exists r sentKwargs,
    sent (Client.callKw 0 "project.task" "name_create" [JStr "Review"]
            [("context", JObj [("default_project_id", JNum 3)])] (connected [])).2 = [r] /\
    Json.field "params" (req_body r) =
      Some (JObj [("model", JStr "project.task"); ("method", JStr "name_create");
                  ("args", JArr [JStr "Review"]); ("kwargs", JObj sentKwargs)]) /\
    Json.assoc "context" sentKwargs = Some (JObj [("default_project_id", JNum 3)]).
Proof.
  destruct (callKw_context (connected []) 0%nat sampleClient "project.task" "name_create"
              [JStr "Review"] [("context", JObj [("default_project_id", JNum 3)])] eq_refl)
    as (r & kw & ctx & Hsent & _ & Hparams & Hctx & _ & Hgiven & _).
  exists r, kw. split; [exact Hsent |]. split; [exact Hparams |].
  rewrite Hctx. f_equal. now apply Hgiven.
Defined.

Lemma request_throws_own_errors_witness :
  isApiError (OdooApiError "HTTP 404: Not Found" (Some 404) None).
Proof.
  apply (request_throws_own_errors (connected [http 0 404 "Not Found" (NotJson "-")])
           0%nat "/web/database/list" (JObj [])).
  - simpl. lia.
  - reflexivity.
Defined.

Lemma request_network_error_witness :
  (Client.request 0 "/web/database/list" (JObj [])
     (connected [http 0 200 "OK" (NotJson "Unexpected token < in JSON at position 0")])).1 =
  Thrown (OdooApiError "Network error: Unexpected token < in JSON at position 0" None None).
Proof.
  apply (request_network_error
           (connected [http 0 200 "OK" (NotJson "Unexpected token < in JSON at position 0")])
           0%nat "/web/database/list" (JObj []) "Unexpected token < in JSON at position 0").
  - simpl. lia.
  - right. eexists. repeat split.
Defined.

(** ** The cookie jar *)

Lemma upTo_not_elem d s : d ∉ Client.upTo d s.
Proof.
  induction s as [| c s IH]; simpl; [apply not_elem_of_nil |].
  unfold Client.isC. destruct (Ascii.eqb_spec c d) as [-> | Hne];
    [apply not_elem_of_nil |].
  rewrite not_elem_of_cons. split; [congruence | exact IH].
Qed.

Lemma upTo_split d s :
  d ∈ s -> exists rest, s = (Client.upTo d s ++ d :: rest)%list.
Proof.
  induction s as [| c s IH]; [intros H; now apply elem_of_nil in H |].
  intros H. simpl. unfold Client.isC. destruct (Ascii.eqb_spec c d) as [-> | Hne].
  - now exists s.
  - apply elem_of_cons in H as [-> | H]; [contradiction |].
    destruct (IH H) as [rest Hr]. exists rest. simpl. now rewrite <- Hr.
Qed.

(** A pair with a value carries its name in front of [=]. *)
Lemma named_iff name c :
  "="%char ∈ JsString.chars c ->
  "="%char ∉ name ->
  JsString.startsWithL (name ++ ["="%char]) (JsString.chars c) = true <->
  cookieName c = name.
Proof.
  intros Hc Hname. rewrite startsWithL_spec. unfold cookieName. split.
  - intros [rest ->]. clear Hc. induction name as [| a name IH]; simpl.
    + reflexivity.
    + apply not_elem_of_cons in Hname as [Ha Hname].
      unfold Client.isC. destruct (Ascii.eqb_spec a "="%char); [congruence |].
      f_equal. now apply IH.
  - intros <-. destruct (upTo_split _ _ Hc) as [rest Hr]. exists rest.
    now rewrite <- app_assoc.
Qed.

Lemma filter_other_names name jar :
  "="%char ∉ name ->
  Forall (fun c => "="%char ∈ JsString.chars c) jar ->
  NoDup (cookieName <$> jar) ->
  let kept := filter (fun c => negb (JsString.startsWithL (name ++ ["="%char])
                                       (JsString.chars c))) jar in
  Forall (fun c => "="%char ∈ JsString.chars c) kept /\
  NoDup (cookieName <$> kept) /\
  (name ∉ (cookieName <$> kept)) /\
  (forall n, n ∈ (cookieName <$> kept) -> n ∈ (cookieName <$> jar)).
Proof.
  intros Hname. induction jar as [| c jar IH]; intros Hall Hnd; cbn zeta.
  - repeat split; try constructor; auto. apply not_elem_of_nil.
  - apply Forall_cons in Hall as [Hc Hall]. rewrite fmap_cons in Hnd.
    apply NoDup_cons in Hnd as [Hnotin Hnd].
    destruct (IH Hall Hnd) as (IH1 & IH2 & IH3 & IH4).
    rewrite filter_cons. destruct (decide _) as [Hkeep | Hdrop].
    + apply Is_true_true, negb_true_iff in Hkeep.
      assert (cookieName c <> name) as Hcn.
      { intros Heq. apply (named_iff name c Hc Hname) in Heq. congruence. }
      rewrite fmap_cons. repeat split.
      * now constructor.
      * apply NoDup_cons. split; [| exact IH2]. intros Hin. apply Hnotin, IH4, Hin.
      * rewrite not_elem_of_cons. split; [congruence | exact IH3].
      * intros n Hn. apply elem_of_cons in Hn as [-> | Hn].
        -- rewrite fmap_cons. apply list_elem_of_here.
        -- rewrite fmap_cons. apply list_elem_of_further, IH4, Hn.
    + repeat split; auto. intros n Hn. rewrite fmap_cons.
      apply list_elem_of_further, IH4, Hn.
Qed.

Lemma updateCookie_ok jar cookieHeader :
  cookieJarOk jar -> pieceOk cookieHeader ->
  cookieJarOk (Client.updateCookie jar cookieHeader).
Proof.
  intros [Hall Hnd] Hpiece. unfold Client.updateCookie.
  fold (cookiePair cookieHeader). cbv zeta.
  destruct (Client.upTo "=" (cookiePair cookieHeader)) as [| a name'] eqn:En;
    [now split |].
  destruct Hpiece as [Hp | Hp]; [congruence |].
  assert ("="%char ∉ a :: name') as Hname by (rewrite <- En; apply upTo_not_elem).
  destruct (filter_other_names _ jar Hname Hall Hnd) as (H1 & H2 & H3 & _).
  split.
  - apply Forall_app. split; [exact H1 |]. constructor; [| constructor].
    now rewrite chars_ofChars.
  - rewrite fmap_app. apply NoDup_app. split; [exact H2 |]. split.
    + intros n Hn Hin. cbn in Hin. apply list_elem_of_singleton in Hin. subst n.
      unfold cookieName in Hn at 1. rewrite chars_ofChars, En in Hn.
      now apply H3.
    + cbn. apply NoDup_singleton.
Qed.

(** X5. [updateCookiesFromResponse] keeps the cookie jar well formed: if
    the jar holds [name=value] pairs with distinct names, and every cookie
    of the [Set-Cookie] header has a value (or no name at all, in which
    case it is skipped), then so does the jar afterwards. *)
Theorem updateCookiesFromResponse_names_unique
    (jar : list string) (response : Response) :
  cookieJarOk jar ->
  (forall h, setCookie response = Some h ->
             Forall pieceOk (Client.splitSetCookie [] (JsString.chars h))) ->
  cookieJarOk (Client.updateCookiesFromResponse jar response).
Proof.
  intros Hjar Hpieces. unfold Client.updateCookiesFromResponse.
  destruct (setCookie response) as [h |]; [| exact Hjar].
  destruct (JsString.truthy h); [| exact Hjar].
  specialize (Hpieces h eq_refl). revert jar Hjar.
  induction Hpieces as [| piece pieces Hp _ IH]; intros jar Hjar; simpl.
  - exact Hjar.
  - apply IH. now apply updateCookie_ok.
Qed.

Lemma upTo_id d s : d ∉ s -> Client.upTo d s = s.
Proof.
  induction s as [| c s IH]; [reflexivity |]. intros H.
  apply not_elem_of_cons in H as [Hd Hs]. simpl. unfold Client.isC.
  destruct (Ascii.eqb_spec c d); [congruence |]. f_equal. now apply IH.
Qed.

Lemma startsWithL_longer p s :
  (length s < length p)%nat -> JsString.startsWithL p s = false.
Proof.
  intros Hlen. destruct (JsString.startsWithL p s) eqn:E; [| reflexivity].
  apply startsWithL_spec in E as [rest ->]. rewrite length_app in Hlen. lia.
Qed.

(** X6. A cookie without a value is never replaced: each response that
    sets the bare cookie [flag] appends one more copy to the jar, and the
    copies already there stay. *)
Theorem updateCookie_valueless_accumulates
    (jar : list string) (cookieHeader : list ascii) :
  let pair := cookiePair cookieHeader in
  pair <> [] ->
  "="%char ∉ pair ->
  length (filter (fun c => c = JsString.ofChars pair)
                 (Client.updateCookie jar cookieHeader)) =
  S (length (filter (fun c => c = JsString.ofChars pair) jar)).
Proof.
  intros pair Hne Hno. unfold Client.updateCookie. fold (cookiePair cookieHeader).
  fold pair. cbv zeta. rewrite (upTo_id _ _ Hno).
  destruct pair as [| a pair'] eqn:Ep; [congruence |]. rewrite <- Ep in *.
  rewrite filter_app, length_app.
  rewrite (filter_cons_True _ (JsString.ofChars pair) []) by reflexivity.
  rewrite filter_nil. cbn [length]. rewrite Nat.add_1_r. f_equal.
  induction jar as [| c jar IH]; [reflexivity |].
  rewrite (filter_cons (fun c => Is_true _)).
  rewrite (filter_cons (fun c => c = _) c jar).
  destruct (decide (c = JsString.ofChars pair)) as [-> | Hc].
  - rewrite chars_ofChars, startsWithL_longer by (rewrite length_app; simpl; lia).
    cbn [negb]. destruct (decide (Is_true true)) as [_ | H]; [| now destruct H].
    rewrite filter_cons_True by reflexivity. cbn [length]. now rewrite IH.
  - destruct (decide _); [| exact IH].
    rewrite filter_cons_False by exact Hc. exact IH.
Qed.

Lemma updateCookie_valueless_accumulates_witness :
  Client.updateCookie ["flag"; "tz=UTC"] (JsString.chars "flag; Path=/") =
    ["flag"; "tz=UTC"; "flag"] /\
  length (filter (fun c => c = "flag")
                 (Client.updateCookie ["flag"; "tz=UTC"] (JsString.chars "flag; Path=/")))
  = 2%nat.
Proof.
  split; [reflexivity |].
  apply (updateCookie_valueless_accumulates ["flag"; "tz=UTC"]
           (JsString.chars "flag; Path=/")).
  - discriminate.
  - intros H. repeat (apply elem_of_cons in H as [H | H]; [discriminate |]).
    now apply elem_of_nil in H.
Defined.

Lemma updateCookiesFromResponse_names_unique_witness :
  cookieJarOk
    (Client.updateCookiesFromResponse ["session_id=abc"; "tz=UTC"]
       {| status := 200; statusText := "OK";
          setCookie := Some "session_id=def; Path=/, lang=en_US; Path=/";
          body := NotJson "-" |}).
Proof.
  apply updateCookiesFromResponse_names_unique.
  - split.
    + repeat constructor; cbn;
        repeat first [apply list_elem_of_here | apply list_elem_of_further].
    + cbn. repeat constructor; cbn; intros H;
        repeat (apply elem_of_cons in H as [H | H]; [discriminate |]);
        now apply elem_of_nil in H.
  - intros h [= <-]. cbn. repeat constructor; right; cbn;
      repeat first [apply list_elem_of_here | apply list_elem_of_further].
Defined.

(** ** How a run that returned, or threw, came about *)

Section Inversion.

Context {A B : Type}.

Lemma bind_returned (m : M A) (k : A -> M B) w b w' :
  bind m k w = (Returned b, w') ->
  exists a w1, m w = (Returned a, w1) /\ k a w1 = (Returned b, w').
Proof.
  unfold bind. destruct (m w) as [[a | e |] w1]; try discriminate. eauto.
Qed.

Lemma bind_thrown (m : M A) (k : A -> M B) w e w' :
  bind m k w = (Thrown e, w') ->
  m w = (Thrown e, w') \/
  exists a w1, m w = (Returned a, w1) /\ k a w1 = (Thrown e, w').
Proof.
  unfold bind. destruct (m w) as [[a | e0 |] w1]; intros H.
  - right. eauto.
  - injection H as -> ->. now left.
  - discriminate.
Qed.

Lemma tryCatch_returned (m : M A) (h : Exn -> M A) w a w' :
  tryCatch m h w = (Returned a, w') ->
  m w = (Returned a, w') \/
  exists e w1, m w = (Thrown e, w1) /\ h e w1 = (Returned a, w').
Proof.
  unfold tryCatch. destruct (m w) as [[a0 | e0 |] w1]; intros H.
  - now left.
  - right. eauto.
  - discriminate.
Qed.

Lemma tryCatch_thrown (m : M A) (h : Exn -> M A) w e w' :
  tryCatch m h w = (Thrown e, w') ->
  exists e0 w1, m w = (Thrown e0, w1) /\ h e0 w1 = (Thrown e, w').
Proof.
  unfold tryCatch. destruct (m w) as [[a0 | e0 |] w1]; intros H.
  - discriminate.
  - eauto.
  - discriminate.
Qed.

Lemma cast_returned (v : option A) w a w' :
  cast v w = (Returned a, w') -> v = Some a /\ w' = w.
Proof. destruct v; simpl; [| discriminate]. now intros [= -> ->]. Qed.

Lemma cast_thrown (v : option A) w e w' : cast v w = (Thrown e, w') -> False.
Proof. destruct v; discriminate. Qed.

(** A handler that answers with a value swallows every error. *)
Lemma tryCatch_ret_thrown (m : M A) (d : Exn -> A) w e w' :
  tryCatch m (fun x => ret (d x)) w = (Thrown e, w') -> False.
Proof.
  intros H. apply tryCatch_thrown in H as (e0 & w1 & _ & H). discriminate.
Qed.

End Inversion.

(** [handleResponse] answers or throws. *)
Lemma requestOutcome_not_stuck endpoint a : requestOutcome endpoint a <> Stuck.
Proof.
  unfold requestOutcome. destruct a as [m | r]; [discriminate |].
  unfold Client.handleResponse.
  destruct (ok r); cbn [negb].
  - destruct (body r) as [m | jr]; [discriminate |].
    destruct (rpc_error jr); [discriminate |].
    destruct (rpc_result jr) as [[| [|] | | | |] |]; try discriminate.
    destruct (JsString.includes endpoint "/web/session"); discriminate.
  - destruct ((status r =? 401) || (status r =? 403)); discriminate.
Qed.

Lemma requestOutcome_thrown endpoint a e :
  requestOutcome endpoint a = Thrown e -> isApiError e.
Proof.
  unfold requestOutcome. destruct a as [m | r].
  - intros [= <-]. right. simpl. eauto.
  - destruct (Client.handleResponse endpoint r) as [x | e' |] eqn:Er; try discriminate.
    intros [= <-]. destruct (handleResponse_thrown _ _ _ Er) as [H | (m & _ & _ & ->)].
    + destruct H as [-> | (m & c & d & ->)]; [now left | right; simpl; eauto].
    + right. simpl. eauto.
Qed.

(** ** More operations that keep invariants of the store and the requests *)

Section MorePrimitives.

Variable I : World -> Prop.
Hypothesis I_stable : Stable I.

Lemma holds_constructor baseUrl sessionId cookies :
  holds I (Client.constructor baseUrl sessionId cookies) (fun _ => True).
Proof. apply holds_newRef, I_stable. Qed.

Lemma holds_getCookies this : holds I (Client.getCookies this) (fun _ => True).
Proof.
  unfold Client.getCookies.
  eapply holds_bind; [apply holds_readRef | intros c _]. now apply holds_ret.
Qed.

Lemma holds_setSession this sid cs :
  holds I (Client.setSession this sid cs) (fun _ => True).
Proof.
  unfold Client.setSession.
  eapply holds_bind; [apply holds_readRef | intros c _].
  now apply holds_writeRef.
Qed.

Lemma holds_fetchDatabaseList url :
  holds I (Auth.fetchDatabaseList url) (fun _ => True).
Proof.
  unfold Auth.fetchDatabaseList.
  eapply holds_bind; [apply holds_constructor | intros client _].
  apply holds_tryCatch; [| intros e; now apply holds_ret].
  eapply holds_bind; [now apply holds_request | intros r _].
  eapply holds_weaken; [apply holds_cast | auto].
Qed.

Lemma holds_extractDatabaseName URL_hostname url :
  holds I (Auth.extractDatabaseName URL_hostname url) (fun _ => True).
Proof.
  unfold Auth.extractDatabaseName.
  apply holds_tryCatch; [| intros e; now apply holds_ret].
  eapply holds_bind with (Q1 := fun _ => True).
  { destruct (URL_hostname url); [now apply holds_ret | apply holds_throw]. }
  intros hostname _.
  destruct (JsString.endsWith hostname ".odoo.com").
  - eapply holds_bind; [apply holds_fetchDatabaseList | intros dbs _].
    destruct dbs as [| db0 [| db1 dbs]]; try now apply holds_ret.
    destruct (find _ _) as [m |]; [| now apply holds_ret].
    destruct (JsString.truthy m); now apply holds_ret.
  - eapply holds_bind; [apply holds_fetchDatabaseList | intros dbs _].
    destruct dbs as [| db0 [| db1 dbs]]; now apply holds_ret.
Qed.

End MorePrimitives.

Lemma request_storage this endpoint params w :
  storage (Client.request this endpoint params w).2 = storage w.
Proof. apply storage_frame. intros I HI. now apply holds_request. Qed.

Lemma extractDatabaseName_storage URL_hostname url w :
  storage (Auth.extractDatabaseName URL_hostname url w).2 = storage w.
Proof. apply storage_frame. intros I HI. now apply holds_extractDatabaseName. Qed.

Lemma extractDatabaseName_thrown URL_hostname url w e w' :
  Auth.extractDatabaseName URL_hostname url w = (Thrown e, w') -> False.
Proof. unfold Auth.extractDatabaseName. apply tryCatch_ret_thrown with (d := fun _ => EmptyString). Qed.

Lemma fetchDatabaseList_world url w :
  (forall e, (Auth.fetchDatabaseList url w).1 <> Thrown e) /\
  exists cs, (Auth.fetchDatabaseList url w).2 = afterRequest w (databaseListRequest url) cs.
Proof.
  destruct (Auth.fetchDatabaseList url w) as [o wf] eqn:E. cbn [fst snd].
  unfold Auth.fetchDatabaseList in E. unfold bind at 1 in E.
  unfold Client.constructor at 1, newRef at 1 in E. cbv beta iota in E.
  unfold tryCatch, bind at 1 in E.
  match type of E with context [Client.request ?this ?ep ?ps ?w1] =>
    pose proof (request_eq this ep ps w1) as Hreq end.
  cbn [clients] in Hreq.
  specialize (Hreq _ (list_lookup_middle _ [] _ _ eq_refl)).
  rewrite Hreq in E. clear Hreq.
  match type of E with context [requestOutcome ?ep ?a] =>
    destruct (requestOutcome ep a) as [r | e |] end.
  - destruct (Auth.viewDatabases r); cbn in E; injection E as <- <-;
      (split; [discriminate | eexists; reflexivity]).
  - cbn in E. injection E as <- <-. split; [discriminate | eexists; reflexivity].
  - injection E as <- <-. split; [discriminate | eexists; reflexivity].
Qed.

(** The world after [extractDatabaseName]: untouched for a URL that the
    parser rejects, and otherwise one request further, the listing. *)
Lemma extractDatabaseName_world URL_hostname url w :
  match URL_hostname url with
  | None => Auth.extractDatabaseName URL_hostname url w = (Returned EmptyString, w)
  | Some _ =>
      exists cs, (Auth.extractDatabaseName URL_hostname url w).2 =
                 afterRequest w (databaseListRequest url) cs
  end.
Proof.
  unfold Auth.extractDatabaseName, tryCatch, bind at 1.
  destruct (URL_hostname url) as [hostname |]; [| reflexivity].
  cbn [ret]. destruct (fetchDatabaseList_world url w) as [Hnt [cs Hw]].
  exists cs. rewrite <- Hw.
  destruct (JsString.endsWith hostname ".odoo.com"); unfold bind;
    destruct (Auth.fetchDatabaseList url w) as [[dbs | e |] w']; cbn [snd];
    try reflexivity; try (now exfalso; apply (Hnt e)).
  + destruct dbs as [| db0 [| db1 dbs]]; try reflexivity.
    destruct (find _ _) as [m |]; [destruct (JsString.truthy m) |]; reflexivity.
  + destruct dbs as [| db0 [| db1 dbs]]; reflexivity.
Qed.

(** ** Sessions *)

Lemma mapM_asStr names : mapM Json.asStr (JStr <$> names) = Some names.
Proof.
  induction names as [| n names IH]; [reflexivity |].
  cbn. cbn in IH. now rewrite IH.
Qed.

Lemma viewSessionInfo_encode s : Auth.viewSessionInfo (Auth.encodeSession s) = Some s.
Proof.
  destruct s as [sid url uid cid eid ename uname [cs |]]; [| reflexivity].
  unfold Auth.viewSessionInfo, Auth.encodeSession.
  cbn [sessionId baseUrl userId companyId employeeId employeeName username cookies
       app Json.req Json.opt Json.field Json.assoc String.eqb Ascii.eqb Bool.eqb
       mbind option_bind Json.asStr Json.asNum Json.asArray fmap option_fmap option_map].
  now rewrite mapM_asStr.
Qed.

Lemma getSession_saved s w' :
  storage w' !! Auth.STORAGE_KEYS.SESSION = Some (Parsed (Auth.encodeSession s)) ->
  Auth.getSession w' = (Returned (Some s), w').
Proof.
  intros H. unfold Auth.getSession, bind at 1. unfold getItem. rewrite H.
  cbn [storedFalsy]. unfold Auth.encodeSession at 1. fold (Auth.encodeSession s).
  unfold bind. rewrite viewSessionInfo_encode. reflexivity.
Qed.

(** X7. A saved session is read back as it was saved, whatever the store
    held before; from then on a session is active, and an authenticated
    client is a fresh object on the session's base URL (less one trailing
    slash) that carries the session's cookies, or the [session_id] cookie
    when the session has none, and starts counting requests at 1. *)
Theorem saveSession_then_getSession (s : SessionInfo) (w : World) :
  let w' := (Auth.saveSession s w).2 in
  Auth.getSession w' = (Returned (Some s), w') /\
  Auth.hasActiveSession w' = (Returned true, w') /\
  Auth.getAuthenticatedClient w' =
    (Returned (length (clients w)),
     withClients w'
       (clients w ++
        [{| OdooClient.baseUrl := Client.stripTrailingSlash (baseUrl s);
            OdooClient.sessionId := Some (sessionId s);
            OdooClient.cookies :=
              match default [] (cookies s) with
              | [] => if JsString.truthy (sessionId s)
                      then ["session_id=" +:+ sessionId s] else []
              | cs => cs
              end;
            OdooClient.requestId := 1 |}])).
Proof.
  intros w'.
  assert (Auth.getSession w' = (Returned (Some s), w')) as Hget.
  { apply getSession_saved. unfold w', Auth.saveSession, setItem. cbn.
    apply lookup_insert_eq. }
  split; [exact Hget |]. split.
  - unfold Auth.hasActiveSession, bind. now rewrite Hget.
  - unfold Auth.getAuthenticatedClient, bind. rewrite Hget.
    unfold Client.constructor, newRef, withClients, Client.sessionCookie. cbn.
    destruct (default [] (cookies s)); reflexivity.
Qed.

(** ** Without a session *)


Lemma getSession_eq w o : (Auth.getSession w).1 = Returned o -> Auth.getSession w = (Returned o, w).
Proof.
  intros H. pose proof (getSession_world w) as Hw.
  destruct (Auth.getSession w) as [o' w']. simpl in *. congruence.
Qed.

Lemma getAuthenticatedClient_none w :
  (Auth.getSession w).1 = Returned None ->
  Auth.getAuthenticatedClient w = (Thrown noSession, w).
Proof.
  intros H. unfold Auth.getAuthenticatedClient, bind.
  now rewrite (getSession_eq _ _ H).
Qed.

(** X8. Without a stored session no operation contacts the server: each
    one raises [SessionExpiredError] with the message "No active session
    found" and leaves the world as it is.  For the two cached readings
    this is the behaviour when the cache is not consulted. *)
Theorem operations_need_session (w : World) :
  (Auth.getSession w).1 = Returned None ->
  Timesheet.startTimer w = (Thrown noSession, w) /\
  (forall p t d, Timesheet.startTimerWithDetails p t d w = (Thrown noSession, w)) /\
  (forall id p t d, Timesheet.updateTimer id p t d w = (Thrown noSession, w)) /\
  (forall id p t d, Timesheet.assignTimerDetails id p t d w = (Thrown noSession, w)) /\
  (forall id, Timesheet.stopTimer id w = (Thrown noSession, w)) /\
  (forall id, Timesheet.cancelTimer id w = (Thrown noSession, w)) /\
  (forall q, Timesheet.getProjects q w = (Thrown noSession, w)) /\
  (forall p q, Timesheet.getTasks p q w = (Thrown noSession, w)) /\
  (forall p n, Timesheet.createTask p n w = (Thrown noSession, w)) /\
  Timesheet.getServerTime w = (Thrown noSession, w) /\
  Timesheet.getRunningTimer false w = (Thrown noSession, w) /\
  Attendance.getAttendanceStatus false w = (Thrown noSession, w) /\
  Attendance.toggleCheckInOut w = (Thrown noSession, w).
Proof.
  intros H. pose proof (getAuthenticatedClient_none w H) as Hc.
  repeat split; intros;
    unfold Timesheet.startTimer, Timesheet.startTimerWithDetails, Timesheet.updateTimer,
      Timesheet.assignTimerDetails, Timesheet.stopTimer, Timesheet.cancelTimer,
      Timesheet.getProjects, Timesheet.getTasks, Timesheet.createTask,
      Timesheet.getServerTime, Timesheet.getRunningTimer,
      Attendance.getAttendanceStatus, Attendance.toggleCheckInOut;
    try (unfold bind at 1; unfold ret at 1; cbv iota beta);
    unfold bind at 1; now rewrite Hc.
Qed.

Lemma operations_need_session_witness :
  Timesheet.startTimer (connected []) = (Thrown noSession, connected []) /\
  Attendance.toggleCheckInOut (connected []) = (Thrown noSession, connected []).
Proof.
  destruct (operations_need_session (connected []) eq_refl)
    as (H1 & _ & _ & _ & _ & _ & _ & _ & _ & _ & _ & _ & H2).
  split; assumption.
Defined.

(** ** [logout] *)

Lemma clearSession_eq w :
  Auth.clearSession w =
    (Returned tt,
     {| storage :=
          delete Auth.STORAGE_KEYS.TIMER_CACHE
            (delete Auth.STORAGE_KEYS.ATTENDANCE_CACHE
               (delete Auth.STORAGE_KEYS.USER_INFO
                  (delete Auth.STORAGE_KEYS.SESSION (storage w))));
        clock := clock w; server := server w; sent := sent w; clients := clients w |}).
Proof. reflexivity. Qed.

(** X9. [logout] never fails on account of the server.  Given a store
    whose session entry is absent or well typed, it returns, and it has
    removed the session, the user info and both caches from the store.
    With a stored session it has sent exactly one request, to the
    session's [/web/session/destroy]; without one it has sent none. *)
Theorem logout_clears_store (w : World) (stored : option SessionInfo) :
  (Auth.getSession w).1 = Returned stored ->
  let w' := (Auth.logout w).2 in
  (Auth.logout w).1 = Returned tt /\
  storage w' =
    delete Auth.STORAGE_KEYS.TIMER_CACHE
      (delete Auth.STORAGE_KEYS.ATTENDANCE_CACHE
         (delete Auth.STORAGE_KEYS.USER_INFO
            (delete Auth.STORAGE_KEYS.SESSION (storage w)))) /\
  match stored with
  | Some s =>
      exists r,
        sent w' = (sent w ++ [r])%list /\
        req_url r = Client.stripTrailingSlash (baseUrl s) +:+ "/web/session/destroy"
  | None => sent w' = sent w
  end.
Proof.
  intros Hget. apply getSession_eq in Hget. cbv zeta.
  destruct (Auth.logout w) as [o wf] eqn:E. cbn [fst snd].
  unfold Auth.logout in E. unfold bind at 1 in E. rewrite Hget in E.
  destruct stored as [s |].
  - unfold bind at 1 in E. unfold tryCatch at 1 in E. unfold bind at 1 in E.
    unfold Client.constructor at 1, newRef at 1 in E. cbv beta iota in E.
    unfold bind at 1 in E.
    match type of E with context [Client.request ?this ?ep ?ps ?w1] =>
      pose proof (request_eq this ep ps w1) as Hreq end.
    cbn [clients] in Hreq.
    specialize (Hreq _ (list_lookup_middle _ [] _ _ eq_refl)).
    rewrite Hreq in E.
    match type of E with context [requestOutcome ?ep ?a] =>
      pose proof (requestOutcome_not_stuck ep a) as Hns;
      destruct (requestOutcome ep a) as [x | e |] end; [| | congruence].
    + cbn [ret] in E. rewrite clearSession_eq in E. injection E as <- <-.
      cbn. repeat split. eexists. split; reflexivity.
    + cbn [ret] in E. rewrite clearSession_eq in E. injection E as <- <-.
      cbn. repeat split. eexists. split; reflexivity.
  - unfold bind, ret in E. rewrite clearSession_eq in E. injection E as <- <-.
    cbn. repeat split.
Qed.

Lemma logout_clears_store_witness :
  let w := loggedIn 1700000000000 [] in
  (Auth.logout w).1 = Returned tt /\
  storage (Auth.logout w).2 !! Auth.STORAGE_KEYS.SESSION = None /\
  req_url <$> sent (Auth.logout w).2 = ["https://acme.odoo.com/web/session/destroy"].
Proof.
  destruct (logout_clears_store (loggedIn 1700000000000 []) (Some sampleSession) eq_refl)
    as (Hret & Hst & r & Hsent & Hurl).
  cbv zeta. split; [exact Hret |]. split.
  - rewrite Hst. reflexivity.
  - rewrite Hsent, fmap_app. cbn. now rewrite Hurl.
Defined.

Lemma logout_returned w :
  (Auth.logout w).1 = Returned tt ->
  exists w1,
    storage (Auth.logout w).2 =
      delete Auth.STORAGE_KEYS.TIMER_CACHE
        (delete Auth.STORAGE_KEYS.ATTENDANCE_CACHE
           (delete Auth.STORAGE_KEYS.USER_INFO
              (delete Auth.STORAGE_KEYS.SESSION (storage w1)))).
Proof.
  destruct (Auth.logout w) as [o wf] eqn:E. cbn [fst snd]. intros ->.
  unfold Auth.logout in E.
  apply bind_returned in E as (stored & w1 & _ & E).
  apply bind_returned in E as (u & w2 & _ & E).
  rewrite clearSession_eq in E. injection E as <-. now exists w2.
Qed.

Lemma getCachedAttendanceState_miss w :
  storage w !! Attendance.ATTENDANCE_CACHE_KEY = None ->
  Attendance.getCachedAttendanceState w = (Returned None, w).
Proof.
  intros H. unfold Attendance.getCachedAttendanceState, bind, getItem. now rewrite H.
Qed.

(** X10. Once [logout] has returned, nothing is served from the caches
    any more: no session is active, and every reading, cached or not,
    raises [SessionExpiredError] with the message "No active session
    found" without contacting the server. *)
Theorem logout_then_readings_fail (w : World) :
  (Auth.logout w).1 = Returned tt ->
  let w' := (Auth.logout w).2 in
  Auth.hasActiveSession w' = (Returned false, w') /\
  (forall useCache, Timesheet.getRunningTimer useCache w' = (Thrown noSession, w')) /\
  (forall useCache, Timesheet.getTimerState useCache w' = (Thrown noSession, w')) /\
  Timesheet.hasActiveTimer w' = (Thrown noSession, w') /\
  (forall useCache, Attendance.getAttendanceStatus useCache w' = (Thrown noSession, w')) /\
  Attendance.isCheckedIn w' = (Thrown noSession, w') /\
  Attendance.getHoursToday w' = (Thrown noSession, w').
Proof.
  intros Hret w'. destruct (logout_returned w Hret) as [w1 Hst]. fold w' in Hst.
  assert (storage w' !! Auth.STORAGE_KEYS.SESSION = None) as Hs.
  { rewrite Hst. now rewrite !lookup_delete_ne, lookup_delete_eq by discriminate. }
  assert (storage w' !! Timesheet.TIMER_CACHE_KEY = None) as Ht.
  { rewrite Hst. apply lookup_delete_eq. }
  assert (storage w' !! Attendance.ATTENDANCE_CACHE_KEY = None) as Ha.
  { rewrite Hst. now rewrite lookup_delete_ne, lookup_delete_eq by discriminate. }
  assert (Auth.getSession w' = (Returned None, w')) as Hget.
  { unfold Auth.getSession, bind, getItem. now rewrite Hs. }
  assert (Auth.getAuthenticatedClient w' = (Thrown noSession, w')) as Hc.
  { apply getAuthenticatedClient_none. now rewrite Hget. }
  assert (forall useCache, Timesheet.getRunningTimer useCache w' = (Thrown noSession, w'))
    as Hrun.
  { intros useCache. unfold Timesheet.getRunningTimer. unfold bind at 1.
    destruct useCache; [rewrite (getCachedTimerState_miss _ Ht) | unfold ret at 1];
      cbv iota beta; unfold bind at 1; now rewrite Hc. }
  assert (forall useCache, Attendance.getAttendanceStatus useCache w' = (Thrown noSession, w'))
    as Hatt.
  { intros useCache. unfold Attendance.getAttendanceStatus. unfold bind at 1.
    destruct useCache; [rewrite (getCachedAttendanceState_miss _ Ha) | unfold ret at 1];
      cbv iota beta; unfold bind at 1; now rewrite Hc. }
  repeat split.
  - unfold Auth.hasActiveSession, bind. now rewrite Hget.
  - exact Hrun.
  - exact Hrun.
  - unfold Timesheet.hasActiveTimer, Timesheet.getTimerState, bind. now rewrite Hrun.
  - exact Hatt.
  - unfold Attendance.isCheckedIn, bind. now rewrite Hatt.
  - unfold Attendance.getHoursToday, bind. now rewrite Hatt.
Qed.

Lemma logout_then_readings_fail_witness :
  (Timesheet.getRunningTimer true running).1 <> Thrown noSession /\
  Timesheet.getRunningTimer true (Auth.logout running).2 =
    (Thrown noSession, (Auth.logout running).2).
Proof.
  split; [vm_compute; discriminate |].
  assert ((Auth.logout running).1 = Returned tt) as H by (vm_compute; reflexivity).
  exact (proj1 (proj2 (logout_then_readings_fail running H)) true).
Defined.

(** ** [login] *)

Lemma getCookies_thrown this w e w' : Client.getCookies this w = (Thrown e, w') -> False.
Proof.
  unfold Client.getCookies, bind, readRef. destruct (clients w !! this); discriminate.
Qed.

Lemma getCookies_returned this w cs w' :
  Client.getCookies this w = (Returned cs, w') -> w' = w.
Proof.
  unfold Client.getCookies, bind, readRef. destruct (clients w !! this); [| discriminate].
  now intros [= _ <-].
Qed.

Lemma holds_withEmployee I client si sid cs uid :
  Stable I ->
  holds I (Auth.withEmployee client si sid cs uid)
    (fun si' => si' = si \/ exists id name, si' = Auth.setEmployee si id name).
Proof.
  intros HI. unfold Auth.withEmployee.
  apply holds_tryCatch; [| intros e; apply holds_ret; now left].
  eapply holds_bind; [now apply holds_setSession | intros _ _].
  eapply holds_bind; [now apply holds_callKw | intros r _].
  eapply holds_bind; [apply holds_cast | intros employeeData _].
  destruct employeeData as [[| [id name] rest] |]; apply holds_ret; eauto.
Qed.

Lemma withEmployee_returned client si sid cs uid w si' w' :
  Auth.withEmployee client si sid cs uid w = (Returned si', w') ->
  storage w' = storage w /\
  (si' = si \/ exists id name, si' = Auth.setEmployee si id name).
Proof.
  intros E.
  assert (Stable (fun w0 => storage w0 = storage w)) as HI.
  { constructor. intros w1 w2 Hst _ H. congruence. }
  destruct (holds_withEmployee _ client si sid cs uid HI w eq_refl) as [Hst HQ].
  rewrite E in Hst, HQ. split; [exact Hst | now apply HQ].
Qed.

Lemma withEmployee_thrown client si sid cs uid w e w' :
  Auth.withEmployee client si sid cs uid w = (Thrown e, w') -> False.
Proof. unfold Auth.withEmployee. apply tryCatch_ret_thrown with (d := fun _ => si). Qed.

Section LoginProperties.

Variable URL_protocol : string -> option string.
Variable URL_hostname : string -> option string.

(** X11. A login that returns has saved the session it returns: the
    store holds it under the session key and nothing else has changed
    there, [getSession] reads it back, and the session is on the
    normalized URL, which the URL parser accepted, for a user id other
    than 0, with the cookies the client captured. *)
Theorem login_saves_session
    (baseUrl' username' password : string) (w : World) (s : SessionInfo) :
  (Auth.login URL_protocol URL_hostname baseUrl' username' password w).1 = Returned s ->
  let w' := (Auth.login URL_protocol URL_hostname baseUrl' username' password w).2 in
  Auth.getSession w' = (Returned (Some s), w') /\
  storage w' = <[Auth.STORAGE_KEYS.SESSION := Parsed (Auth.encodeSession s)]> (storage w) /\
  baseUrl s = Client.normalizeUrl baseUrl' /\
  Client.isValidUrl URL_protocol (baseUrl s) = true /\
  userId s <> 0 /\
  exists capturedCookies, cookies s = Some capturedCookies.
Proof.
  destruct (Auth.login URL_protocol URL_hostname baseUrl' username' password w)
    as [o wf] eqn:E. cbn [fst snd]. intros ->.
  unfold Auth.login in E.
  destruct (Client.isValidUrl URL_protocol (Client.normalizeUrl baseUrl')) eqn:Hv;
    cbn [negb] in E; [| discriminate].
  apply bind_returned in E as (db & w1 & E1 & E).
  apply bind_returned in E as (client & w2 & E2 & E).
  apply tryCatch_returned in E as [E | (e & w3 & _ & E)]; [| discriminate].
  apply bind_returned in E as (r & w3 & E3 & E).
  apply bind_returned in E as (response & w4 & E4 & E).
  apply cast_returned in E4 as [_ ->].
  destruct response as [response |]; [| discriminate].
  assert (storage w3 = storage w) as Hst3.
  { pose proof (extractDatabaseName_storage URL_hostname
                  (Client.normalizeUrl baseUrl') w) as H1. rewrite E1 in H1.
    pose proof (request_storage client "/web/session/authenticate"
                  (JObj [("db", JStr db); ("login", JStr username');
                         ("password", JStr password)]) w2) as H3. rewrite E3 in H3.
    injection E2 as _ <-. cbn in H1, H3. congruence. }
  destruct (Auth.LoginResult.uid response) as [uid |]; [| discriminate].
  assert (uid <> 0 ->
          (let* capturedCookies := Client.getCookies client in
           let sessionId' :=
             if negb (Auth.strTruthy (Auth.LoginResult.session_id response))
                && (0 <? length capturedCookies)%nat
             then
               match find (fun c => JsString.startsWith c "session_id=")
                          capturedCookies with
               | Some sessionCookie =>
                   if JsString.truthy sessionCookie
                   then Auth.splitSecond sessionCookie
                   else Auth.LoginResult.session_id response
               | None => Auth.LoginResult.session_id response
               end
             else Auth.LoginResult.session_id response in
           let* companyId' := cast (Auth.LoginResult.company_id response) in
           let sessionInfo :=
             {| sessionId := Auth.strOr sessionId' EmptyString;
                baseUrl := Client.normalizeUrl baseUrl';
                userId := uid;
                companyId := companyId';
                employeeId := 0;
                employeeName := Auth.strOr (Auth.LoginResult.name response) username';
                username := Auth.strOr (Auth.LoginResult.username response) username';
                cookies := Some capturedCookies |} in
           let* sessionInfo :=
             Auth.withEmployee client sessionInfo (Auth.strOr sessionId' EmptyString)
               capturedCookies uid in
           Auth.saveSession sessionInfo ;;
           ret sessionInfo) w3 = (Returned s, wf) ->
          Auth.getSession wf = (Returned (Some s), wf) /\
          storage wf =
            <[Auth.STORAGE_KEYS.SESSION := Parsed (Auth.encodeSession s)]> (storage w) /\
          baseUrl s = Client.normalizeUrl baseUrl' /\
          Client.isValidUrl URL_protocol (baseUrl s) = true /\
          userId s <> 0 /\
          exists capturedCookies, cookies s = Some capturedCookies) as Hrest.
  { clear E. intros Huid E.
    apply bind_returned in E as (cs & w5 & E5 & E).
    apply getCookies_returned in E5 as ->.
    cbv zeta in E.
    apply bind_returned in E as (cid & w6 & E6 & E).
    apply cast_returned in E6 as [_ ->].
    apply bind_returned in E as (si & w7 & E7 & E).
    apply withEmployee_returned in E7 as [Hst7 Hsi].
    apply bind_returned in E as ([] & w8 & E8 & E).
    injection E as <- <-. unfold Auth.saveSession, setItem in E8.
    injection E8 as <-.
    split; [apply getSession_saved; cbn; apply lookup_insert_eq |].
    split; [cbn; congruence |].
    destruct Hsi as [-> | (id & name & ->)]; cbn; rewrite Hv; eauto 10. }
  destruct uid as [| p | p]; [discriminate | |]; apply Hrest; try exact E; lia.
Qed.

(** X12. A login that fails has stored nothing, and fails with a plain
    [Error]: "Invalid Odoo URL format" when the URL parser rejects the
    normalized URL, in which case nothing was sent; otherwise
    "Login failed: " followed by the message of the cause, where the
    cause is the error that the authentication request raised, or
    "Invalid username or password" when the authentication answered
    without a user id.  The authentication is the exchange after the
    database listing, and the first exchange when the URL has no host to
    list for.  A failed employee lookup never fails the login: when the
    authentication answers with a user id, [login] does not throw,
    whatever the server answers next. *)
Theorem login_failure (baseUrl' username' password : string) (w : World) :
  let run := Auth.login URL_protocol URL_hostname baseUrl' username' password w in
  let url := Client.normalizeUrl baseUrl' in
  let authentication :=
    requestOutcome "/web/session/authenticate"
      (answer (exchange w (match URL_hostname url with Some _ => 1 | None => 0 end))) in
  (forall e,
     run.1 = Thrown e ->
     storage run.2 = storage w /\
     ((e = Error "Invalid Odoo URL format" /\ run.2 = w /\
       Client.isValidUrl URL_protocol url = false) \/
      (Client.isValidUrl URL_protocol url = true /\
       exists cause,
         e = Error ("Login failed: " +:+ exnMessage cause) /\
         ((authentication = Thrown cause /\ isApiError cause) \/
          (cause = Error "Invalid username or password" /\
           exists r,
             authentication = Returned r /\
             (Auth.viewLoginResult r = Some None \/
              exists response,
                Auth.viewLoginResult r = Some (Some response) /\
                (Auth.LoginResult.uid response = None \/
                 Auth.LoginResult.uid response = Some 0))))))) /\
  (forall r response uid,
     Client.isValidUrl URL_protocol url = true ->
     authentication = Returned r ->
     Auth.viewLoginResult r = Some (Some response) ->
     Auth.LoginResult.uid response = Some uid ->
     uid <> 0 ->
     forall e, run.1 <> Thrown e).
Proof.
  cbv zeta.
  set (authentication :=
         requestOutcome "/web/session/authenticate"
           (answer (exchange w (match URL_hostname (Client.normalizeUrl baseUrl') with
                                | Some _ => 1 | None => 0 end)%nat))).
  assert (forall e,
     (Auth.login URL_protocol URL_hostname baseUrl' username' password w).1 = Thrown e ->
     storage (Auth.login URL_protocol URL_hostname baseUrl' username' password w).2
       = storage w /\
     ((e = Error "Invalid Odoo URL format" /\
       (Auth.login URL_protocol URL_hostname baseUrl' username' password w).2 = w /\
       Client.isValidUrl URL_protocol (Client.normalizeUrl baseUrl') = false) \/
      (Client.isValidUrl URL_protocol (Client.normalizeUrl baseUrl') = true /\
       exists cause,
         e = Error ("Login failed: " +:+ exnMessage cause) /\
         ((authentication = Thrown cause /\ isApiError cause) \/
          (cause = Error "Invalid username or password" /\
           exists r,
             authentication = Returned r /\
             (Auth.viewLoginResult r = Some None \/
              exists response,
                Auth.viewLoginResult r = Some (Some response) /\
                (Auth.LoginResult.uid response = None \/
                 Auth.LoginResult.uid response = Some 0))))))) as Hfail.
  { intros e.
    destruct (Auth.login URL_protocol URL_hostname baseUrl' username' password w)
      as [o wf] eqn:E. cbn [fst snd]. intros ->.
    unfold Auth.login in E.
    destruct (Client.isValidUrl URL_protocol (Client.normalizeUrl baseUrl')) eqn:Hv;
      cbn [negb] in E.
    2:{ injection E as <- <-. split; [reflexivity |]. left. auto. }
    apply bind_thrown in E as [E | (db & w1 & E1 & E)];
      [now apply extractDatabaseName_thrown in E |].
    apply bind_thrown in E as [E | (client & w2 & E2 & E)]; [discriminate |].
    apply tryCatch_thrown in E as (cause & w3 & E & Eh).
    injection Eh as <- <-.
    assert (storage w2 = storage w) as Hst2.
    { pose proof (extractDatabaseName_storage URL_hostname
                    (Client.normalizeUrl baseUrl') w) as H1. rewrite E1 in H1.
      injection E2 as _ <-. exact H1. }
    assert (client < length (clients w2))%nat as Hlt.
    { injection E2 as <- <-. cbn. rewrite length_app. cbn. lia. }
    assert (requestOutcome "/web/session/authenticate" (answer (nextExchange w2))
            = authentication) as Hnext.
    { unfold authentication. do 2 f_equal.
      pose proof (extractDatabaseName_world URL_hostname
                    (Client.normalizeUrl baseUrl') w) as Hw1.
      injection E2 as _ <-.
      destruct (URL_hostname (Client.normalizeUrl baseUrl')).
      - destruct Hw1 as [cs Hw1]. rewrite E1 in Hw1. cbn [snd] in Hw1. subst w1.
        unfold nextExchange, exchange. cbn. rewrite length_app. f_equal. cbn. lia.
      - rewrite E1 in Hw1. injection Hw1 as _ <-. reflexivity. }
    destruct (request_run client "/web/session/authenticate"
                (JObj [("db", JStr db); ("login", JStr username');
                       ("password", JStr password)]) w2 Hlt)
      as (q & cs & Hreq & _).
    rewrite Hnext in Hreq.
    apply bind_thrown in E as [E | (r & w4 & E3 & E)].
    { rewrite Hreq in E. injection E as Eo <-. split; [exact Hst2 |].
      right. split; [reflexivity |]. exists cause. split; [reflexivity |]. left.
      split; [exact Eo |]. now apply requestOutcome_thrown in Eo. }
    rewrite Hreq in E3. injection E3 as Hauth <-.
    apply bind_thrown in E as [E | (response & w5 & E4 & E)];
      [now apply cast_thrown in E |].
    apply cast_returned in E4 as [Hview ->].
    assert (cause = Error "Invalid username or password" /\
            w3 = afterRequest w2 q cs /\
            (response = None \/
             exists response', response = Some response' /\
               (Auth.LoginResult.uid response' = None \/
                Auth.LoginResult.uid response' = Some 0))) as (-> & -> & Hresp).
    { destruct response as [response |]; [| injection E as <- <-; auto].
      destruct (Auth.LoginResult.uid response) as [[| p | p] |] eqn:Huid;
        try (injection E as <- <-;
             split; [reflexivity | split; [reflexivity | right; eauto]]).
      all: exfalso.
      all: apply bind_thrown in E as [E | (cs' & w6 & E5 & E)];
        [now apply getCookies_thrown in E |].
      all: cbv zeta in E.
      all: apply bind_thrown in E as [E | (cid & w7 & E6 & E)];
        [now apply cast_thrown in E |].
      all: apply bind_thrown in E as [E | (si & w8 & E7 & E)];
        [now apply withEmployee_thrown in E |].
      all: apply bind_thrown in E as [E | (u & w9 & E8 & E)]; discriminate. }
    split; [exact Hst2 |]. right.
    split; [reflexivity |]. eexists. split; [reflexivity |]. right.
    split; [reflexivity |]. exists r. split; [exact Hauth |].
    destruct Hresp as [-> | (response' & -> & Huid)]; [now left |].
    right. exists response'. split; [exact Hview | exact Huid]. }
  split; [exact Hfail |].
  intros r response uid Hv Hauth Hview Huid Hnz e He.
  destruct (Hfail e He) as [_ [(_ & _ & Hinv) | (_ & cause & _ & Hcause)]];
    [congruence |].
  destruct Hcause as [[Hthrown _] | (_ & r' & Hauth' & Hresp)]; [congruence |].
  assert (r' = r) as -> by congruence.
  destruct Hresp as [Hnone | (response' & Hview' & Huid')]; [congruence |].
  assert (response' = response) as -> by congruence.
  destruct Huid' as [Huid' | Huid']; congruence.
Qed.

End LoginProperties.

Lemma login_saves_session_witness :
  (Auth.login acmeProtocol acmeHost "acme.odoo.com" "ada" "secret" acmeLogin).1
    = Returned sampleSession /\
  loggedInAs (Auth.login acmeProtocol acmeHost "acme.odoo.com" "ada" "secret" acmeLogin).2
    sampleSession.
Proof.
  assert ((Auth.login acmeProtocol acmeHost "acme.odoo.com" "ada" "secret" acmeLogin).1
          = Returned sampleSession) as H by (vm_compute; reflexivity).
  split; [exact H |].
  destruct (login_saves_session acmeProtocol acmeHost "acme.odoo.com" "ada" "secret"
              acmeLogin sampleSession H) as (Hget & _).
  unfold loggedInAs. now rewrite Hget.
Defined.

Lemma login_failure_witness :
  (Auth.login acmeProtocol acmeHost "acme.odoo.com" "ada" "wrong" acmeDenied).1 =
    Thrown (Error "Login failed: Access Denied") /\
  storage (Auth.login acmeProtocol acmeHost "acme.odoo.com" "ada" "wrong" acmeDenied).2 = ∅ /\
  requestOutcome "/web/session/authenticate" (answer (exchange acmeDenied 1)) =
    Thrown (OdooApiError "Access Denied" (Some 200)
              (Some "Traceback (most recent call last)")) /\
  (exists s,
     (Auth.login acmeProtocol acmeHost "acme.odoo.com" "ada" "secret" acmeNoEmployee).1 =
       Returned s /\ employeeId s = 0 /\ userId s = 2) /\
  forall e,
    (Auth.login acmeProtocol acmeHost "acme.odoo.com" "ada" "secret" acmeNoEmployee).1 <>
      Thrown e.
Proof.
  split; [vm_compute; reflexivity |].
  split.
  { refine (proj1 (proj1 (login_failure acmeProtocol acmeHost "acme.odoo.com" "ada" "wrong"
                            acmeDenied)
                     (Error "Login failed: Access Denied") _)).
    vm_compute. reflexivity. }
  split; [vm_compute; reflexivity |].
  split; [eexists; split; [vm_compute; reflexivity | split; reflexivity] |].
  refine (proj2 (login_failure acmeProtocol acmeHost "acme.odoo.com" "ada" "secret"
                   acmeNoEmployee)
            (Some (JObj [("uid", JNum 2); ("username", JStr "ada");
                         ("name", JStr "Ada Lovelace"); ("company_id", JNum 1)]))
            {| Auth.LoginResult.uid := Some 2;
               Auth.LoginResult.username := Some "ada";
               Auth.LoginResult.name := Some "Ada Lovelace";
               Auth.LoginResult.company_id := Some 1;
               Auth.LoginResult.session_id := None |}
            2 _ _ _ _ _).
  - vm_compute. reflexivity.
  - vm_compute. reflexivity.
  - vm_compute. reflexivity.
  - reflexivity.
  - discriminate.
Defined.

(** ** URLs and the database name *)

(** X13. [normalizeUrl] is idempotent: its result starts with "http://"
    or "https://", and normalizing it again changes nothing. *)
Theorem normalizeUrl_idempotent (url : string) :
  let n := Client.normalizeUrl url in
  (JsString.startsWith n "http://" = true \/ JsString.startsWith n "https://" = true) /\
  Client.normalizeUrl n = n.
Proof.
  cbv zeta.
  assert (JsString.startsWith (Client.normalizeUrl url) "http://" = true \/
          JsString.startsWith (Client.normalizeUrl url) "https://" = true) as H.
  { unfold Client.normalizeUrl.
    destruct (JsString.startsWith url "http://") eqn:E1; [now left |].
    destruct (JsString.startsWith url "https://") eqn:E2; [now right |].
    right. reflexivity. }
  split; [exact H |].
  unfold Client.normalizeUrl at 1. now destruct H as [-> | ->]; [| rewrite andb_false_r].
Qed.

Section DatabaseNameAnyHost.

Variable URL_hostname : string -> option string.

(** X14. [extractDatabaseName] never throws and never touches the
    store.  For a URL that the parser rejects it answers the empty name
    without contacting the server; for any other URL it sends exactly
    one request, the database listing, without cookies. *)
Theorem extractDatabaseName_safe (url : string) (w : World) :
  let run := Auth.extractDatabaseName URL_hostname url w in
  (forall e, run.1 <> Thrown e) /\
  storage run.2 = storage w /\
  match URL_hostname url with
  | None => run = (Returned EmptyString, w)
  | Some _ => exists cs, run.2 = afterRequest w (databaseListRequest url) cs
  end.
Proof.
  cbv zeta. split; [| split].
  - intros e H.
    destruct (Auth.extractDatabaseName URL_hostname url w) as [o wf] eqn:E.
    cbn in H. subst o. now apply extractDatabaseName_thrown in E.
  - apply extractDatabaseName_storage.
  - apply extractDatabaseName_world.
Qed.

(** X15. For a host outside [.odoo.com], [extractDatabaseName] answers
    the server's only database when the listing names exactly one, and
    the empty name, which leaves the choice to the server, otherwise:
    when the listing names none or several, and when the listing request
    fails. *)
Theorem extractDatabaseName_custom_domain (url hostname : string) (w : World) :
  URL_hostname url = Some hostname ->
  JsString.endsWith hostname ".odoo.com" = false ->
  (forall names,
     rpcResult (exchange w 0) = Some (Some (JArr (JStr <$> names))) ->
     (Auth.extractDatabaseName URL_hostname url w).1 =
       Returned (match names with [db] => db | _ => EmptyString end)) /\
  (rpcResult (exchange w 0) = None ->
   (Auth.extractDatabaseName URL_hostname url w).1 = Returned EmptyString).
Proof.
  intros Hh Hends.
  assert (forall listing,
            (Auth.fetchDatabaseList url w).1 = Returned listing ->
            (Auth.extractDatabaseName URL_hostname url w).1 =
              Returned (match listing with [db] => db | _ => EmptyString end)) as Hl.
  { intros listing Hl. unfold Auth.extractDatabaseName, tryCatch, bind at 1.
    rewrite Hh. cbn [ret]. rewrite Hends. unfold bind.
    destruct (Auth.fetchDatabaseList url w) as [o w']. cbn [fst] in Hl. subst o.
    destruct listing as [| first [| second others]]; reflexivity. }
  destruct (fetchDatabaseList_run url w) as (Hnames & Hfail & _).
  split.
  - intros names Hres. apply Hl, Hnames, Hres.
  - intros Hres. apply (Hl []), Hfail, Hres.
Qed.

End DatabaseNameAnyHost.

Lemma extractDatabaseName_custom_domain_witness :
  (Auth.extractDatabaseName intranetHost "https://odoo.example.org" intranetListing).1 =
  Returned "production".
Proof.
  apply (proj1 (extractDatabaseName_custom_domain intranetHost "https://odoo.example.org"
                  "odoo.example.org" intranetListing eq_refl eq_refl) ["production"]).
  reflexivity.
Defined.

(** ** The caches *)

Lemma getCachedAttendanceState_after w a (dt : N) :
  let w' := elapse dt (Attendance.cacheAttendanceState a w).2 in
  Attendance.getCachedAttendanceState w' =
    (Returned (if Z.of_N dt <? Attendance.ATTENDANCE_CACHE_TTL then Some a else None), w').
Proof.
  intros w'.
  assert (storage w' !! Attendance.ATTENDANCE_CACHE_KEY =
          Some (Parsed (Attendance.encodeCached {| data := a; timestamp := clock w |})))
    as Hst by (unfold w'; simpl; apply lookup_insert_eq).
  assert (clock w' = clock w + Z.of_N dt) as Hclock by reflexivity.
  unfold Attendance.getCachedAttendanceState, bind at 1. unfold getItem.
  rewrite Hst. cbn [storedFalsy]. unfold bind at 1.
  rewrite attendance_viewCached_encode. cbn [cast ret timestamp data].
  unfold bind, now. rewrite Hclock.
  replace (clock w + Z.of_N dt - clock w) with (Z.of_N dt) by lia.
  now destruct (Z.of_N dt <? Attendance.ATTENDANCE_CACHE_TTL).
Qed.

Lemma getCachedTimerState_after w s (dt : N) :
  let w' := elapse dt (Timesheet.cacheTimerState s w).2 in
  Timesheet.getCachedTimerState w' =
    (Returned (if Z.of_N dt <? Timesheet.TIMER_CACHE_TTL then Some s else None), w').
Proof.
  intros w'.
  assert (storage w' !! Timesheet.TIMER_CACHE_KEY =
          Some (Parsed (Timesheet.encodeCached {| data := s; timestamp := clock w |})))
    as Hst by (unfold w'; simpl; apply lookup_insert_eq).
  assert (clock w' = clock w + Z.of_N dt) as Hclock by reflexivity.
  unfold Timesheet.getCachedTimerState, bind at 1. unfold getItem.
  rewrite Hst. cbn [storedFalsy]. unfold bind at 1.
  rewrite viewCached_encode. cbn [cast ret timestamp data].
  unfold bind, now. rewrite Hclock.
  replace (clock w + Z.of_N dt - clock w) with (Z.of_N dt) by lia.
  now destruct (Z.of_N dt <? Timesheet.TIMER_CACHE_TTL).
Qed.

(** X16. Both caches give back what was stored for as long as the entry
    is fresh, and nothing afterwards: an attendance state stored [dt]
    milliseconds ago is read back exactly when [dt < 60000], a timer state
    exactly when [dt < 30000].  An entry that does not parse counts as no
    entry, not as an error.  Reading never changes the world. *)
Theorem caches_expire (w : World) (a : AttendanceState) (s : TimerState) (dt : N) :
  (let w' := elapse dt (Attendance.cacheAttendanceState a w).2 in
   Attendance.getCachedAttendanceState w' =
     (Returned (if Z.of_N dt <? 60000 then Some a else None), w')) /\
  (let w' := elapse dt (Timesheet.cacheTimerState s w).2 in
   Timesheet.getCachedTimerState w' =
     (Returned (if Z.of_N dt <? 30000 then Some s else None), w')) /\
  (forall raw,
     storage w !! Attendance.ATTENDANCE_CACHE_KEY = Some (Unparseable raw) ->
     Attendance.getCachedAttendanceState w = (Returned None, w)) /\
  (forall raw,
     storage w !! Timesheet.TIMER_CACHE_KEY = Some (Unparseable raw) ->
     Timesheet.getCachedTimerState w = (Returned None, w)).
Proof.
  split; [apply getCachedAttendanceState_after |].
  split; [apply getCachedTimerState_after |].
  split; intros raw H.
  - unfold Attendance.getCachedAttendanceState, bind, getItem. rewrite H.
    now destruct raw.
  - unfold Timesheet.getCachedTimerState, bind, getItem. rewrite H.
    now destruct raw.
Qed.

(** ** Attendance *)

Lemma cacheAttendanceState_thrown a w e w' :
  Attendance.cacheAttendanceState a w = (Thrown e, w') -> False.
Proof. discriminate. Qed.

(** The first attempt of [getAttendanceStatus] and of [toggleCheckInOut]:
    a request to [endpoint] whose answer is cached and returned.  If it
    throws, the request threw. *)
Lemma attempt_thrown client endpoint w e w' :
  (client < length (clients w))%nat ->
  (let* r := Client.request client endpoint (JObj []) in
   let* result := cast (r ≫= Attendance.viewAttendanceState) in
   Attendance.cacheAttendanceState result ;;
   ret result) w = (Thrown e, w') ->
  requestOutcome endpoint (answer (nextExchange w)) = Thrown e /\
  storage w' = storage w /\
  server w' = server w /\
  length (sent w') = S (length (sent w)) /\
  length (clients w') = length (clients w).
Proof.
  intros Hlt E. destruct (request_run client endpoint (JObj []) w Hlt)
    as (q & cs & Hrun & Hlen & _).
  apply bind_thrown in E as [E | (r & w1 & _ & E)].
  - rewrite Hrun in E. injection E as -> <-. cbn. rewrite length_app. cbn.
    repeat split; try lia.
  - apply bind_thrown in E as [E | (a & w2 & _ & E)]; [now apply cast_thrown in E |].
    apply bind_thrown in E as [E | (u & w3 & _ & E)]; discriminate.
Qed.

(** X17. With a session, [getAttendanceStatus(false)] and
    [toggleCheckInOut] fail only with the error of their first request,
    which is an error of [request].  For [getAttendanceStatus] this means
    that the endpoint and the model call have both failed: two requests
    were sent, and the store is as before. *)
Theorem attendance_failure_is_first_error (w : World) (s : SessionInfo) (e : Exn) :
  loggedInAs w s ->
  ((Attendance.getAttendanceStatus false w).1 = Thrown e ->
   requestOutcome "/hr_attendance/attendance_user_data" (answer (exchange w 0)) = Thrown e /\
   (exists e', requestOutcome "/web/dataset/call_kw" (answer (exchange w 1)) = Thrown e') /\
   isApiError e /\
   storage (Attendance.getAttendanceStatus false w).2 = storage w /\
   length (sent (Attendance.getAttendanceStatus false w).2) = (length (sent w) + 2)%nat) /\
  ((Attendance.toggleCheckInOut w).1 = Thrown e ->
   requestOutcome "/hr_attendance/systray_check_in_out" (answer (exchange w 0)) = Thrown e /\
   isApiError e).
Proof.
  intros Hs. destruct (getAuthenticatedClient_run w s Hs) as [c Hc].
  set (w1 := withClients w (clients w ++ [c])) in *.
  assert (length (clients w) < length (clients w1))%nat as Hlt1
    by (unfold w1; simpl; rewrite length_app; simpl; lia).
  split.
  - destruct (Attendance.getAttendanceStatus false w) as [o wf] eqn:E. cbn [fst snd].
    intros ->. unfold Attendance.getAttendanceStatus in E.
    unfold bind at 1 in E. unfold ret at 1 in E. cbv beta iota in E.
    unfold bind at 1 in E. rewrite Hc in E.
    apply tryCatch_thrown in E as (e0 & w2 & E1 & E).
    apply tryCatch_thrown in E as (e' & w3 & E2 & E). injection E as <- <-.
    apply attempt_thrown in E1 as (Ho1 & Hst1 & Hsrv1 & Hsent1 & Hcl1); [| exact Hlt1].
    apply bind_thrown in E2 as [E2 | (r & w4 & _ & E2)].
    2:{ apply bind_thrown in E2 as [E2 | (a & w5 & _ & E2)];
          [now apply cast_thrown in E2 |].
        apply bind_thrown in E2 as [E2 | (u & w6 & _ & E2)]; discriminate. }
    assert (length (clients w) < length (clients w2))%nat as Hlt2 by lia.
    destruct (callKw_run (length (clients w)) "hr.employee" "attendance_user_data"
                [] [] w2 Hlt2) as (q2 & cs2 & Hrun2 & _).
    rewrite Hrun2 in E2. injection E2 as Ho2 <-.
    assert (nextExchange w2 = exchange w 1) as Hx.
    { unfold nextExchange, exchange. now rewrite Hsent1, Hsrv1. }
    repeat split.
    + exact Ho1.
    + exists e'. now rewrite <- Hx.
    + exact (requestOutcome_thrown _ _ _ Ho1).
    + cbn. exact Hst1.
    + cbn. rewrite length_app, Hsent1. cbn. lia.
  - destruct (Attendance.toggleCheckInOut w) as [o wf] eqn:E. cbn [fst snd].
    intros ->. unfold Attendance.toggleCheckInOut in E.
    unfold bind at 1 in E. rewrite Hc in E.
    apply tryCatch_thrown in E as (e0 & w2 & E1 & E).
    apply tryCatch_thrown in E as (e' & w3 & _ & E). injection E as <- <-.
    apply attempt_thrown in E1 as (Ho1 & _); [| exact Hlt1].
    split; [exact Ho1 | exact (requestOutcome_thrown _ _ _ Ho1)].
Qed.

Lemma attendance_failure_is_first_error_witness :
  (Attendance.getAttendanceStatus false attendanceUnavailable).1 =
    Thrown (OdooApiError "HTTP 404: Not Found" (Some 404) None) /\
  requestOutcome "/hr_attendance/attendance_user_data"
    (answer (exchange attendanceUnavailable 0)) =
    Thrown (OdooApiError "HTTP 404: Not Found" (Some 404) None).
Proof.
  assert ((Attendance.getAttendanceStatus false attendanceUnavailable).1 =
          Thrown (OdooApiError "HTTP 404: Not Found" (Some 404) None)) as H
    by (vm_compute; reflexivity).
  split; [exact H |].
  assert (loggedInAs attendanceUnavailable sampleSession) as Hs by reflexivity.
  exact (proj1 (proj1 (attendance_failure_is_first_error attendanceUnavailable
                         sampleSession _ Hs) H)).
Defined.

(** X18. When the toggle endpoint answers with a state, [toggleCheckInOut]
    returns that state after a single request and caches it: for the next
    minute [getAttendanceStatus], [isCheckedIn] and [getHoursToday] answer
    from it without contacting the server. *)
Theorem toggleCheckInOut_write_through
    (w : World) (s : SessionInfo) (j : JSON) (a : AttendanceState) :
  loggedInAs w s ->
  rpcResult (exchange w 0) = Some (Some j) ->
  Attendance.viewAttendanceState j = Some a ->
  let w' := (Attendance.toggleCheckInOut w).2 in
  (Attendance.toggleCheckInOut w).1 = Returned a /\
  length (sent w') = S (length (sent w)) /\
  forall dt : N,
    Z.of_N dt < 60000 ->
    let w'' := elapse dt w' in
    Attendance.getAttendanceStatus true w'' = (Returned a, w'') /\
    Attendance.isCheckedIn w'' =
      (Returned (match attendance_state a with checked_in => true | checked_out => false end),
       w'') /\
    Attendance.getHoursToday w'' = (Returned (hours_today a), w'').
Proof.
  intros Hs Hres Hview. destruct (getAuthenticatedClient_run w s Hs) as [c Hc].
  set (w1 := withClients w (clients w ++ [c])) in *.
  assert (length (clients w) < length (clients w1))%nat as Hlt1
    by (unfold w1; simpl; rewrite length_app; simpl; lia).
  destruct (request_run (length (clients w)) "/hr_attendance/systray_check_in_out"
              (JObj []) w1 Hlt1) as (q & cs & Hrun & _).
  change (nextExchange w1) with (exchange w 0) in Hrun.
  rewrite (requestOutcome_answered "/hr_attendance/systray_check_in_out" _ _ Hres eq_refl)
    in Hrun.
  assert (Attendance.toggleCheckInOut w =
          (Returned a, (Attendance.cacheAttendanceState a (afterRequest w1 q cs)).2)) as E.
  { unfold Attendance.toggleCheckInOut. unfold bind at 1. rewrite Hc.
    unfold tryCatch, bind at 1. rewrite Hrun. cbn [mbind option_bind].
    rewrite Hview. reflexivity. }
  cbv zeta. rewrite E. cbn [fst snd]. split; [reflexivity |]. split.
  { cbn. rewrite length_app. cbn. lia. }
  intros dt Hdt.
  pose proof (getAttendanceStatus_hit (afterRequest w1 q cs) a dt Hdt) as Hhit.
  cbv zeta in Hhit. split; [exact Hhit |]. split.
  - unfold Attendance.isCheckedIn, bind. now rewrite Hhit.
  - unfold Attendance.getHoursToday, bind. rewrite Hhit.
    destruct (Z.eqb_spec (hours_today a) 0) as [-> | _]; reflexivity.
Qed.

Lemma toggleCheckInOut_write_through_witness :
  exists a,
    (Attendance.toggleCheckInOut toggling).1 = Returned a /\
    attendance_state a = checked_in /\
    Attendance.isCheckedIn (elapse 59999 (Attendance.toggleCheckInOut toggling).2) =
      (Returned true, elapse 59999 (Attendance.toggleCheckInOut toggling).2).
Proof.
  exists {| attendance_state := checked_in; last_check_in := Some "2024-03-01 08:00:00";
            last_check_out := None; hours_today := 3; employee_name := "Ada" |}.
  destruct (toggleCheckInOut_write_through toggling sampleSession checkedIn
              {| attendance_state := checked_in;
                 last_check_in := Some "2024-03-01 08:00:00";
                 last_check_out := None; hours_today := 3; employee_name := "Ada" |}
              eq_refl eq_refl eq_refl) as (Hret & _ & Hlater).
  split; [exact Hret |]. split; [reflexivity |].
  exact (proj1 (proj2 (Hlater 59999%N ltac:(lia)))).
Defined.

(** ** Timers *)

(** A timer state cached less than thirty seconds ago is returned, and
    the world is left as it is. *)
Lemma getRunningTimer_hit w s (dt : N) :
  Z.of_N dt < Timesheet.TIMER_CACHE_TTL ->
  let w' := elapse dt (Timesheet.cacheTimerState s w).2 in
  Timesheet.getRunningTimer true w' = (Returned (Some s), w').
Proof.
  intros Hdt w'. unfold Timesheet.getRunningTimer, bind.
  pose proof (getCachedTimerState_after w s dt) as H. cbv zeta in H. fold w' in H.
  rewrite H. now replace (Z.of_N dt <? Timesheet.TIMER_CACHE_TTL) with true by lia.
Qed.

Lemma now_returned w t w' : now w = (Returned t, w') -> t = clock w /\ w' = w.
Proof. now intros [= <- <-]. Qed.

Lemma toISOString_returned t w s w' :
  Timesheet.toISOString t w = (Returned s, w') -> JsDate.toISOString t = Some s /\ w' = w.
Proof.
  unfold Timesheet.toISOString. destruct (JsDate.toISOString t); [| discriminate].
  now intros [= <- <-].
Qed.

Lemma cache_then_ret {A : Type} st (r r' : A) w wf :
  (Timesheet.cacheTimerState st ;; ret r) w = (Returned r', wf) ->
  r' = r /\ wf = (Timesheet.cacheTimerState st w).2.
Proof. now intros [= <- <-]. Qed.

(** What a start that returned has left behind: the cached state of the
    timer it reports. *)
Lemma startTimer_returned w r wf :
  Timesheet.startTimer w = (Returned r, wf) ->
  exists st wk,
    wf = (Timesheet.cacheTimerState st wk).2 /\
    timerId st = Some (Timesheet.started_timerId r) /\
    startTime st = Some (Timesheet.started_startTime r).
Proof.
  intros E. unfold Timesheet.startTimer in E.
  apply bind_returned in E as (client & w1 & _ & E).
  apply tryCatch_returned in E as [E | (e & w2 & _ & E)]; [| discriminate].
  apply bind_returned in E as (r0 & w2 & _ & E).
  apply bind_returned in E as (result & w3 & E2 & E).
  apply cast_returned in E2 as [_ ->].
  destruct result as [| | | n | id].
  1, 2: apply bind_returned in E as (r1 & w4 & _ & E);
    apply bind_returned in E as (timerResult & w5 & E3 & E);
    apply cast_returned in E3 as [_ ->];
    destruct timerResult as [rt |]; [| discriminate];
    destruct (Timesheet.numOrNull (Timesheet.RunningTimer.id rt)) as [id |];
      [| discriminate].
  3: discriminate.
  3: destruct n as [| p | p]; [discriminate | |].
  all: apply bind_returned in E as (t & w6 & E4 & E);
    apply now_returned in E4 as [-> ->];
    apply bind_returned in E as (iso & w7 & E5 & E);
    apply toISOString_returned in E5 as [_ ->];
    apply cache_then_ret in E as [-> ->];
    eexists _, _; split; [reflexivity |]; split; reflexivity.
Qed.

Lemma startTimerWithDetails_returned p t d w r wf :
  Timesheet.startTimerWithDetails p t d w = (Returned r, wf) ->
  exists st wk,
    wf = (Timesheet.cacheTimerState st wk).2 /\
    timerId st = Some (Timesheet.started_timerId r) /\
    startTime st = Some (Timesheet.started_startTime r) /\
    projectId st = Some p /\ taskId st = Some t /\
    description st = Timesheet.strOrNull d.
Proof.
  intros E. unfold Timesheet.startTimerWithDetails in E.
  apply bind_returned in E as (client & w1 & _ & E).
  apply bind_returned in E as (r0 & w2 & _ & E).
  apply bind_returned in E as (id & w3 & E2 & E).
  apply cast_returned in E2 as [_ ->].
  apply bind_returned in E as (r1 & w4 & _ & E).
  apply bind_returned in E as (r2 & w5 & _ & E).
  apply bind_returned in E as (timerDetails & w6 & E3 & E).
  apply cast_returned in E3 as [_ ->].
  destruct timerDetails as [[| start rows] |]; try discriminate.
  apply bind_returned in E as (projects & w7 & _ & E).
  apply bind_returned in E as (tasks & w8 & _ & E).
  apply bind_returned in E as ([] & w9 & E9 & E).
  apply bind_returned in E as (start' & w10 & E10 & E).
  apply cast_returned in E10 as [-> ->]. injection E as <- <-.
  eexists _, w8. split; [now rewrite E9 |]. repeat split.
Qed.

(** X19. A timer that was started is served from the cache: for thirty
    seconds after [startTimer] or [startTimerWithDetails] has returned,
    [getRunningTimer(true)] answers, without contacting the server, a
    state with the id and the start time that the start reported, and for
    [startTimerWithDetails] with the project, the task and the description
    that were given. *)
Theorem started_timer_is_cached (w : World) (r : Timesheet.Started) (dt : N) :
  Z.of_N dt < 30000 ->
  ((Timesheet.startTimer w).1 = Returned r ->
   let w' := elapse dt (Timesheet.startTimer w).2 in
   exists st,
     Timesheet.getRunningTimer true w' = (Returned (Some st), w') /\
     timerId st = Some (Timesheet.started_timerId r) /\
     startTime st = Some (Timesheet.started_startTime r)) /\
  (forall p t d,
     (Timesheet.startTimerWithDetails p t d w).1 = Returned r ->
     let w' := elapse dt (Timesheet.startTimerWithDetails p t d w).2 in
     exists st,
       Timesheet.getRunningTimer true w' = (Returned (Some st), w') /\
       timerId st = Some (Timesheet.started_timerId r) /\
       startTime st = Some (Timesheet.started_startTime r) /\
       projectId st = Some p /\ taskId st = Some t /\
       description st = Timesheet.strOrNull d).
Proof.
  intros Hdt. split.
  - destruct (Timesheet.startTimer w) as [o wf] eqn:E. cbn [fst snd]. intros ->.
    destruct (startTimer_returned _ _ _ E) as (st & wk & -> & Hid & Hstart).
    exists st. split; [| now split]. now apply getRunningTimer_hit.
  - intros p t d.
    destruct (Timesheet.startTimerWithDetails p t d w) as [o wf] eqn:E.
    cbn [fst snd]. intros ->.
    destruct (startTimerWithDetails_returned _ _ _ _ _ _ E) as (st & wk & -> & H).
    exists st. split; [| exact H]. now apply getRunningTimer_hit.
Qed.

Lemma started_timer_is_cached_witness :
  exists st,
    Timesheet.getRunningTimer true (elapse 29999 (Timesheet.startTimer startedElsewhere).2)
      = (Returned (Some st), elapse 29999 (Timesheet.startTimer startedElsewhere).2) /\
    timerId st = Some 42 /\
    startTime st = Some "2023-11-14T22:08:20.200Z".
Proof.
  assert ((Timesheet.startTimer startedElsewhere).1 =
          Returned {| Timesheet.started_timerId := 42;
                      Timesheet.started_startTime := "2023-11-14T22:08:20.200Z" |}) as H
    by (vm_compute; reflexivity).
  exact (proj1 (started_timer_is_cached startedElsewhere _ 29999%N ltac:(lia)) H).
Defined.

(** *** Failures and the store *)

Lemma bind_thrown_frame {A B : Type} (m : M A) (k : A -> M B) w e w' :
  (forall w0, storage (m w0).2 = storage w0) ->
  bind m k w = (Thrown e, w') ->
  storage w' = storage w \/
  exists a w1, storage w1 = storage w /\ k a w1 = (Thrown e, w').
Proof.
  intros Hm E. specialize (Hm w).
  apply bind_thrown in E as [E | (a & w1 & E1 & E)].
  - left. rewrite E in Hm. exact Hm.
  - right. exists a, w1. rewrite E1 in Hm. now split.
Qed.

Lemma cast_storage {A : Type} (v : option A) w : storage (cast v w).2 = storage w.
Proof. now destruct v. Qed.

Lemma now_storage w : storage (now w).2 = storage w.
Proof. reflexivity. Qed.

Lemma toISOString_storage t w : storage (Timesheet.toISOString t w).2 = storage w.
Proof. unfold Timesheet.toISOString. now destruct (JsDate.toISOString t). Qed.

Lemma getProjects_storage q w : storage (Timesheet.getProjects q w).2 = storage w.
Proof. apply storage_frame. intros I HI. now apply holds_getProjects. Qed.

Lemma getTasks_storage p q w : storage (Timesheet.getTasks p q w).2 = storage w.
Proof. apply storage_frame. intros I HI. now apply holds_getTasks. Qed.

Create HintDb framedb.

#[local] Hint Resolve cast_storage now_storage toISOString_storage getProjects_storage
  getTasks_storage callKw_storage getAuthenticatedClient_storage request_storage : framedb.

(** One step of a run that threw: either the step threw, or it returned
    and the rest threw; the store is the same at both points. *)
Ltac thrown_step E :=
  let H := fresh "Hst" in
  apply bind_thrown_frame in E as [H | (? & ? & H & E)];
  [congruence | | solve [auto with framedb]].

(** X20. A start that fails writes nothing: when [startTimer] or
    [startTimerWithDetails] throws, the store, and with it the timer
    cache, is as it was before the call. *)
Theorem failed_start_keeps_store (w : World) (e : Exn) :
  ((Timesheet.startTimer w).1 = Thrown e ->
   storage (Timesheet.startTimer w).2 = storage w) /\
  (forall p t d,
     (Timesheet.startTimerWithDetails p t d w).1 = Thrown e ->
     storage (Timesheet.startTimerWithDetails p t d w).2 = storage w).
Proof.
  split.
  - destruct (Timesheet.startTimer w) as [o wf] eqn:E. cbn [fst snd]. intros ->.
    unfold Timesheet.startTimer in E. thrown_step E.
    apply tryCatch_thrown in E as (e0 & w2 & E & Eh). injection Eh as <- <-.
    thrown_step E. thrown_step E.
    match type of E with context [match ?r with Timesheet.StartFalse => _ | _ => _ end] =>
      destruct r as [| | | n | id] end.
    1, 2: thrown_step E; thrown_step E;
      match type of E with context [match ?r with Some _ => _ | None => _ end] =>
        destruct r as [rt |] end;
      [| injection E as <- <-; congruence];
      destruct (Timesheet.numOrNull (Timesheet.RunningTimer.id rt));
      [| injection E as <- <-; congruence].
    3: injection E as <- <-; congruence.
    3: destruct n as [| q | q]; [injection E as <- <-; congruence | |].
    all: thrown_step E; thrown_step E; discriminate.
  - intros p t d.
    destruct (Timesheet.startTimerWithDetails p t d w) as [o wf] eqn:E.
    cbn [fst snd]. intros ->.
    unfold Timesheet.startTimerWithDetails in E.
    do 6 thrown_step E.
    match type of E with context [match ?r with Some _ => _ | None => _ end] =>
      destruct r as [[| start rows] |] end;
      try (injection E as <- <-; congruence).
    do 2 thrown_step E.
    apply bind_thrown in E as [E | (u & w9 & _ & E)]; [discriminate |].
    apply bind_thrown in E as [E | (start' & w10 & _ & E)];
      [now apply cast_thrown in E | discriminate].
Qed.

Lemma failed_start_keeps_store_witness :
  (Timesheet.startTimer (loggedIn 1700000000000 [])).1 =
    Thrown (OdooApiError "Network error: connect ECONNREFUSED" None None) /\
  storage (Timesheet.startTimer (loggedIn 1700000000000 [])).2 =
    storage (loggedIn 1700000000000 []).
Proof.
  assert ((Timesheet.startTimer (loggedIn 1700000000000 [])).1 =
          Thrown (OdooApiError "Network error: connect ECONNREFUSED" None None)) as H
    by (vm_compute; reflexivity).
  split; [exact H |].
  exact (proj1 (failed_start_keeps_store (loggedIn 1700000000000 []) _) H).
Defined.

(** *** Updates of a running timer *)

Section TimerIdentity.

(** The id and the start time of the cached timer. *)
Variable id0 : option Z.
Variable start0 : option string.

Lemma K_stable : Stable (cachesTimer id0 start0).
Proof.
  constructor. intros w w' Hst _ (c & Hc & H). exists c. split; [| exact H].
  unfold cachedTimer in *. now rewrite Hst.
Qed.

Lemma K_getCachedTimerState :
  holds (cachesTimer id0 start0) Timesheet.getCachedTimerState
        (fun r => forall s, r = Some s -> timerId s = id0 /\ startTime s = start0).
Proof.
  intros w (c & Hc & Hid & Hstart). unfold cachedTimer in Hc.
  unfold Timesheet.getCachedTimerState, bind, getItem.
  destruct (storage w !! Timesheet.TIMER_CACHE_KEY) as [[raw | j] |] eqn:El;
    try discriminate.
  cbn [storedFalsy]. rewrite Hc. cbn [cast ret]. unfold now. cbn [fst snd].
  assert (cachesTimer id0 start0 w) as HK by (exists c; unfold cachedTimer; rewrite El; auto).
  destruct (clock w - timestamp c <? Timesheet.TIMER_CACHE_TTL); cbn [fst snd];
    (split; [exact HK |]); intros a [= <-]; [| discriminate].
  now intros s [= <-].
Qed.

Lemma K_cacheTimerState s :
  timerId s = id0 -> startTime s = start0 ->
  holds (cachesTimer id0 start0) (Timesheet.cacheTimerState s) (fun _ => True).
Proof.
  intros Hid Hstart w _. split; [| auto]. eexists.
  rewrite cachedTimer_cacheTimerState. now split.
Qed.

Local Hint Resolve K_stable : core.
Local Hint Resolve holds_callKw holds_getAuthenticatedClient holds_getProjects
  holds_getTasks : holdsdb.

Local Ltac kbind :=
  eapply holds_bind; [solve [eauto with holdsdb] | intros ? ?].

Lemma K_updateTimer id p t d :
  holds (cachesTimer id0 start0) (Timesheet.updateTimer id p t d) (fun _ => True).
Proof.
  unfold Timesheet.updateTimer. kbind. kbind.
  eapply holds_bind; [apply K_getCachedTimerState | intros [s |] Hs];
    [| now apply holds_ret].
  destruct (Hs s eq_refl) as [Hid Hstart].
  destruct (Timesheet.optEq (timerId s) id); [| now apply holds_ret].
  eapply (holds_bind _ _ _ (fun s' => timerId s' = id0 /\ startTime s' = start0)).
  { destruct p as [p |]; [| now apply holds_ret].
    kbind. now apply holds_ret. }
  intros s1 [Hid1 Hstart1].
  eapply (holds_bind _ _ _ (fun s' => timerId s' = id0 /\ startTime s' = start0)).
  { destruct t as [t |]; [| now apply holds_ret]. cbn [Timesheet.setTaskId projectId].
    destruct (Timesheet.numOrNull (projectId s1)).
    - kbind. now apply holds_ret.
    - now apply holds_ret. }
  intros s2 [Hid2 Hstart2].
  apply K_cacheTimerState; now destruct d.
Qed.

Lemma K_assignTimerDetails id p t d :
  holds (cachesTimer id0 start0) (Timesheet.assignTimerDetails id p t d) (fun _ => True).
Proof.
  unfold Timesheet.assignTimerDetails. do 4 kbind.
  eapply holds_bind; [apply K_getCachedTimerState | intros [s |] Hs];
    [| now apply holds_ret].
  destruct (Hs s eq_refl) as [Hid Hstart].
  destruct (Timesheet.optEq (timerId s) id); [| now apply holds_ret].
  kbind. kbind. now apply K_cacheTimerState.
Qed.

End TimerIdentity.

(** X21. [updateTimer] and [assignTimerDetails] never change which timer
    the cache describes: whatever their arguments and whatever the server
    answers, a cache entry is still there afterwards, with the timer id
    and the start time it had before. *)
Theorem update_keeps_timer_identity (w : World) (c : CachedData TimerState) :
  cachedTimer w = Some c ->
  (forall id p t d,
     exists c', cachedTimer (Timesheet.updateTimer id p t d w).2 = Some c' /\
                timerId (data c') = timerId (data c) /\
                startTime (data c') = startTime (data c)) /\
  (forall id p t d,
     exists c', cachedTimer (Timesheet.assignTimerDetails id p t d w).2 = Some c' /\
                timerId (data c') = timerId (data c) /\
                startTime (data c') = startTime (data c)).
Proof.
  intros Hc.
  assert (exists c', cachedTimer w = Some c' /\
                     timerId (data c') = timerId (data c) /\
                     startTime (data c') = startTime (data c)) as HK by eauto.
  split; intros id p t d.
  - exact (proj1 (K_updateTimer _ _ id p t d w HK)).
  - exact (proj1 (K_assignTimerDetails _ _ id p t d w HK)).
Qed.

Lemma update_keeps_timer_identity_witness :
  (Timesheet.updateTimer 42 (Some 3) None (Some "Review") runningUnassigned).1 = Returned tt /\
  cachedTimer (Timesheet.updateTimer 42 (Some 3) None (Some "Review") runningUnassigned).2 =
    Some {| data := {| timerId := Some 42; projectId := Some 3;
                       projectName := Some "Website";
                       taskId := None; taskName := None;
                       description := Some "Review";
                       startTime := Some "2023-11-14T22:13:20.010Z" |};
            timestamp := 1700000000030 |} /\
  cachedTimer runningUnassigned =
    Some {| data := {| timerId := Some 42; projectId := None; projectName := None;
                       taskId := None; taskName := None; description := None;
                       startTime := Some "2023-11-14T22:13:20.010Z" |};
            timestamp := 1700000000010 |} /\
  exists c',
    cachedTimer (Timesheet.updateTimer 42 (Some 3) None (Some "Review") runningUnassigned).2
      = Some c' /\
    timerId (data c') = Some 42 /\
    startTime (data c') = Some "2023-11-14T22:13:20.010Z".
Proof.
  split; [vm_compute; reflexivity |].
  split; [vm_compute; reflexivity |].
  split; [vm_compute; reflexivity |].
  exact (proj1 (update_keeps_timer_identity runningUnassigned
                  {| data := {| timerId := Some 42; projectId := None; projectName := None;
                                taskId := None; taskName := None; description := None;
                                startTime := Some "2023-11-14T22:13:20.010Z" |};
                     timestamp := 1700000000010 |}
                  ltac:(vm_compute; reflexivity))
           42 (Some 3) None (Some "Review")).
Defined.

Section OtherTimer.

(** The store, and a timer id that its cache entry does not carry. *)
Variable st0 : gmap string Stored.
Variable id : Z.
Hypothesis other :
  forall j c, st0 !! Timesheet.TIMER_CACHE_KEY = Some (Parsed j) ->
              Timesheet.viewCached j = Some c -> timerId (data c) <> Some id.

Lemma N_stable : Stable (storeIs st0).
Proof. constructor. unfold storeIs. intros w w' Hst _ H. congruence. Qed.

Lemma N_getCachedTimerState :
  holds (storeIs st0) Timesheet.getCachedTimerState
        (fun r => forall s, r = Some s -> Timesheet.optEq (timerId s) id = false).
Proof.
  intros w Hw. unfold storeIs in Hw.
  unfold Timesheet.getCachedTimerState, bind, getItem. rewrite Hw.
  destruct (st0 !! Timesheet.TIMER_CACHE_KEY) as [[raw | j] |] eqn:El.
  - destruct raw; cbn; (split; [exact Hw | now intros ? [= <-]]).
  - cbn [storedFalsy]. destruct (Timesheet.viewCached j) as [c |] eqn:Ev;
      cbn [cast ret stuck]; [| split; [exact Hw | discriminate]].
    unfold now. cbn [fst snd].
    destruct (clock w - timestamp c <? Timesheet.TIMER_CACHE_TTL); cbn [fst snd];
      (split; [exact Hw |]); intros ? [= <-]; [| discriminate].
    intros s [= <-]. pose proof (other j c eq_refl Ev) as Hne.
    unfold Timesheet.optEq. destruct (timerId (data c)) as [x |]; [| reflexivity].
    destruct (Z.eqb_spec x id); congruence.
  - cbn. split; [exact Hw | now intros ? [= <-]].
Qed.

Local Hint Resolve N_stable : core.
Local Hint Resolve holds_callKw holds_getAuthenticatedClient : holdsdb.

Local Ltac nbind :=
  eapply holds_bind; [solve [eauto with holdsdb] | intros ? ?].

Lemma N_updateTimer p t d : holds (storeIs st0) (Timesheet.updateTimer id p t d) (fun _ => True).
Proof.
  unfold Timesheet.updateTimer. nbind. nbind.
  eapply holds_bind; [apply N_getCachedTimerState | intros [s |] Hs];
    [| now apply holds_ret].
  rewrite (Hs s eq_refl). now apply holds_ret.
Qed.

Lemma N_assignTimerDetails p t d :
  holds (storeIs st0) (Timesheet.assignTimerDetails id p t d) (fun _ => True).
Proof.
  unfold Timesheet.assignTimerDetails. do 4 nbind.
  eapply holds_bind; [apply N_getCachedTimerState | intros [s |] Hs];
    [| now apply holds_ret].
  rewrite (Hs s eq_refl). now apply holds_ret.
Qed.

End OtherTimer.

(** X22. [updateTimer] and [assignTimerDetails] for a timer other than
    the cached one do not touch the store: when the cache holds no entry,
    or an entry for another timer id, the store is the same before and
    after, whatever the server answers. *)
Theorem update_of_other_timer_keeps_store (w : World) (id : Z) :
  (forall c, cachedTimer w = Some c -> timerId (data c) <> Some id) ->
  (forall p t d, storage (Timesheet.updateTimer id p t d w).2 = storage w) /\
  (forall p t d, storage (Timesheet.assignTimerDetails id p t d w).2 = storage w).
Proof.
  intros Hother.
  assert (forall j c, storage w !! Timesheet.TIMER_CACHE_KEY = Some (Parsed j) ->
                      Timesheet.viewCached j = Some c -> timerId (data c) <> Some id) as H.
  { intros j c Hj Hv. apply Hother. unfold cachedTimer. now rewrite Hj. }
  split; intros p t d.
  - exact (proj1 (N_updateTimer (storage w) id H p t d w eq_refl)).
  - exact (proj1 (N_assignTimerDetails (storage w) id H p t d w eq_refl)).
Qed.

Lemma update_of_other_timer_keeps_store_witness :
  storage (Timesheet.updateTimer 7 None None (Some "Review") running).2 = storage running.
Proof.
  refine (proj1 (update_of_other_timer_keeps_store running 7 _) None None (Some "Review")).
  intros c Hc. vm_compute in Hc. injection Hc as <-. discriminate.
Defined.

(** *** Stopping *)

(** X23. [stopTimer] clears the cache exactly when the stop action went
    through.  If the stop action fails, its error is thrown and the store
    is untouched.  If it succeeds, the cache entry is removed whatever
    happens next; the duration is then read, and is the first row's
    [unit_amount] times 3600, or 0 when the read finds no row; an error of
    the read is thrown although the timer has been stopped. *)
Theorem stopTimer_outcomes (w : World) (s : SessionInfo) (id : Z) :
  loggedInAs w s ->
  (forall e,
     requestOutcome "/web/dataset/call_kw" (answer (exchange w 0)) = Thrown e ->
     (Timesheet.stopTimer id w).1 = Thrown e /\
     storage (Timesheet.stopTimer id w).2 = storage w) /\
  (forall r0,
     requestOutcome "/web/dataset/call_kw" (answer (exchange w 0)) = Returned r0 ->
     storage (Timesheet.stopTimer id w).2 =
       delete Timesheet.TIMER_CACHE_KEY (storage w) /\
     (forall e,
        requestOutcome "/web/dataset/call_kw" (answer (exchange w 1)) = Thrown e ->
        (Timesheet.stopTimer id w).1 = Thrown e) /\
     (forall r1 lines,
        requestOutcome "/web/dataset/call_kw" (answer (exchange w 1)) = Returned r1 ->
        Timesheet.viewLines r1 = Some lines ->
        (Timesheet.stopTimer id w).1 =
          Returned (match lines with
                    | Some (unit_amount :: _) => unit_amount * 3600
                    | _ => 0
                    end))).
Proof.
  intros Hs. destruct (getAuthenticatedClient_run w s Hs) as [c Hc].
  set (w1 := withClients w (clients w ++ [c])) in *.
  assert (length (clients w) < length (clients w1))%nat as Hlt1
    by (unfold w1; simpl; rewrite length_app; simpl; lia).
  destruct (callKw_run (length (clients w)) "account.analytic.line" "action_timer_stop"
              [JNum id; JBool true] [] w1 Hlt1) as (q1 & cs1 & Hrun1 & Hlen1 & _).
  change (nextExchange w1) with (exchange w 0) in Hrun1.
  set (w2 := afterRequest w1 q1 cs1) in *.
  set (w3 := {| storage := delete Timesheet.TIMER_CACHE_KEY (storage w2);
                clock := clock w2; server := server w2; sent := sent w2;
                clients := clients w2 |}).
  assert (length (clients w) < length (clients w3))%nat as Hlt3
    by (unfold w3, w2; simpl; lia).
  destruct (callKw_run (length (clients w)) "account.analytic.line" "read"
              [JArr [JNum id]; JArr [JStr "unit_amount"]] [] w3 Hlt3)
    as (q2 & cs2 & Hrun2 & _).
  assert (nextExchange w3 = exchange w 1) as Hx.
  { unfold nextExchange, exchange, w3, w2, w1. cbn. rewrite length_app. cbn.
    f_equal. lia. }
  rewrite Hx in Hrun2.
  split.
  - intros e He. rewrite He in Hrun1.
    assert (Timesheet.stopTimer id w = (Thrown e, w2)) as E.
    { unfold Timesheet.stopTimer. unfold bind at 1. rewrite Hc.
      unfold bind at 1. now rewrite Hrun1. }
    rewrite E. split; reflexivity.
  - intros r0 Hr0. rewrite Hr0 in Hrun1.
    assert (Timesheet.stopTimer id w =
            (let* r := Client.callKw (length (clients w)) "account.analytic.line" "read"
                         [JArr [JNum id]; JArr [JStr "unit_amount"]] [] in
             let* lines := cast (Timesheet.viewLines r) in
             ret match lines with
                 | Some (unit_amount :: _) => unit_amount * 3600
                 | _ => 0
                 end) w3) as E.
    { unfold Timesheet.stopTimer. unfold bind at 1. rewrite Hc.
      unfold bind at 1. rewrite Hrun1. reflexivity. }
    rewrite E. unfold bind at 1 3 5. rewrite Hrun2.
    split; [| split].
    + destruct (requestOutcome "/web/dataset/call_kw" (answer (exchange w 1)))
        as [r1 | e |]; try reflexivity.
      unfold bind. destruct (Timesheet.viewLines r1); reflexivity.
    + intros e ->. reflexivity.
    + intros r1 lines -> Hl. unfold bind. rewrite Hl. reflexivity.
Qed.

Lemma stopTimer_outcomes_witness :
  (Timesheet.stopTimer 42 running).1 = Returned 7200 /\
  storage (Timesheet.stopTimer 42 running).2 !! Timesheet.TIMER_CACHE_KEY = None.
Proof.
  assert (loggedInAs running sampleSession) as Hs by (vm_compute; reflexivity).
  destruct (stopTimer_outcomes running sampleSession 42 Hs) as [_ H].
  destruct (H (Some (JBool true)) ltac:(vm_compute; reflexivity)) as (Hst & _ & Hret).
  split.
  - apply (Hret (Some (JArr [JObj [("unit_amount", JNum 2)]])) (Some [2])
             ltac:(vm_compute; reflexivity) eq_refl).
  - rewrite Hst. apply lookup_delete_eq.
Defined.

(** *** Reading the running timer *)

Lemma getSession_thrown w e w' : Auth.getSession w = (Thrown e, w') -> False.
Proof.
  unfold Auth.getSession, bind, getItem.
  destruct (storedFalsy (storage w !! Auth.STORAGE_KEYS.SESSION)); [discriminate |].
  destruct (storage w !! Auth.STORAGE_KEYS.SESSION) as [[raw | j] |]; try discriminate.
  destruct j; try discriminate; simpl.
  all: match goal with |- context [Auth.viewSessionInfo ?j] =>
         destruct (Auth.viewSessionInfo j) end; discriminate.
Qed.

Lemma getCachedTimerState_thrown w e w' :
  Timesheet.getCachedTimerState w = (Thrown e, w') -> False.
Proof.
  unfold Timesheet.getCachedTimerState, bind, getItem.
  destruct (storedFalsy (storage w !! Timesheet.TIMER_CACHE_KEY)); [discriminate |].
  destruct (storage w !! Timesheet.TIMER_CACHE_KEY) as [[raw | j] |]; try discriminate.
  simpl. destruct (Timesheet.viewCached j); [| discriminate]. simpl.
  destruct (_ <? _); discriminate.
Qed.

Lemma getAuthenticatedClient_thrown w e w' :
  Auth.getAuthenticatedClient w = (Thrown e, w') ->
  e = noSession /\ (Auth.getSession w).1 = Returned None /\ w' = w.
Proof.
  unfold Auth.getAuthenticatedClient. intros E.
  apply bind_thrown in E as [E | (session & w1 & E1 & E)];
    [now apply getSession_thrown in E |].
  pose proof (getSession_world w) as Hw. rewrite E1 in Hw. cbn in Hw. subst w1.
  destruct session as [session |]; [discriminate |].
  injection E as <- <-. rewrite E1. auto.
Qed.



(** X25. When the lookup request fails, [getRunningTimer] answers "no
    timer" and leaves the store alone: one request was sent, and a cache
    entry that was there, stale or not consulted, is still there. *)
Theorem getRunningTimer_lookup_failure
    (w : World) (s : SessionInfo) (useCache : bool) (e : Exn) :
  loggedInAs w s ->
  (useCache = true -> (Timesheet.getCachedTimerState w).1 = Returned None) ->
  requestOutcome "/web/dataset/call_kw" (answer (exchange w 0)) = Thrown e ->
  (Timesheet.getRunningTimer useCache w).1 = Returned None /\
  storage (Timesheet.getRunningTimer useCache w).2 = storage w /\
  length (sent (Timesheet.getRunningTimer useCache w).2) = S (length (sent w)).
Proof.
  intros Hs Hmiss He. destruct (getAuthenticatedClient_run w s Hs) as [c Hc].
  set (w1 := withClients w (clients w ++ [c])) in *.
  assert (length (clients w) < length (clients w1))%nat as Hlt1
    by (unfold w1; simpl; rewrite length_app; simpl; lia).
  destruct (callKw_run (length (clients w)) "account.analytic.line" "get_running_timer"
              [] [] w1 Hlt1) as (q1 & cs1 & Hrun1 & _).
  change (nextExchange w1) with (exchange w 0) in Hrun1. rewrite He in Hrun1.
  assert ((if useCache then Timesheet.getCachedTimerState else ret None) w
          = (Returned None, w)) as Hcached.
  { destruct useCache; [| reflexivity].
    pose proof (getCachedTimerState_world w) as Hw. specialize (Hmiss eq_refl).
    destruct (Timesheet.getCachedTimerState w) as [o w0]. cbn in *. congruence. }
  assert (Timesheet.getRunningTimer useCache w = (Returned None, afterRequest w1 q1 cs1))
    as E.
  { unfold Timesheet.getRunningTimer. unfold bind at 1. rewrite Hcached.
    unfold bind at 1. rewrite Hc. unfold tryCatch, bind at 1. now rewrite Hrun1. }
  rewrite E. cbn. rewrite length_app. cbn. repeat split. lia.
Qed.

Lemma getRunningTimer_lookup_failure_witness :
  (Timesheet.getRunningTimer false (loggedIn 1700000000000 [])).1 = Returned None.
Proof.
  refine (proj1 (getRunningTimer_lookup_failure (loggedIn 1700000000000 []) sampleSession
                   false (OdooApiError "Network error: connect ECONNREFUSED" None None)
                   eq_refl _ eq_refl)).
  discriminate.
Defined.

Lemma readRunningTimer_returned client r w st wf :
  Timesheet.readRunningTimer client r w = (Returned (Some st), wf) ->
  exists wk, wf = (Timesheet.cacheTimerState st wk).2.
Proof.
  intros E. unfold Timesheet.readRunningTimer in E.
  apply bind_returned in E as (result & w1 & E1 & E).
  apply cast_returned in E1 as [_ ->].
  destruct (result ≫= (fun result => Timesheet.numOrNull (Timesheet.RunningTimer.id result)))
    as [id |]; [| discriminate].
  destruct result as [result |]; [| discriminate].
  apply bind_returned in E as (r1 & w2 & _ & E).
  apply bind_returned in E as (timerDetails & w3 & E3 & E).
  apply cast_returned in E3 as [_ ->].
  destruct timerDetails as [[| start rows] |]; try discriminate.
  apply bind_returned in E as (pn & w4 & _ & E).
  apply bind_returned in E as (tn & w5 & _ & E).
  apply cache_then_ret in E as [E ->]. injection E as <-.
  eexists. reflexivity.
Qed.

(** X26. A timer that [getRunningTimer] has fetched from the server is
    cached as returned: for the next thirty seconds
    [getRunningTimer(true)] answers the same state without contacting the
    server, and so do [getTimerState] and [hasActiveTimer]. *)
Theorem fetched_timer_is_cached
    (w : World) (useCache : bool) (st : TimerState) (dt : N) :
  (useCache = true -> (Timesheet.getCachedTimerState w).1 = Returned None) ->
  (Timesheet.getRunningTimer useCache w).1 = Returned (Some st) ->
  Z.of_N dt < 30000 ->
  let w' := elapse dt (Timesheet.getRunningTimer useCache w).2 in
  Timesheet.getRunningTimer true w' = (Returned (Some st), w') /\
  Timesheet.getTimerState true w' = (Returned (Some st), w') /\
  Timesheet.hasActiveTimer w' = (Returned true, w').
Proof.
  intros Hmiss. destruct (Timesheet.getRunningTimer useCache w) as [o wf] eqn:E.
  cbn [fst snd]. intros -> Hdt.
  assert (exists wk, wf = (Timesheet.cacheTimerState st wk).2) as [wk ->].
  { unfold Timesheet.getRunningTimer in E.
    apply bind_returned in E as (cached & w1 & E0 & E).
    assert (cached = None) as ->.
    { destruct useCache; [| now injection E0 as <-].
      specialize (Hmiss eq_refl). rewrite E0 in Hmiss. now injection Hmiss. }
    apply bind_returned in E as (client & w2 & _ & E).
    apply tryCatch_returned in E as [E | (e & w3 & _ & E)]; [| discriminate].
    apply bind_returned in E as (r & w3 & _ & E).
    now apply readRunningTimer_returned in E. }
  set (w' := elapse dt (Timesheet.cacheTimerState st wk).2).
  assert (Timesheet.getRunningTimer true w' = (Returned (Some st), w')) as Hhit
    by now apply getRunningTimer_hit.
  split; [exact Hhit |]. split; [exact Hhit |].
  unfold Timesheet.hasActiveTimer, Timesheet.getTimerState, bind. now rewrite Hhit.
Qed.

Lemma fetched_timer_is_cached_witness :
  exists st,
    (Timesheet.getRunningTimer false watching).1 = Returned (Some st) /\
    Timesheet.hasActiveTimer (elapse 29999 (Timesheet.getRunningTimer false watching).2) =
      (Returned true, elapse 29999 (Timesheet.getRunningTimer false watching).2).
Proof.
  eexists. split; [vm_compute; reflexivity |].
  refine (proj2 (proj2 (fetched_timer_is_cached watching false _ 29999%N _ _ _))).
  - discriminate.
  - vm_compute. reflexivity.
  - lia.
Defined.

(** *** Server time *)

(** X27. [getServerTime] does not fail on account of the server.  When
    the call answers a string, that string is returned.  When the call
    fails, the local clock is returned in ISO format: for a clock in the
    years 0 to 9999, a string that [Date] parses back to the clock's
    instant in any time zone. *)
Theorem getServerTime_falls_back_on_clock (w : World) (s : SessionInfo) :
  loggedInAs w s ->
  (forall t,
     rpcResult (exchange w 0) = Some (Some (JStr t)) ->
     (Timesheet.getServerTime w).1 = Returned t) /\
  (forall e,
     requestOutcome "/web/dataset/call_kw" (answer (exchange w 0)) = Thrown e ->
     let T := clock w + Z.of_N (latency (exchange w 0)) in
     -62167219200000 <= T <= 253402300799999 ->
     exists iso,
       (Timesheet.getServerTime w).1 = Returned iso /\
       JsDate.toISOString T = Some iso /\
       forall LocalTZA, JsDate.parse LocalTZA iso = Some T).
Proof.
  intros Hs. destruct (getAuthenticatedClient_run w s Hs) as [c Hc].
  set (w1 := withClients w (clients w ++ [c])) in *.
  assert (length (clients w) < length (clients w1))%nat as Hlt1
    by (unfold w1; simpl; rewrite length_app; simpl; lia).
  destruct (callKw_run (length (clients w)) "timer.timer" "get_server_time"
              [] [] w1 Hlt1) as (q1 & cs1 & Hrun1 & _).
  change (nextExchange w1) with (exchange w 0) in Hrun1.
  split.
  - intros t Hres. rewrite (requestOutcome_call_kw _ _ Hres) in Hrun1.
    unfold Timesheet.getServerTime. unfold bind at 1. rewrite Hc.
    unfold tryCatch, bind. now rewrite Hrun1.
  - intros e He T HT. rewrite He in Hrun1.
    destruct (toISOString_parse (fun _ => 0) T HT) as (iso & Hiso & _).
    exists iso. split; [| split; [exact Hiso |]].
    + unfold Timesheet.getServerTime. unfold bind at 1. rewrite Hc.
      unfold tryCatch, bind at 1. rewrite Hrun1.
      unfold bind, now, Timesheet.toISOString, afterRequest. cbn [clock].
      replace (clock w1 + Z.of_N (latency (nextExchange w1))) with T by reflexivity.
      now rewrite Hiso.
    + intros LocalTZA. destruct (toISOString_parse LocalTZA T HT) as (iso' & Hiso' & Hp).
      congruence.
Qed.

Lemma getServerTime_falls_back_on_clock_witness :
  (Timesheet.getServerTime (loggedIn 1700000000000 [])).1 =
    Returned "2023-11-14T22:13:20.000Z" /\
  JsDate.parse cet "2023-11-14T22:13:20.000Z" = Some 1700000000000.
Proof.
  destruct (getServerTime_falls_back_on_clock (loggedIn 1700000000000 []) sampleSession
              eq_refl) as [_ H].
  destruct (H (OdooApiError "Network error: connect ECONNREFUSED" None None) eq_refl
              ltac:(vm_compute; split; discriminate)) as (iso & Hret & Hiso & Hparse).
  assert (iso = "2023-11-14T22:13:20.000Z") as -> by (vm_compute in Hiso; congruence).
  split; [exact Hret | apply Hparse].
Defined.

(** ** Formatting *)

(** X28. [truncate] to a length of at least 1 yields a string of at most
    that length: the string itself when it fits, and otherwise its first
    [maxLength - 1] code units followed by the ellipsis, which makes
    exactly [maxLength].  Truncating twice is truncating once, and a menu
    bar title never exceeds its maximal length. *)
Theorem truncate_fits (str : FormatText.Utf16) (maxLength : Z) :
  1 <= maxLength ->
  Z.of_nat (length (FormatText.truncate str maxLength)) <= maxLength /\
  (Z.of_nat (length str) <= maxLength -> FormatText.truncate str maxLength = str) /\
  (maxLength < Z.of_nat (length str) ->
   exists kept,
     FormatText.truncate str maxLength = (kept ++ [FormatText.ellipsis])%list /\
     kept `prefix_of` str /\
     Z.of_nat (length kept) = maxLength - 1) /\
  FormatText.truncate (FormatText.truncate str maxLength) maxLength =
    FormatText.truncate str maxLength /\
  (forall projectName' taskName',
     Z.of_nat (length (FormatText.formatMenuBarTitle projectName' taskName' maxLength))
     <= maxLength).
Proof.
  intros Hn.
  assert (forall s : FormatText.Utf16,
            Z.of_nat (length (FormatText.truncate s maxLength)) <= maxLength) as Hlen.
  { intros s. unfold FormatText.truncate, FormatText.substring0.
    destruct (Z.leb_spec (Z.of_nat (length s)) maxLength) as [Hle | Hgt]; [exact Hle |].
    rewrite length_app, length_take. cbn [length]. lia. }
  split; [apply Hlen |]. split; [| split; [| split]].
  - intros Hle. unfold FormatText.truncate.
    now replace (Z.of_nat (length str) <=? maxLength) with true by lia.
  - intros Hgt. unfold FormatText.truncate, FormatText.substring0.
    replace (Z.of_nat (length str) <=? maxLength) with false by lia.
    eexists. split; [reflexivity |]. split; [apply prefix_take |].
    rewrite length_take. lia.
  - unfold FormatText.truncate at 1.
    now replace (Z.of_nat (length (FormatText.truncate str maxLength)) <=? maxLength)
      with true by (specialize (Hlen str); lia).
  - intros p t. apply Hlen.
Qed.

Lemma truncate_fits_witness :
  FormatText.formatMenuBarTitle (FormatText.ofAscii "Website") (FormatText.ofAscii "Landing page") 12
    = (FormatText.ofAscii "Website - L" ++ [FormatText.ellipsis])%list /\
  Z.of_nat (length (FormatText.formatMenuBarTitle (FormatText.ofAscii "Website")
                      (FormatText.ofAscii "Landing page") 12)) <= 12.
Proof.
  split; [reflexivity |].
  apply (truncate_fits [] 12 ltac:(lia)).
Defined.

Section ElapsedBothWays.

Variable LocalTZA : Z -> Z.
Hypothesis LocalTZA_bounded : forall t, Z.abs (LocalTZA t) <= JsDate.msPerDay.

(** X29. [getElapsedSeconds] measures a signed distance.  For valid
    Odoo timestamps that the host reads with the same offset from UTC,
    the result from [a] to [c] is the sum of the results from [a] to [b]
    and from [b] to [c], and swapping the arguments negates the result:
    a start time after the server time gives a negative number, not 0. *)
Theorem getElapsedSeconds_signed (a b c : Civil) :
  validCivil a = true -> validCivil b = true -> validCivil c = true ->
  LocalTZA (localTime b) = LocalTZA (localTime a) ->
  LocalTZA (localTime c) = LocalTZA (localTime a) ->
  exists x y,
    Format.getElapsedSeconds LocalTZA (odooFormat a) (odooFormat b) = Some x /\
    Format.getElapsedSeconds LocalTZA (odooFormat b) (odooFormat c) = Some y /\
    Format.getElapsedSeconds LocalTZA (odooFormat a) (odooFormat c) = Some (x + y) /\
    Format.getElapsedSeconds LocalTZA (odooFormat b) (odooFormat a) = Some (- x) /\
    1000 * x = instant LocalTZA b - instant LocalTZA a.
Proof.
  intros Ha Hb Hc Hab Hac. unfold localTime in Hab, Hac.
  rewrite (getElapsedSeconds_civil LocalTZA LocalTZA_bounded a b Ha Hb Hab).
  rewrite (getElapsedSeconds_civil LocalTZA LocalTZA_bounded b c Hb Hc
             ltac:(congruence)).
  rewrite (getElapsedSeconds_civil LocalTZA LocalTZA_bounded a c Ha Hc Hac).
  rewrite (getElapsedSeconds_civil LocalTZA LocalTZA_bounded b a Hb Ha
             ltac:(congruence)).
  eexists _, _. split; [reflexivity |]. split; [reflexivity |].
  split; [f_equal; lia |]. split; [f_equal; lia |].
  unfold instant, JsDate.UTC. rewrite Hab.
  unfold JsDate.MakeDate, JsDate.MakeTime, JsDate.msPerDay. lia.
Qed.

End ElapsedBothWays.

Lemma getElapsedSeconds_signed_witness :
  Format.getElapsedSeconds cet "2024-03-01 00:00:01" "2024-02-29 23:59:59" = Some (-2).
Proof.
  destruct (getElapsedSeconds_signed cet cet_bounded leapDayEvening marchFirst marchFirst
              eq_refl eq_refl eq_refl eq_refl eq_refl)
    as (x & y & Hx & _ & _ & Hback & _).
  assert (x = 2) as -> by (vm_compute in Hx; congruence).
  exact Hback.
Defined.

(** *** Durations *)

Lemma uint_digits d : Forall (fun c => isDigit c = true) (JsString.chars (NilEmpty.string_of_uint d)).
Proof. induction d; cbn; constructor; auto. Qed.

Lemma decimal_digits n :
  0 <= n -> Forall (fun c => isDigit c = true) (JsString.chars (Client.decimal n)).
Proof.
  intros Hn. unfold Client.decimal. destruct n as [| p | p]; [| | lia].
  - cbn. repeat constructor.
  - cbn [Z.to_int NilZero.string_of_int]. unfold NilZero.string_of_uint.
    destruct (Pos.to_uint p) eqn:E; [now apply DecimalPos.Unsigned.to_uint_nonnil in E | ..];
      apply uint_digits.
Qed.

Lemma decimal_reads_back n :
  0 <= n -> Z.of_int <$> NilZero.int_of_string (Client.decimal n) = Some n.
Proof.
  intros Hn. unfold Client.decimal. rewrite NilZero.isi.
  - cbn. f_equal. apply DecimalZ.of_to.
  - destruct n as [| p | p]; [discriminate | | lia].
    cbn. intros [= H]. now apply DecimalPos.Unsigned.to_uint_nonnil in H.
  - destruct n as [| p | p]; [discriminate | discriminate | lia].
Qed.

Lemma words_word cur t :
  " "%char ∉ t -> words cur t = [(rev cur ++ t)%list].
Proof.
  revert cur. induction t as [| c t IH]; intros cur Ht; cbn.
  - now rewrite app_nil_r.
  - apply not_elem_of_cons in Ht as [Hc Ht].
    destruct (Ascii.eqb_spec c " "%char); [congruence |].
    rewrite IH by exact Ht. cbn. now rewrite <- app_assoc.
Qed.

Lemma words_cons cur t rest :
  " "%char ∉ t ->
  words cur (t ++ " "%char :: rest) = (rev cur ++ t)%list :: words [] rest.
Proof.
  revert cur. induction t as [| c t IH]; intros cur Ht; cbn.
  - now rewrite app_nil_r.
  - apply not_elem_of_cons in Ht as [Hc Ht].
    destruct (Ascii.eqb_spec c " "%char); [congruence |].
    rewrite IH by exact Ht. cbn. now rewrite <- app_assoc.
Qed.

Lemma digit_not_space c : isDigit c = true -> c <> " "%char.
Proof. intros H ->. discriminate. Qed.

Lemma leadingDigits_app ds u :
  Forall (fun c => isDigit c = true) ds ->
  match u with [] => True | c :: _ => isDigit c = false end ->
  leadingDigits (ds ++ u) = (ds, u).
Proof.
  intros Hds Hu. induction Hds as [| c ds Hc _ IH]; cbn.
  - destruct u as [| c u]; [reflexivity |]. cbn. now rewrite Hu.
  - now rewrite Hc, IH.
Qed.

(** One part of a displayed duration: a number and its unit. *)
Lemma readPart_part n unit k :
  0 <= n ->
  unitSeconds unit = Some k ->
  readPart (JsString.chars (Client.decimal n +:+ unit)) = Some (n * k) /\
  " "%char ∉ JsString.chars (Client.decimal n +:+ unit).
Proof.
  intros Hn Hk. rewrite chars_app.
  assert (match JsString.chars unit with [] => True | c :: _ => isDigit c = false end /\
          " "%char ∉ JsString.chars unit) as [Hu Hsp].
  { unfold unitSeconds in Hk.
    destruct (String.eqb_spec unit "h") as [-> | _];
      [split; [reflexivity |]; cbn; intros H;
       repeat (apply elem_of_cons in H as [H | H]; [discriminate |]);
       now apply elem_of_nil in H |].
    destruct (String.eqb_spec unit "min") as [-> | _];
      [split; [reflexivity |]; cbn; intros H;
       repeat (apply elem_of_cons in H as [H | H]; [discriminate |]);
       now apply elem_of_nil in H |].
    destruct (String.eqb_spec unit "sec") as [-> | _]; [| discriminate].
    split; [reflexivity |]. cbn. intros H.
    repeat (apply elem_of_cons in H as [H | H]; [discriminate |]).
    now apply elem_of_nil in H. }
  pose proof (decimal_digits n Hn) as Hd. split.
  - unfold readPart. rewrite (leadingDigits_app _ _ Hd Hu).
    rewrite !ofChars_chars. pose proof (decimal_reads_back n Hn) as Hr.
    destruct (NilZero.int_of_string (Client.decimal n)) as [i |]; [| discriminate].
    cbn in Hr. injection Hr as Hr. cbn. rewrite Hk. cbn. now rewrite Hr.
  - intros H. apply elem_of_app in H as [H | H]; [| contradiction].
    rewrite Forall_forall in Hd. now apply Hd, digit_not_space in H.
Qed.

Lemma readDuration_one n u k :
  0 <= n -> unitSeconds u = Some k ->
  readDuration (Client.decimal n +:+ u) = Some (n * k).
Proof.
  intros Hn Hu. destruct (readPart_part n u k Hn Hu) as [Hr Hs].
  unfold readDuration. rewrite (words_word [] _ Hs). cbn.
  rewrite Hr. cbn. f_equal. lia.
Qed.

Lemma readDuration_more n u k rest total :
  0 <= n -> unitSeconds u = Some k ->
  readDuration rest = Some total ->
  readDuration ((Client.decimal n +:+ u) +:+ " " +:+ rest) = Some (n * k + total).
Proof.
  intros Hn Hu Hrest. destruct (readPart_part n u k Hn Hu) as [Hr Hs].
  unfold readDuration in *.
  rewrite chars_app.
  change (JsString.chars (" " +:+ rest)) with (" "%char :: JsString.chars rest).
  rewrite (words_cons [] _ _ Hs). cbn [rev app mapM].
  rewrite Hr. cbn [mbind option_bind].
  destruct (mapM readPart (words [] (JsString.chars rest))) as [parts |];
    [| discriminate].
  cbn in Hrest. injection Hrest as <-. reflexivity.
Qed.

Lemma formatDuration_reads_back_nonneg s :
  0 <= s -> readDuration (FormatText.formatDuration s) = Some s.
Proof.
  intros Hs. unfold FormatText.formatDuration.
  rewrite !Z.rem_mod_nonneg by lia.
  set (h := s / 3600). set (m := s mod 3600 / 60). set (c := s mod 60).
  assert (0 <= h /\ 0 <= m < 60 /\ 0 <= c < 60 /\ s = 3600 * h + 60 * m + c)
    as (Hh & Hm & Hc & Hsum).
  { unfold h, m, c. Z.div_mod_to_equations. lia. }
  clearbody h m c.
  destruct (Z.eqb_spec h 0) as [Hh0 | Hh0]; destruct (Z.eqb_spec m 0) as [Hm0 | Hm0];
    destruct (Z.eqb_spec c 0) as [Hc0 | Hc0]; cbn [andb orb];
    destruct (Z.ltb_spec 0 h); destruct (Z.ltb_spec 0 m); destruct (Z.ltb_spec 0 c);
    try lia; cbn [app Client.join orb].
  - (* 0 *) subst. reflexivity.
  - (* seconds *) rewrite (readDuration_one c "sec" 1) by (lia || reflexivity).
    f_equal. lia.
  - (* minutes *) rewrite (readDuration_one m "min" 60) by (lia || reflexivity).
    f_equal. lia.
  - (* minutes, seconds *)
    rewrite (readDuration_more m "min" 60 _ (c * 1)) by
      (lia || reflexivity || (apply readDuration_one; (lia || reflexivity))).
    f_equal. lia.
  - (* hours *) rewrite (readDuration_one h "h" 3600) by (lia || reflexivity).
    f_equal. lia.
  - (* hours, seconds *)
    rewrite (readDuration_more h "h" 3600 _ (c * 1)) by
      (lia || reflexivity || (apply readDuration_one; (lia || reflexivity))).
    f_equal. lia.
  - (* hours, minutes *)
    rewrite (readDuration_more h "h" 3600 _ (m * 60)) by
      (lia || reflexivity || (apply readDuration_one; (lia || reflexivity))).
    f_equal. lia.
  - (* hours, minutes, seconds *)
    rewrite (readDuration_more h "h" 3600 _ (m * 60 + c * 1)) by
      (lia || reflexivity ||
       (apply readDuration_more;
        (lia || reflexivity || (apply readDuration_one; (lia || reflexivity))))).
    f_equal. lia.
Qed.

(** X30. [formatDuration] on whole seconds.  A duration of 0 or more is
    displayed so that it can be read back: the hours, minutes and seconds
    shown add up to the duration, hence two different durations are never
    displayed alike.  A negative duration, which [getElapsedSeconds]
    produces for a start time in the future, is displayed as the empty
    string. *)
Theorem formatDuration_display (s : Z) :
  (0 <= s <= maxSafeInteger ->
   readDuration (FormatText.formatDuration s) = Some s /\
   forall s', 0 <= s' <= maxSafeInteger ->
              FormatText.formatDuration s' = FormatText.formatDuration s -> s' = s) /\
  (- maxSafeInteger <= s < 0 -> FormatText.formatDuration s = EmptyString).
Proof.
  split.
  - intros [Hs _]. split; [now apply formatDuration_reads_back_nonneg |].
    intros s' [Hs' _] Heq.
    pose proof (formatDuration_reads_back_nonneg s Hs) as H1.
    pose proof (formatDuration_reads_back_nonneg s' Hs') as H2.
    congruence.
  - intros [_ Hs]. unfold FormatText.formatDuration.
    assert (s / 3600 < 0 /\ Z.rem s 3600 / 60 <= 0 /\ Z.rem s 60 <= 0) as (Hh & Hm & Hc).
    { assert (Z.rem s 3600 <= 0) as H1 by (Z.quot_rem_to_equations; lia).
      assert (Z.rem s 60 <= 0) as H2 by (Z.quot_rem_to_equations; lia).
      split; [Z.div_mod_to_equations; lia |]. split; [| lia].
      revert H1. generalize (Z.rem s 3600). intros r Hr.
      Z.div_mod_to_equations. lia. }
    replace (s / 3600 =? 0) with false by lia.
    replace (0 <? s / 3600) with false by lia.
    replace (0 <? Z.rem s 3600 / 60) with false by lia.
    replace (0 <? Z.rem s 60) with false by lia.
    reflexivity.
Qed.

Lemma formatDuration_display_witness :
  FormatText.formatDuration 9015 = "2h 30min 15sec" /\
  readDuration (FormatText.formatDuration 9015) = Some 9015 /\
  FormatText.formatDuration (-2) = EmptyString.
Proof.
  split; [reflexivity |]. split.
  - apply (proj1 (proj1 (formatDuration_display 9015) ltac:(unfold maxSafeInteger; lia))).
  - apply (proj2 (formatDuration_display (-2))). unfold maxSafeInteger. lia.
Defined.
